(** * ndn-skeleton: authentication, access control and catalog queries

    A shallow embedding of the Go backend's auth service
    ([services.AuthService]), its HTTP middleware ([handlers.AuthHandler]),
    the movie service ([services.MovieService]) and the movie listing
    handler ([handlers.MovieHandler.GetMovies]), followed by the properties
    the specification states about them.

    Conventions.
    - Go's [int] and [int64] are 64-bit two's complement: values are [Z],
      and where the source does arithmetic the wrap-around is written out
      ([GoInt.wrap]).
    - [time.Time] is a number of seconds since the Unix epoch and
      [time.Duration] a number of seconds: this is the resolution of the
      [exp]/[iat] fields of a JWT.  The clock reading a request handler
      works with is passed to it as the argument [now].
    - The relational store is a record of tables (lists of rows); functions
      that write to it return the new store.
    - The third-party libraries (golang-jwt, bcrypt) and the PostgreSQL
      operators whose definition lies outside the repository are interfaces
      (type classes); [Reference] gives executable instances.

    The file gives the model first, then the reference instances, the
    notions the statements use and the data of the examples, and then the
    lemmas and theorems.  The model has two parts: the code the
    specification speaks of, and after it the further parts of the
    backend (users, categories, the other movie handlers, registration,
    the route groups), each with its notions and data. *)

From Stdlib Require Import ZArith String Ascii List Bool Lia PrimFloat.
From stdpp Require Import base option list gmap strings sorting.

Set Default Proof Using "Type".
Open Scope string_scope.
Open Scope Z_scope.

(** ** Go basics *)

(** [result A]: a Go return pair [(A, error)] with exactly one side set. *)
Inductive result (E A : Type) : Type :=
| Ok (a : A)
| Err (e : E).
Arguments Ok {E A} a.
Arguments Err {E A} e.

Module GoInt.

Definition MaxInt : Z := 2 ^ 63 - 1.
Definition MinInt : Z := - 2 ^ 63.

Definition inRange (z : Z) : bool := (MinInt <=? z) && (z <=? MaxInt).

(** Two's complement wrap-around of a mathematical result into [int]. *)
Definition wrap (z : Z) : Z := (z + 2 ^ 63) mod 2 ^ 64 - 2 ^ 63.

Definition sub (a b : Z) : Z := wrap (a - b).
Definition mul (a b : Z) : Z := wrap (a * b).

End GoInt.

Module strconv.

Definition digitVal (c : ascii) : option Z :=
  let n := Z.of_nat (nat_of_ascii c) in
  if (48 <=? n) && (n <=? 57) then Some (n - 48) else None.

Fixpoint parseDigits (acc : Z) (s : string) : option Z :=
  match s with
  | EmptyString => Some acc
  | String c rest =>
      match digitVal c with
      | Some d => parseDigits (10 * acc + d) rest
      | None => None
      end
  end.

(** [strconv.Atoi]: an optional sign, then one or more decimal digits and
    nothing else; [None] stands for a non-nil error (syntax or range). *)
Definition Atoi (s : string) : option Z :=
  match s with
  | EmptyString => None
  | String c rest =>
      let neg := Ascii.eqb c "-" in
      let body := if neg || Ascii.eqb c "+" then rest else s in
      match body with
      | EmptyString => None
      | _ =>
          match parseDigits 0 body with
          | None => None
          | Some n =>
              let v := if neg then - n else n in
              if GoInt.inRange v then Some v else None
          end
      end
  end.

End strconv.

Module strings.

(** [strings.Split s sep] for a one-character separator: the pieces
    between the separators, empty pieces included; [Split "" sep] is
    [[""]]. *)
Fixpoint Split (s : string) (sep : ascii) : list string :=
  match s with
  | EmptyString => [EmptyString]
  | String c rest =>
      if Ascii.eqb c sep then EmptyString :: Split rest sep
      else
        match Split rest sep with
        | [] => [String c EmptyString]
        | p :: ps => String c p :: ps
        end
  end.

End strings.

(** ** Errors

    Sentinel errors are compared by identity in the source
    ([err == services.ErrInvalidToken]); each is a constructor of its own.
    An error made on the spot by [errors.New] is an [errorString], never
    equal to a sentinel.  [wrapError] is [fmt.Errorf("<prefix>: %w", err)]. *)
Inductive error : Type :=
| ErrInvalidCredentials
| ErrInvalidToken
| ErrUserNotFound
| ErrTokenMalformed
| ErrTokenUnverifiable (cause : error)
| ErrTokenSignatureInvalid
| ErrTokenExpired
| ErrTokenNotValidYet
| ErrInvalidKeyType
| errorString (msg : string)
| wrapError (prefix : string) (cause : error).

Fixpoint Error (e : error) : string :=
  match e with
  | ErrInvalidCredentials => "invalid credentials"
  | ErrInvalidToken => "invalid or expired token"
  | ErrUserNotFound => "user not found"
  | ErrTokenMalformed => "token is malformed"
  | ErrTokenUnverifiable cause => "token is unverifiable: " ++ Error cause
  | ErrTokenSignatureInvalid => "token signature is invalid"
  | ErrTokenExpired => "token has invalid claims: token is expired"
  | ErrTokenNotValidYet => "token has invalid claims: token is not valid yet"
  | ErrInvalidKeyType => "key is of invalid type"
  | errorString msg => msg
  | wrapError prefix cause => prefix ++ ": " ++ Error cause
  end.

Definition isErrInvalidCredentials (e : error) : bool :=
  match e with ErrInvalidCredentials => true | _ => false end.

Definition isErrInvalidToken (e : error) : bool :=
  match e with ErrInvalidToken => true | _ => false end.

(** ** Time *)

Module time.

Definition Second : Z := 1.
Definition Minute : Z := 60 * Second.
Definition Hour : Z := 60 * Minute.

Definition Add (t d : Z) : Z := t + d.
(** [time.Until t], read at clock value [now]. *)
Definition Until (now t : Z) : Z := t - now.
Definition Seconds (d : Z) : Z := d / Second.

End time.

(** ** Data model ([models]) *)

Module User.
(** [models.User]; the [Profile] relation is never loaded by the code
    modelled here and is left out. *)
Record t : Type := {
  ID : Z;
  Email : string;
  Password : string;
  Name : string;
  IsAdmin : bool;
  CreatedAt : Z;
  UpdatedAt : Z
}.
End User.

Module Movie.
Record t : Type := {
  ID : Z;
  Title : string;
  Description : string;
  ReleaseYear : Z;
  Duration : Z;
  PosterURL : string;
  VideoURL : string;
  Categories : list string;
  Rating : float;
  CreatedAt : Z;
  UpdatedAt : Z
}.
End Movie.

Module UserFavorite.
Record t : Type := {
  ID : Z;
  UserID : Z;
  MovieID : Z;
  CreatedAt : Z
}.
End UserFavorite.

Module MovieCategory.
Record t : Type := {
  MovieID : Z;
  CategoryID : Z;
  CreatedAt : Z
}.
End MovieCategory.

(** ** The store ([database])

    One PostgreSQL database behind [bun.DB]: its tables and the sequences
    of the auto-incremented keys.  A query over a reachable database either
    finds rows or finds none ([sql.ErrNoRows]). *)
Module database.

Record DB : Type := {
  users : list User.t;
  users_id_seq : Z;
  movies : list Movie.t;
  movies_id_seq : Z;
  movie_categories : list MovieCategory.t;
  user_favorites : list UserFavorite.t
}.

Definition with_users (db : DB) (us : list User.t) (seq : Z) : DB :=
  {| users := us; users_id_seq := seq;
     movies := movies db; movies_id_seq := movies_id_seq db;
     movie_categories := movie_categories db;
     user_favorites := user_favorites db |}.

Definition with_movies (db : DB) (ms : list Movie.t) (seq : Z) : DB :=
  {| users := users db; users_id_seq := users_id_seq db;
     movies := ms; movies_id_seq := seq;
     movie_categories := movie_categories db;
     user_favorites := user_favorites db |}.

(** [AuthDB.GetUser]: [SELECT ... WHERE id = ?]. *)
Definition GetUser (db : DB) (id : Z) : result error User.t :=
  match List.find (fun u => User.ID u =? id) (users db) with
  | Some user => Ok user
  | None => Err (errorString "user not found")
  end.

(** [AuthDB.GetUserByEmail]: [SELECT ... WHERE email = ?]. *)
Definition GetUserByEmail (db : DB) (email : string) : result error User.t :=
  match List.find (fun u => String.eqb (User.Email u) email) (users db) with
  | Some user => Ok user
  | None => Err (errorString "user not found")
  end.

(** [AuthDB.UserExists]. *)
Definition UserExists (db : DB) (email : string) : result error bool :=
  Ok (existsb (fun u => String.eqb (User.Email u) email) (users db)).

Definition setUserID (u : User.t) (id : Z) : User.t :=
  {| User.ID := id; User.Email := User.Email u;
     User.Password := User.Password u; User.Name := User.Name u;
     User.IsAdmin := User.IsAdmin u; User.CreatedAt := User.CreatedAt u;
     User.UpdatedAt := User.UpdatedAt u |}.

(** [AuthDB.CreateUser]: [INSERT INTO users ... RETURNING id].  A zero
    [ID] takes the next value of the sequence; the primary key and the
    [unique] constraint on [email] reject duplicates.  The row inserted is
    handed back, as bun scans the returned key into the model. *)
Definition CreateUser (db : DB) (user : User.t)
  : result error (DB * User.t) :=
  let fresh := User.ID user =? 0 in
  let id := if fresh then users_id_seq db + 1 else User.ID user in
  let seq := if fresh then id else users_id_seq db in
  if existsb (fun u => User.ID u =? id) (users db) then
    Err (errorString "duplicate key value violates unique constraint: users_pkey")
  else if existsb (fun u => String.eqb (User.Email u) (User.Email user)) (users db) then
    Err (errorString "duplicate key value violates unique constraint: users_email_key")
  else
    let row := setUserID user id in
    Ok (with_users db (users db ++ [row]) seq, row).

End database.

(** ** Third-party interfaces *)

Module bcrypt.

Definition DefaultCost : Z := 10.

(** [golang.org/x/crypto/bcrypt].  [GenerateFromPassword] draws a random
    salt, passed here as an argument; [CompareHashAndPassword h p] is
    [true] when the Go function returns a nil error. *)
Class Bcrypt : Type := {
  GenerateFromPassword : string -> Z -> string -> result error string;
  CompareHashAndPassword : string -> string -> bool
}.

End bcrypt.

Module jwt.

Inductive SigningMethod : Type :=
| SigningMethodHS256
| SigningMethodHS384
| SigningMethodHS512
| SigningMethodNone
| SigningMethodOther (alg : string).

(** The type assertion of [token.Method] to a pointer to
    [jwt.SigningMethodHMAC]. *)
Definition isSigningMethodHMAC (m : SigningMethod) : bool :=
  match m with
  | SigningMethodHS256 | SigningMethodHS384 | SigningMethodHS512 => true
  | _ => false
  end.

Definition Alg (m : SigningMethod) : string :=
  match m with
  | SigningMethodHS256 => "HS256"
  | SigningMethodHS384 => "HS384"
  | SigningMethodHS512 => "HS512"
  | SigningMethodNone => "none"
  | SigningMethodOther alg => alg
  end.

Record RegisteredClaims : Type := {
  Issuer : string;
  Subject : string;
  Audience : list string;
  ExpiresAt : option Z;
  NotBefore : option Z;
  IssuedAt : option Z;
  ID : string
}.

(** [services.Claims]: the claims type every token of this program
    carries. *)
Record Claims : Type := {
  UserID : Z;
  Email : string;
  IsAdmin : bool;
  Registered : RegisteredClaims
}.

Record Token : Type := {
  Method : SigningMethod;
  TokenClaims : Claims;
  Signature : string;
  Valid : bool
}.

(** [jwt.NewNumericDate] keeps whole seconds, the unit of time here. *)
Definition NewNumericDate (t : Z) : option Z := Some t.

Definition NewWithClaims (m : SigningMethod) (c : Claims) : Token :=
  {| Method := m; TokenClaims := c; Signature := ""; Valid := false |}.

Definition setValid (t : Token) : Token :=
  {| Method := Method t; TokenClaims := TokenClaims t;
     Signature := Signature t; Valid := true |}.

(** [github.com/golang-jwt/jwt/v5], the parts whose definition is the
    encoding itself: the signing string of a header and claims (two
    base64url JSON segments), the HMAC of a signing string under a key,
    and the decoding of a compact token into its method, claims and
    signature together with the signing string it was read from. *)
Class JWT : Type := {
  SigningString : SigningMethod -> Claims -> string;
  HMAC : SigningMethod -> string -> string -> string;
  ParseUnverified : string -> option (Token * string)
}.

(** What the program relies on: decoding inverts the encoding of a signed
    token, and the empty string is no token. *)
Class JWTLaws `{JWT} : Prop := {
  ParseUnverified_signed : forall m c key,
    isSigningMethodHMAC m = true ->
    ParseUnverified
      (SigningString m c ++ "." ++ HMAC m (SigningString m c) key)
    = Some ({| Method := m; TokenClaims := c;
               Signature := HMAC m (SigningString m c) key;
               Valid := false |},
            SigningString m c);
  ParseUnverified_empty : ParseUnverified "" = None
}.

Section Library.
Context `{JWT}.

(** [Token.SignedString key] with a [[]byte] key. *)
Definition SignedString (t : Token) (key : string) : result error string :=
  if isSigningMethodHMAC (Method t) then
    let sstr := SigningString (Method t) (TokenClaims t) in
    Ok (sstr ++ "." ++ HMAC (Method t) sstr key)
  else Err ErrInvalidKeyType.

(** [SigningMethod.Verify] with a [[]byte] key; [None] is a nil error. *)
Definition Verify (m : SigningMethod) (signingString sig key : string)
  : option error :=
  if isSigningMethodHMAC m then
    if String.eqb sig (HMAC m signingString key) then None
    else Some ErrTokenSignatureInvalid
  else Some ErrInvalidKeyType.

(** The default [Validator]: [exp] and [nbf] are checked when present,
    [iat] is not. *)
Definition Validate (now : Z) (c : Claims) : option error :=
  match ExpiresAt (Registered c) with
  | Some exp => if now <? exp then
                  match NotBefore (Registered c) with
                  | Some nbf => if nbf <=? now then None
                                else Some ErrTokenNotValidYet
                  | None => None
                  end
                else Some ErrTokenExpired
  | None =>
      match NotBefore (Registered c) with
      | Some nbf => if nbf <=? now then None else Some ErrTokenNotValidYet
      | None => None
      end
  end.

(** [jwt.ParseWithClaims tokenString &Claims{} keyFunc], read at clock
    value [now]: decode, look the key up, verify the signature, validate
    the claims. *)
Definition ParseWithClaims (now : Z) (tokenString : string)
    (keyFunc : Token -> result error string) : result error Token :=
  match ParseUnverified tokenString with
  | None => Err ErrTokenMalformed
  | Some (token, signingString) =>
      match keyFunc token with
      | Err e => Err (ErrTokenUnverifiable e)
      | Ok key =>
          match Verify (Method token) signingString (Signature token) key with
          | Some _ => Err ErrTokenSignatureInvalid
          | None =>
              match Validate now (TokenClaims token) with
              | Some e => Err e
              | None => Ok (setValid token)
              end
          end
      end
  end.

End Library.
End jwt.

Module postgres.

(** PostgreSQL operators the catalog queries use: case-insensitive
    pattern matching ([title ILIKE ?]), array overlap ([categories && ?])
    and the collation order of [text]. *)
Class Postgres : Type := {
  ILIKE : string -> string -> bool;
  array_overlap : list string -> list string -> bool;
  text_le : string -> string -> bool
}.

(** The order of [float8]: NaN equals itself and is above every number. *)
Definition float8_le (x y : float) : bool :=
  match PrimFloat.compare x y with
  | FLt | FEq => true
  | FGt => false
  | FNotComparable => PrimFloat.is_nan y
  end.

(** [LIMIT limit OFFSET offset] over the rows of a query, for a positive
    limit; PostgreSQL rejects a negative limit or offset. *)
Definition LimitOffset {A : Type} (limit offset : Z) (rows : list A)
  : result error (list A) :=
  if offset <? 0 then Err (errorString "OFFSET must not be negative")
  else if limit <? 0 then Err (errorString "LIMIT must not be negative")
  else Ok (take (Z.to_nat limit) (drop (Z.to_nat offset) rows)).

End postgres.

(** ** Request contexts ([context])

    A context is the chain of values attached so far, innermost first.  A
    key is compared with its dynamic type: a [services.contextKey] never
    equals a plain string of the same spelling. *)
Module context.

Inductive key : Type :=
| contextKey (name : string)
| stringKey (name : string).

Inductive any : Type :=
| anyInt64 (n : Z)
| anyString (s : string).

Definition Context : Type := list (key * any).

Definition key_eqb (a b : key) : bool :=
  match a, b with
  | contextKey x, contextKey y => String.eqb x y
  | stringKey x, stringKey y => String.eqb x y
  | _, _ => false
  end.

Definition WithValue (ctx : Context) (k : key) (v : any) : Context :=
  (k, v) :: ctx.

Fixpoint Value (ctx : Context) (k : key) : option any :=
  match ctx with
  | [] => None
  | (k', v) :: parent => if key_eqb k' k then Some v else Value parent k
  end.

End context.

(** ** The auth service ([services.AuthService]) *)
Module services.

Import database.

Definition userIDKey : context.key := context.contextKey "user_id".

Record AuthService : Type := {
  db : DB;
  jwtSecret : string
}.

Module AuthResponse.
Record t : Type := {
  Token : string;
  ExpiresIn : Z;
  UserID : Z;
  Name : string;
  Email : string;
  IsAdmin : bool
}.
End AuthResponse.

Definition NewAuthService (db : DB) (jwtSecret : string) : AuthService :=
  {| db := db; jwtSecret := jwtSecret |}.

Definition ContextWithUserID (ctx : context.Context) (userID : Z)
  : context.Context :=
  context.WithValue ctx userIDKey (context.anyInt64 userID).

(** The failed type assertion [.(int64)] leaves the zero value. *)
Definition UserIDFromContext (ctx : context.Context) : Z :=
  match context.Value ctx userIDKey with
  | Some (context.anyInt64 userID) => userID
  | _ => 0
  end.

Section Auth.
Context `{jwt.JWT} `{bcrypt.Bcrypt}.

(** [generateToken]; the readings of the clock within one call are the
    one reading [now]. *)
Definition generateToken (s : AuthService) (now : Z) (user : User.t)
  : result error (string * Z) :=
  let expirationTime := time.Add now (24 * time.Hour) in
  let expiresIn := time.Seconds (time.Until now expirationTime) in
  let claims :=
    {| jwt.UserID := User.ID user;
       jwt.Email := User.Email user;
       jwt.IsAdmin := User.IsAdmin user;
       jwt.Registered :=
         {| jwt.Issuer := ""; jwt.Subject := ""; jwt.Audience := [];
            jwt.ExpiresAt := jwt.NewNumericDate expirationTime;
            jwt.NotBefore := None;
            jwt.IssuedAt := jwt.NewNumericDate now;
            jwt.ID := "" |} |} in
  let token := jwt.NewWithClaims jwt.SigningMethodHS256 claims in
  match jwt.SignedString token (jwtSecret s) with
  | Err err => Err err
  | Ok tokenString => Ok (tokenString, expiresIn)
  end.

Definition parseToken (s : AuthService) (now : Z) (tokenString : string)
  : result error jwt.Claims :=
  match
    jwt.ParseWithClaims now tokenString
      (fun token =>
         if jwt.isSigningMethodHMAC (jwt.Method token) then Ok (jwtSecret s)
         else Err (errorString
                     ("unexpected signing method: " ++ jwt.Alg (jwt.Method token))))
  with
  | Err err => Err err
  | Ok token =>
      if jwt.Valid token then Ok (jwt.TokenClaims token)
      else Err ErrInvalidToken
  end.

Definition authResponse (token : string) (expiresIn : Z) (user : User.t)
  : AuthResponse.t :=
  {| AuthResponse.Token := token;
     AuthResponse.ExpiresIn := expiresIn;
     AuthResponse.UserID := User.ID user;
     AuthResponse.Name := User.Name user;
     AuthResponse.Email := User.Email user;
     AuthResponse.IsAdmin := User.IsAdmin user |}.

(** [Register]; [salt] is the randomness bcrypt draws.  The second
    component is the service over the store after the call. *)
Definition Register (s : AuthService) (now : Z) (salt : string)
    (email password name : string)
  : result error AuthResponse.t * AuthService :=
  match bcrypt.GenerateFromPassword password bcrypt.DefaultCost salt with
  | Err err => (Err (wrapError "failed to hash password" err), s)
  | Ok hashedPassword =>
      let user :=
        {| User.ID := 0; User.Email := email;
           User.Password := hashedPassword; User.Name := name;
           User.IsAdmin := false; User.CreatedAt := 0;
           User.UpdatedAt := 0 |} in
      match CreateUser (db s) user with
      | Err err => (Err (wrapError "failed to create user" err), s)
      | Ok (db', user) =>
          let s' := {| db := db'; jwtSecret := jwtSecret s |} in
          match generateToken s now user with
          | Err err => (Err (wrapError "failed to generate token" err), s')
          | Ok (token, expiresIn) =>
              (Ok (authResponse token expiresIn user), s')
          end
      end
  end.

Definition Login (s : AuthService) (now : Z) (email password : string)
  : result error AuthResponse.t :=
  match GetUserByEmail (db s) email with
  | Err _ => Err ErrInvalidCredentials
  | Ok user =>
      if bcrypt.CompareHashAndPassword (User.Password user) password then
        match generateToken s now user with
        | Err err => Err (wrapError "failed to generate token" err)
        | Ok (token, expiresIn) => Ok (authResponse token expiresIn user)
        end
      else Err ErrInvalidCredentials
  end.

Definition RefreshToken (s : AuthService) (now : Z) (token : string)
  : result error AuthResponse.t :=
  match parseToken s now token with
  | Err _ => Err ErrInvalidToken
  | Ok claims =>
      match GetUser (db s) (jwt.UserID claims) with
      | Err _ => Err ErrUserNotFound
      | Ok user =>
          match generateToken s now user with
          | Err err => Err (wrapError "failed to generate token" err)
          | Ok (newToken, expiresIn) =>
              Ok (authResponse newToken expiresIn user)
          end
      end
  end.

Definition ValidateToken (s : AuthService) (now : Z) (token : string)
  : result error Z :=
  match parseToken s now token with
  | Err _ => Err ErrInvalidToken
  | Ok claims => Ok (jwt.UserID claims)
  end.

Definition UserExists (s : AuthService) (email : string)
  : result error bool :=
  database.UserExists (db s) email.

Definition IsAdmin (s : AuthService) (userID : Z) : result error bool :=
  match GetUser (db s) userID with
  | Err err => Err err
  | Ok user => Ok (User.IsAdmin user)
  end.

End Auth.
(** ** The movie service ([services.MovieService]) *)

Module MovieFilter.
Record t : Type := {
  CategoryID : option Z;
  Search : string;
  SortBy : string;
  Categories : list string;
  Year : option Z;
  Page : Z;
  PageSize : Z
}.
End MovieFilter.

Section Movies.
Context `{postgres.Postgres}.

(** The rows of [FROM movies [JOIN movie_categories ...]]. *)
Definition fromRows (db : DB) (filter : MovieFilter.t) : list Movie.t :=
  match MovieFilter.CategoryID filter with
  | None => movies db
  | Some categoryID =>
      flat_map
        (fun movie =>
           List.map (fun _ => movie)
             (List.filter
                (fun mc =>
                   (MovieCategory.MovieID mc =? Movie.ID movie)
                   && (MovieCategory.CategoryID mc =? categoryID))
                (movie_categories db)))
        (movies db)
  end.

(** The conjunction of the [WHERE] clauses the filter adds. *)
Definition whereClauses (filter : MovieFilter.t) (movie : Movie.t) : bool :=
  (if String.eqb (MovieFilter.Search filter) "" then true
   else
     let pattern := "%" ++ MovieFilter.Search filter ++ "%" in
     postgres.ILIKE (Movie.Title movie) pattern
     || postgres.ILIKE (Movie.Description movie) pattern)
  && (if (0 <? Z.of_nat (length (MovieFilter.Categories filter))) then
        postgres.array_overlap (Movie.Categories movie)
          (MovieFilter.Categories filter)
      else true)
  && (match MovieFilter.Year filter with
      | Some year => Movie.ReleaseYear movie =? year
      | None => true
      end).

(** The filtered set: the rows the query selects before any ordering,
    limit or offset. *)
Definition filtered (db : DB) (filter : MovieFilter.t) : list Movie.t :=
  List.filter (whereClauses filter) (fromRows db filter).

(** The [ORDER BY] of a sort key: [a] may come before [b]. *)
Definition orderOf (sortBy : string) (a b : Movie.t) : bool :=
  if String.eqb sortBy "title_asc" then
    postgres.text_le (Movie.Title a) (Movie.Title b)
  else if String.eqb sortBy "title_desc" then
    postgres.text_le (Movie.Title b) (Movie.Title a)
  else if String.eqb sortBy "year_asc" then
    Movie.ReleaseYear a <=? Movie.ReleaseYear b
  else if String.eqb sortBy "year_desc" then
    Movie.ReleaseYear b <=? Movie.ReleaseYear a
  else if String.eqb sortBy "rating_desc" then
    postgres.float8_le (Movie.Rating b) (Movie.Rating a)
  else
    Movie.CreatedAt b <=? Movie.CreatedAt a.

(** [ORDER BY]: the rows sorted by the key of [sortBy].  PostgreSQL
    leaves the order of rows with equal keys open; the sort here fixes
    one. *)
Definition Order (sortBy : string) (rows : list Movie.t) : list Movie.t :=
  @merge_sort _ (fun a b => orderOf sortBy a b = true)
    (fun a b => decide (orderOf sortBy a b = true)) rows.

(** Lines 57-62 of the service: the page and page size the query runs
    with. *)
Definition effectivePage (filter : MovieFilter.t) : Z :=
  if MovieFilter.Page filter <=? 0 then 1 else MovieFilter.Page filter.

Definition effectivePageSize (filter : MovieFilter.t) : Z :=
  if MovieFilter.PageSize filter <=? 0 then 20
  else MovieFilter.PageSize filter.

(** [GetMovies] returns the triple [(movies, total, err)]; the count runs
    on the query before its order, limit and offset are set. *)
Definition GetMovies (db : DB) (filter : MovieFilter.t)
  : list Movie.t * Z * option error :=
  let query := filtered db filter in
  let total := Z.of_nat (length query) in
  let page := effectivePage filter in
  let pageSize := effectivePageSize filter in
  let offset := GoInt.mul (GoInt.sub page 1) pageSize in
  let query := Order (MovieFilter.SortBy filter) query in
  match postgres.LimitOffset pageSize offset query with
  | Err err => ([], total, Some err)
  | Ok movies => (movies, total, None)
  end.

Definition GetMovie (db : DB) (id : Z) : result error Movie.t :=
  match List.find (fun m => Movie.ID m =? id) (movies db) with
  | Some movie => Ok movie
  | None => Err (errorString "sql: no rows in result set")
  end.

Definition setMovieID (m : Movie.t) (id : Z) : Movie.t :=
  {| Movie.ID := id; Movie.Title := Movie.Title m;
     Movie.Description := Movie.Description m;
     Movie.ReleaseYear := Movie.ReleaseYear m;
     Movie.Duration := Movie.Duration m;
     Movie.PosterURL := Movie.PosterURL m;
     Movie.VideoURL := Movie.VideoURL m;
     Movie.Categories := Movie.Categories m;
     Movie.Rating := Movie.Rating m;
     Movie.CreatedAt := Movie.CreatedAt m;
     Movie.UpdatedAt := Movie.UpdatedAt m |}.

(** [INSERT INTO movies ... RETURNING id]. *)
Definition insertMovie (db : DB) (movie : Movie.t)
  : result error (DB * Movie.t) :=
  let fresh := Movie.ID movie =? 0 in
  let id := if fresh then movies_id_seq db + 1 else Movie.ID movie in
  let seq := if fresh then id else movies_id_seq db in
  if existsb (fun m => Movie.ID m =? id) (movies db) then
    Err (errorString "duplicate key value violates unique constraint: movies_pkey")
  else
    let row := setMovieID movie id in
    Ok (with_movies db (movies db ++ [row]) seq, row).

(** [CreateMovie] returns its error, and the store and the model (whose
    [ID] the insert fills in) after the call. *)
Definition CreateMovie (db : DB) (movie : Movie.t)
  : option error * DB * Movie.t :=
  let exists_ :=
    existsb (fun m => String.eqb (Movie.Title m) (Movie.Title movie))
      (movies db) in
  if exists_ then (Some (errorString "movie already exists"), db, movie)
  else
    match insertMovie db movie with
    | Err err => (Some err, db, movie)
    | Ok (db', movie') => (None, db', movie')
    end.

(** [UPDATE movies SET ... WHERE id = ?] with [OmitZero]: a column is set
    only when the model's field is not the zero value of its type. *)
Definition updateRow (movie row : Movie.t) : Movie.t :=
  {| Movie.ID := Movie.ID row;
     Movie.Title :=
       if String.eqb (Movie.Title movie) "" then Movie.Title row
       else Movie.Title movie;
     Movie.Description :=
       if String.eqb (Movie.Description movie) "" then Movie.Description row
       else Movie.Description movie;
     Movie.ReleaseYear :=
       if Movie.ReleaseYear movie =? 0 then Movie.ReleaseYear row
       else Movie.ReleaseYear movie;
     Movie.Duration :=
       if Movie.Duration movie =? 0 then Movie.Duration row
       else Movie.Duration movie;
     Movie.PosterURL :=
       if String.eqb (Movie.PosterURL movie) "" then Movie.PosterURL row
       else Movie.PosterURL movie;
     Movie.VideoURL :=
       if String.eqb (Movie.VideoURL movie) "" then Movie.VideoURL row
       else Movie.VideoURL movie;
     Movie.Categories :=
       match Movie.Categories movie with
       | [] => Movie.Categories row
       | cs => cs
       end;
     Movie.Rating :=
       if PrimFloat.eqb (Movie.Rating movie) 0%float then Movie.Rating row
       else Movie.Rating movie;
     Movie.CreatedAt :=
       if Movie.CreatedAt movie =? 0 then Movie.CreatedAt row
       else Movie.CreatedAt movie;
     Movie.UpdatedAt :=
       if Movie.UpdatedAt movie =? 0 then Movie.UpdatedAt row
       else Movie.UpdatedAt movie |}.

Definition UpdateMovie (db : DB) (movie : Movie.t) : option error * DB :=
  let exists_ :=
    existsb
      (fun m =>
         String.eqb (Movie.Title m) (Movie.Title movie)
         && negb (Movie.ID m =? Movie.ID movie))
      (movies db) in
  if exists_ then (Some (errorString "movie title already taken"), db)
  else
    (None,
     with_movies db
       (List.map
          (fun row =>
             if Movie.ID row =? Movie.ID movie then updateRow movie row
             else row)
          (movies db))
       (movies_id_seq db)).

Definition DeleteMovie (db : DB) (id : Z) : option error * DB :=
  (None,
   {| users := users db; users_id_seq := users_id_seq db;
      movies := List.filter (fun m => negb (Movie.ID m =? id)) (movies db);
      movies_id_seq := movies_id_seq db;
      movie_categories :=
        List.filter (fun mc => negb (MovieCategory.MovieID mc =? id))
          (movie_categories db);
      user_favorites :=
        List.filter (fun uf => negb (UserFavorite.MovieID uf =? id))
          (user_favorites db) |}).

End Movies.
End services.

(** ** HTTP ([net/http], [net/url]) *)
Module http.

Definition StatusOK : Z := 200.
Definition StatusBadRequest : Z := 400.
Definition StatusUnauthorized : Z := 401.
Definition StatusForbidden : Z := 403.
Definition StatusInternalServerError : Z := 500.

(** [Header.Get] and [url.Values.Get]: the first value under the key, or
    the empty string. *)
Definition Get (values : gmap string (list string)) (key : string) : string :=
  match values !! key with
  | Some (v :: _) => v
  | _ => ""
  end.

Record Request : Type := {
  Header : gmap string (list string);
  URLQuery : gmap string (list string);
  Body : string;
  Ctx : context.Context
}.

Definition WithContext (r : Request) (ctx : context.Context) : Request :=
  {| Header := Header r; URLQuery := URLQuery r; Body := Body r;
     Ctx := ctx |}.

End http.

(** ** Handlers and middleware ([handlers]) *)
Module handlers.

Import http.

Module LoginRequest.
Record t : Type := {
  Email : string;
  Password : string
}.
End LoginRequest.

(** [json.NewDecoder(r.Body).Decode(&req)] for a [LoginRequest]: [None]
    when the decoder returns an error. *)
Class JSONDecoder : Type := {
  decodeLoginRequest : string -> option LoginRequest.t
}.

Record MovieResponse : Type := {
  ID : Z;
  Title : string;
  Description : string;
  ReleaseYear : Z;
  Duration : Z;
  PosterURL : string;
  VideoURL : string;
  Categories : list string;
  Rating : float
}.

Record PaginatedMovieResponse : Type := {
  Movies : list MovieResponse;
  Total : Z;
  Page : Z
}.

(** What a handler wrote to its [http.ResponseWriter]: [ContentType] is
    the header the handler set itself (empty when it set none), [Status]
    the status written, 200 when the handler only wrote a body. *)
Inductive body : Type :=
| ErrorResponse (Error : string)
| plainText (text : string)
| jsonAuth (resp : services.AuthResponse.t)
| jsonMovies (resp : PaginatedMovieResponse)
| otherBody (text : string).

Record Response : Type := {
  ContentType : string;
  Status : Z;
  Written : body
}.

Definition Handler : Type := Request -> Response.

Definition sendError (message : string) (status : Z) : Response :=
  {| ContentType := "application/json"; Status := status;
     Written := ErrorResponse message |}.

Definition newline : string := String (ascii_of_nat 10) EmptyString.

(** [http.Error]: the message and a line feed, as plain text. *)
Definition httpError (message : string) (code : Z) : Response :=
  {| ContentType := "text/plain; charset=utf-8"; Status := code;
     Written := plainText (message ++ newline) |}.

Definition extractToken (r : Request) : string :=
  let bearerToken := Get (Header r) "Authorization" in
  if String.eqb bearerToken "" then ""
  else
    let parts := strings.Split bearerToken " " in
    if negb (Nat.eqb (length parts) 2)
       || negb (String.eqb (nth 0 parts "") "Bearer")
    then ""
    else nth 1 parts "".

Section AuthHandler.
Context `{jwt.JWT} `{bcrypt.Bcrypt} `{JSONDecoder}.

Definition Login (s : services.AuthService) (now : Z) : Handler :=
  fun r =>
    match decodeLoginRequest (http.Body r) with
    | None => sendError "Invalid request body" StatusBadRequest
    | Some req =>
        if String.eqb (LoginRequest.Email req) ""
           || String.eqb (LoginRequest.Password req) ""
        then sendError "Email and password are required" StatusBadRequest
        else
          match
            services.Login s now (LoginRequest.Email req)
              (LoginRequest.Password req)
          with
          | Err err =>
              if isErrInvalidCredentials err then
                sendError "Invalid email or password" StatusUnauthorized
              else
                sendError "Internal server error" StatusInternalServerError
          | Ok authResp =>
              {| ContentType := ""; Status := StatusOK;
                 Written := jsonAuth authResp |}
          end
    end.


Definition AuthMiddleware (s : services.AuthService) (now : Z)
    (next : Handler) : Handler :=
  fun r =>
    let token := extractToken r in
    if String.eqb token "" then
      sendError "Missing authorization header" StatusUnauthorized
    else
      match services.ValidateToken s now token with
      | Err err =>
          if isErrInvalidToken err then
            sendError "Invalid or expired token" StatusUnauthorized
          else sendError "Internal server error" StatusInternalServerError
      | Ok userID =>
          let ctx := services.ContextWithUserID (Ctx r) userID in
          next (WithContext r ctx)
      end.

End AuthHandler.

Definition AdminMiddleware (s : services.AuthService) (next : Handler)
  : Handler :=
  fun r =>
    let userID := services.UserIDFromContext (Ctx r) in
    if userID =? 0 then sendError "Unauthorized" StatusUnauthorized
    else
      match services.IsAdmin s userID with
      | Err _ =>
          sendError "Internal server error" StatusInternalServerError
      | Ok isAdmin =>
          if negb isAdmin then
            sendError "Admin access required" StatusForbidden
          else next r
      end.

Import services.

(** Lines 77-103 of [MovieHandler.GetMovies]: the filter built from the
    query parameters. *)
Definition movieFilter (r : Request) : MovieFilter.t :=
  let query := URLQuery r in
  {| MovieFilter.CategoryID := None;
     MovieFilter.Search := Get query "search";
     MovieFilter.SortBy := Get query "sort_by";
     MovieFilter.Categories := default [] (query !! "categories");
     MovieFilter.Year :=
       (let yearStr := Get query "year" in
        if negb (String.eqb yearStr "") then strconv.Atoi yearStr else None);
     MovieFilter.Page :=
       (let pageStr := Get query "page" in
        if negb (String.eqb pageStr "") then
          match strconv.Atoi pageStr with
          | Some page => if 0 <? page then page else 0
          | None => 0
          end
        else 1);
     MovieFilter.PageSize :=
       (let pageSizeStr := Get query "page_size" in
        if negb (String.eqb pageSizeStr "") then
          match strconv.Atoi pageSizeStr with
          | Some pageSize => if 0 <? pageSize then pageSize else 0
          | None => 0
          end
        else 10) |}.

Definition movieResponse (movie : Movie.t) : MovieResponse :=
  {| ID := Movie.ID movie; Title := Movie.Title movie;
     Description := Movie.Description movie;
     ReleaseYear := Movie.ReleaseYear movie;
     Duration := Movie.Duration movie;
     PosterURL := Movie.PosterURL movie;
     VideoURL := Movie.VideoURL movie;
     Categories := Movie.Categories movie;
     Rating := Movie.Rating movie |}.

Section MovieHandler.
Context `{postgres.Postgres}.

(** [MovieHandler.GetMovies]: the service is called with a copy of the
    filter, so the page the response reports is the one the handler
    parsed. *)
Definition GetMovies (db : database.DB) : Handler :=
  fun r =>
    let filter := movieFilter r in
    match services.GetMovies db filter with
    | (_, _, Some err) => httpError (Error err) StatusInternalServerError
    | (movies, total, None) =>
        {| ContentType := ""; Status := StatusOK;
           Written :=
             jsonMovies
               {| Movies := List.map movieResponse movies;
                  Total := total;
                  Page := MovieFilter.Page filter |} |}
    end.

End MovieHandler.
End handlers.

(** ** Reference instances

    Executable instances of the interfaces.  They show that the laws of
    [jwt.JWTLaws] can be met, and the examples run the services with
    them.  The token text is a self-delimiting rendering of the method and
    the claims, then a dot, then the signature; the signature is the key
    and the signing string side by side, which is enough to tell keys and
    payloads apart. *)
Module Reference.

Fixpoint encPos (p : positive) : string :=
  match p with
  | xH => ";"
  | xO q => String "0" (encPos q)
  | xI q => String "1" (encPos q)
  end.

Fixpoint decPos (s : string) : option (positive * string) :=
  match s with
  | EmptyString => None
  | String c rest =>
      if Ascii.eqb c ";" then Some (xH, rest)
      else if Ascii.eqb c "0" then
        match decPos rest with
        | Some (q, rest') => Some (xO q, rest')
        | None => None
        end
      else if Ascii.eqb c "1" then
        match decPos rest with
        | Some (q, rest') => Some (xI q, rest')
        | None => None
        end
      else None
  end.

Definition encZ (z : Z) : string :=
  match z with
  | Z0 => "z"
  | Zpos p => String "p" (encPos p)
  | Zneg p => String "n" (encPos p)
  end.

Definition decZ (s : string) : option (Z * string) :=
  match s with
  | EmptyString => None
  | String c rest =>
      if Ascii.eqb c "z" then Some (0, rest)
      else if Ascii.eqb c "p" then
        match decPos rest with
        | Some (q, rest') => Some (Zpos q, rest')
        | None => None
        end
      else if Ascii.eqb c "n" then
        match decPos rest with
        | Some (q, rest') => Some (Zneg q, rest')
        | None => None
        end
      else None
  end.

Fixpoint encString (s : string) : string :=
  match s with
  | EmptyString => ";"
  | String c rest => String "+" (String c (encString rest))
  end.

Fixpoint decString (s : string) : option (string * string) :=
  match s with
  | String c rest =>
      if Ascii.eqb c ";" then Some (EmptyString, rest)
      else if Ascii.eqb c "+" then
        match rest with
        | String d rest' =>
            match decString rest' with
            | Some (v, rest'') => Some (String d v, rest'')
            | None => None
            end
        | EmptyString => None
        end
      else None
  | EmptyString => None
  end.

Fixpoint encStrings (l : list string) : string :=
  match l with
  | [] => "!"
  | x :: rest => String "*" (encString x ++ encStrings rest)
  end.

Fixpoint decStrings (fuel : nat) (s : string) : option (list string * string) :=
  match fuel with
  | O => None
  | S fuel' =>
      match s with
      | String c rest =>
          if Ascii.eqb c "!" then Some ([], rest)
          else if Ascii.eqb c "*" then
            match decString rest with
            | Some (x, rest') =>
                match decStrings fuel' rest' with
                | Some (xs, rest'') => Some (x :: xs, rest'')
                | None => None
                end
            | None => None
            end
          else None
      | EmptyString => None
      end
  end.

Definition encBool (b : bool) : string := if b then "t" else "f".

Definition decBool (s : string) : option (bool * string) :=
  match s with
  | String c rest =>
      if Ascii.eqb c "t" then Some (true, rest)
      else if Ascii.eqb c "f" then Some (false, rest)
      else None
  | EmptyString => None
  end.

Definition encDate (d : option Z) : string :=
  match d with
  | None => "N"
  | Some t => String "S" (encZ t)
  end.

Definition decDate (s : string) : option (option Z * string) :=
  match s with
  | String c rest =>
      if Ascii.eqb c "N" then Some (None, rest)
      else if Ascii.eqb c "S" then
        match decZ rest with
        | Some (t, rest') => Some (Some t, rest')
        | None => None
        end
      else None
  | EmptyString => None
  end.

Definition encMethod (m : jwt.SigningMethod) : string :=
  match m with
  | jwt.SigningMethodHS256 => "a"
  | jwt.SigningMethodHS384 => "b"
  | jwt.SigningMethodHS512 => "c"
  | jwt.SigningMethodNone => "d"
  | jwt.SigningMethodOther alg => String "o" (encString alg)
  end.

Definition decMethod (s : string) : option (jwt.SigningMethod * string) :=
  match s with
  | String c rest =>
      if Ascii.eqb c "a" then Some (jwt.SigningMethodHS256, rest)
      else if Ascii.eqb c "b" then Some (jwt.SigningMethodHS384, rest)
      else if Ascii.eqb c "c" then Some (jwt.SigningMethodHS512, rest)
      else if Ascii.eqb c "d" then Some (jwt.SigningMethodNone, rest)
      else if Ascii.eqb c "o" then
        match decString rest with
        | Some (alg, rest') => Some (jwt.SigningMethodOther alg, rest')
        | None => None
        end
      else None
  | EmptyString => None
  end.

Definition encClaims (c : jwt.Claims) : string :=
  let r := jwt.Registered c in
  encZ (jwt.UserID c) ++ encString (jwt.Email c) ++ encBool (jwt.IsAdmin c)
  ++ encString (jwt.Issuer r) ++ encString (jwt.Subject r)
  ++ encStrings (jwt.Audience r) ++ encDate (jwt.ExpiresAt r)
  ++ encDate (jwt.NotBefore r) ++ encDate (jwt.IssuedAt r)
  ++ encString (jwt.ID r).

Definition signingString (m : jwt.SigningMethod) (c : jwt.Claims) : string :=
  encMethod m ++ encClaims c.

Definition hmac (m : jwt.SigningMethod) (signingString key : string) : string :=
  key ++ "|" ++ jwt.Alg m ++ "|" ++ signingString.

(** The option monad's bind, for the decoder. *)
Definition andThen {A B : Type} (x : option (A * string))
    (k : A -> string -> option B) : option B :=
  match x with
  | Some (a, rest) => k a rest
  | None => None
  end.

Definition parseUnverified (s : string) : option (jwt.Token * string) :=
  andThen (decMethod s) (fun m s =>
  andThen (decZ s) (fun userID s =>
  andThen (decString s) (fun email s =>
  andThen (decBool s) (fun isAdmin s =>
  andThen (decString s) (fun iss s =>
  andThen (decString s) (fun sub s =>
  andThen (decStrings (S (String.length s)) s) (fun aud s =>
  andThen (decDate s) (fun exp s =>
  andThen (decDate s) (fun nbf s =>
  andThen (decDate s) (fun iat s =>
  andThen (decString s) (fun jti s =>
    match s with
    | String c sig =>
        if Ascii.eqb c "." then
          let claims :=
            {| jwt.UserID := userID; jwt.Email := email;
               jwt.IsAdmin := isAdmin;
               jwt.Registered :=
                 {| jwt.Issuer := iss; jwt.Subject := sub;
                    jwt.Audience := aud; jwt.ExpiresAt := exp;
                    jwt.NotBefore := nbf; jwt.IssuedAt := iat;
                    jwt.ID := jti |} |} in
          Some ({| jwt.Method := m; jwt.TokenClaims := claims;
                   jwt.Signature := sig; jwt.Valid := false |},
                signingString m claims)
        else None
    | EmptyString => None
    end))))))))))).

Definition lower (c : ascii) : ascii :=
  let n := nat_of_ascii c in
  if (Nat.leb 65 n && Nat.leb n 90)%bool then ascii_of_nat (n + 32) else c.

(** [p] as a pattern of [ILIKE]: [%] matches any run of characters, [_]
    any one character, letters match without regard to case. *)
Fixpoint matches (p : string) : string -> bool :=
  match p with
  | EmptyString =>
      fun s => match s with EmptyString => true | _ => false end
  | String c p' =>
      if Ascii.eqb c "%" then
        fix star (s : string) : bool :=
          matches p' s
          || match s with
             | EmptyString => false
             | String _ s' => star s'
             end
      else
        fun s =>
          match s with
          | EmptyString => false
          | String d s' =>
              (Ascii.eqb c "_" || Ascii.eqb (lower c) (lower d))
              && matches p' s'
          end
  end.

Definition ilike (s p : string) : bool := matches p s.

Definition overlap (a b : list string) : bool :=
  existsb (fun x => existsb (String.eqb x) b) a.

(** The reference codec. *)
#[export] Instance codec : jwt.JWT := {|
  jwt.SigningString := signingString;
  jwt.HMAC := hmac;
  jwt.ParseUnverified := parseUnverified
|}.

(** A stand-in for bcrypt: the hash is the salt and the password under a
    tag; comparison looks for the password after the salt. *)
#[export] Instance hasher : bcrypt.Bcrypt := {|
  bcrypt.GenerateFromPassword := fun password _ salt =>
    Ok ("$2a$" ++ encString salt ++ password);
  bcrypt.CompareHashAndPassword := fun hash password =>
    match hash with
    | String _ (String _ (String _ (String _ rest))) =>
        match decString rest with
        | Some (_, stored) => String.eqb stored password
        | None => false
        end
    | _ => false
    end
|}.

(** A request body is the email and the password, each in the rendering
    of strings above. *)
#[export] Instance decoder : handlers.JSONDecoder := {|
  handlers.decodeLoginRequest := fun body =>
    andThen (decString body) (fun email rest =>
    andThen (decString rest) (fun password _ =>
      Some {| handlers.LoginRequest.Email := email;
              handlers.LoginRequest.Password := password |}))
|}.

#[export] Instance engine : postgres.Postgres := {|
  postgres.ILIKE := ilike;
  postgres.array_overlap := overlap;
  postgres.text_le := String.leb
|}.

End Reference.

(** * Notions the statements use *)

(** The expiry a compact token carries, read without verifying it. *)
Definition expiryOf `{jwt.JWT} (tokenString : string) : option Z :=
  match jwt.ParseUnverified tokenString with
  | Some (token, _) =>
      jwt.ExpiresAt (jwt.Registered (jwt.TokenClaims token))
  | None => None
  end.

(** The claims of a token issued for [user] at [iat] to expire at [exp]. *)
Definition claimsFor (user : User.t) (iat exp : Z) : jwt.Claims :=
  {| jwt.UserID := User.ID user;
     jwt.Email := User.Email user;
     jwt.IsAdmin := User.IsAdmin user;
     jwt.Registered :=
       {| jwt.Issuer := ""; jwt.Subject := ""; jwt.Audience := [];
          jwt.ExpiresAt := Some exp; jwt.NotBefore := None;
          jwt.IssuedAt := Some iat; jwt.ID := "" |} |}.

(** The compact HS256 token of some claims under a secret. *)
Definition signedHS256 `{jwt.JWT} (secret : string) (c : jwt.Claims) : string :=
  jwt.SigningString jwt.SigningMethodHS256 c ++ "."
  ++ jwt.HMAC jwt.SigningMethodHS256
       (jwt.SigningString jwt.SigningMethodHS256 c) secret.

(** [tokenString] names [userID] to every service holding [secret]:
    it carries an expiry, [ValidateToken] yields [userID] at any time
    before it, and fails with [ErrInvalidToken] from then on. *)
Definition validatesAs `{jwt.JWT} (secret tokenString : string) (userID : Z)
  : Prop :=
  exists exp,
    expiryOf tokenString = Some exp
    /\ forall (s' : services.AuthService) (now' : Z),
         services.jwtSecret s' = secret ->
         (now' < exp ->
          services.ValidateToken s' now' tokenString = Ok userID)
         /\ (exp <= now' ->
             services.ValidateToken s' now' tokenString = Err ErrInvalidToken).

(** A token the codec accepts under [secret] at [now]: it decodes, it is
    signed with an HMAC method under [secret], it has not expired, and
    its not-before date, if it has one (the tokens of this system have
    none), has come. *)
Definition wellSigned `{jwt.JWT} (secret : string) (now : Z)
    (tokenString : string) (claims : jwt.Claims) : Prop :=
  exists token signingString,
    jwt.ParseUnverified tokenString = Some (token, signingString)
    /\ jwt.TokenClaims token = claims
    /\ jwt.isSigningMethodHMAC (jwt.Method token) = true
    /\ jwt.Signature token
       = jwt.HMAC (jwt.Method token) signingString secret
    /\ (forall exp,
          jwt.ExpiresAt (jwt.Registered claims) = Some exp -> now < exp)
    /\ (forall nbf,
          jwt.NotBefore (jwt.Registered claims) = Some nbf -> nbf <= now).

(** The Authorization header of a request and its space-separated parts. *)
Definition authorization (r : http.Request) : string :=
  http.Get (http.Header r) "Authorization".

Definition bearerParts (r : http.Request) : list string :=
  strings.Split (authorization r) " ".

(** The data model's invariant on movies: rows with the same title are
    rows of the same movie. *)
Definition titlesUnique (db : database.DB) : Prop :=
  forall a b,
    In a (database.movies db) -> In b (database.movies db) ->
    Movie.Title a = Movie.Title b -> Movie.ID a = Movie.ID b.

(** A filter with another page and page size, all criteria kept. *)
Definition withPaging (f : services.MovieFilter.t) (page pageSize : Z)
  : services.MovieFilter.t :=
  {| services.MovieFilter.CategoryID := services.MovieFilter.CategoryID f;
     services.MovieFilter.Search := services.MovieFilter.Search f;
     services.MovieFilter.SortBy := services.MovieFilter.SortBy f;
     services.MovieFilter.Categories := services.MovieFilter.Categories f;
     services.MovieFilter.Year := services.MovieFilter.Year f;
     services.MovieFilter.Page := page;
     services.MovieFilter.PageSize := pageSize |}.




(** * The data of the examples

    A small store, a service and some requests, on which the theorems
    are run with the reference instances. *)

Definition alice : User.t :=
  {| User.ID := 1; User.Email := "alice@example.com";
     User.Password := "$2a$+s+a+l+t;correct horse";
     User.Name := "Alice"; User.IsAdmin := false;
     User.CreatedAt := 0; User.UpdatedAt := 0 |}.

(** Alice after a promotion to admin. *)
Definition aliceAdmin : User.t :=
  {| User.ID := 1; User.Email := "alice@example.com";
     User.Password := "$2a$+s+a+l+t;correct horse";
     User.Name := "Alice"; User.IsAdmin := true;
     User.CreatedAt := 0; User.UpdatedAt := 0 |}.

Definition film (id : Z) (title : string) (year : Z) : Movie.t :=
  {| Movie.ID := id; Movie.Title := title; Movie.Description := "";
     Movie.ReleaseYear := year; Movie.Duration := 90;
     Movie.PosterURL := ""; Movie.VideoURL := "";
     Movie.Categories := []; Movie.Rating := 0%float;
     Movie.CreatedAt := id; Movie.UpdatedAt := id |}.

Definition catalog : list Movie.t :=
  [film 1 "Alien" 1979; film 2 "Brazil" 1985; film 3 "Casablanca" 1942;
   film 4 "Dune" 1984; film 5 "Eraserhead" 1977].

Definition storeOf (us : list User.t) : database.DB :=
  {| database.users := us; database.users_id_seq := 1;
     database.movies := catalog; database.movies_id_seq := 5;
     database.movie_categories := []; database.user_favorites := [] |}.

Definition exampleService : services.AuthService :=
  services.NewAuthService (storeOf [alice]) "secret".

(** The same service once Alice is an admin, and once her row is gone. *)
Definition promotedService : services.AuthService :=
  services.NewAuthService (storeOf [aliceAdmin]) "secret".

Definition emptiedService : services.AuthService :=
  services.NewAuthService (storeOf []) "secret".

(** The token [Login] issues to Alice at time 1000. *)
Definition aliceToken : string :=
  signedHS256 (H := Reference.codec) "secret"
    (claimsFor alice 1000 (1000 + 24 * time.Hour)).

Definition requestOf (header query : gmap string (list string))
    (ctx : context.Context) : http.Request :=
  {| http.Header := header; http.URLQuery := query; http.Body := "";
     http.Ctx := ctx |}.

Definition bearerRequest : http.Request :=
  requestOf {[ "Authorization" := ["Bearer " ++ aliceToken] ]} ∅ [].

Definition basicRequest : http.Request :=
  requestOf {[ "Authorization" := ["Basic YWxpY2U6cHc="] ]} ∅ [].

(** A handler that answers with the user id it finds in the context. *)
Definition whoami : handlers.Handler :=
  fun r =>
    {| handlers.ContentType := ""; handlers.Status := http.StatusOK;
       handlers.Written :=
         handlers.otherBody
           (Reference.encZ (services.UserIDFromContext (http.Ctx r))) |}.

(** The body of a login request, as the reference decoder reads it. *)
Definition loginRequest (email password : string) : http.Request :=
  {| http.Header := ∅; http.URLQuery := ∅;
     http.Body := Reference.encString email ++ Reference.encString password;
     http.Ctx := [] |}.

Definition listingRequest (query : gmap string (list string))
  : http.Request :=
  requestOf ∅ query [].

Definition allMovies : services.MovieFilter.t :=
  handlers.movieFilter (listingRequest ∅).

(** * Further parts of the backend

    The user and category stores and services, the remaining queries of
    the movie service, the handlers over them and the route groups.  Each
    module bears the name of the Go type whose methods it holds. *)

Module Category.
(** [models.Category]. *)
Record t : Type := {
  ID : Z;
  Name : string;
  CreatedAt : Z;
  UpdatedAt : Z
}.
End Category.

(** ** [database.UserDB] *)
Module UserDB.

Import database.

Definition GetUser (db : DB) (id : Z) : result error User.t :=
  match List.find (fun u => User.ID u =? id) (users db) with
  | Some user => Ok user
  | None => Err (errorString "user not found")
  end.

(** [ORDER BY created_at DESC]: [a] may come before [b]. *)
Definition newestFirst (a b : User.t) : bool :=
  User.CreatedAt b <=? User.CreatedAt a.

Definition ListUsers (db : DB) : result error (list User.t) :=
  Ok (@merge_sort _ (fun a b => newestFirst a b = true)
        (fun a b => decide (newestFirst a b = true)) (users db)).

(** The [SET] clause of [UPDATE users ... WHERE id = ?] with [OmitZero]:
    of the columns other than the key, those whose field is not the zero
    value of its type. *)
Definition updateRow (user row : User.t) : User.t :=
  {| User.ID := User.ID row;
     User.Email :=
       if String.eqb (User.Email user) "" then User.Email row
       else User.Email user;
     User.Password :=
       if String.eqb (User.Password user) "" then User.Password row
       else User.Password user;
     User.Name :=
       if String.eqb (User.Name user) "" then User.Name row
       else User.Name user;
     User.IsAdmin := if User.IsAdmin user then true else User.IsAdmin row;
     User.CreatedAt :=
       if User.CreatedAt user =? 0 then User.CreatedAt row
       else User.CreatedAt user;
     User.UpdatedAt :=
       if User.UpdatedAt user =? 0 then User.UpdatedAt row
       else User.UpdatedAt user |}.

(** No column is left to set. *)
Definition emptySet (user : User.t) : bool :=
  String.eqb (User.Email user) "" && String.eqb (User.Password user) ""
  && String.eqb (User.Name user) "" && negb (User.IsAdmin user)
  && (User.CreatedAt user =? 0) && (User.UpdatedAt user =? 0).

(** [UserDB.UpdateUser]: an update that sets no column is no statement;
    one that would give two rows the same email breaks the [unique]
    constraint; one whose key matches no row changes nothing and is no
    error. *)
Definition UpdateUser (db : DB) (user : User.t) : option error * DB :=
  if emptySet user then
    (Some (errorString
             "bun: empty SET clause is not allowed in the UPDATE query"), db)
  else if
    negb (String.eqb (User.Email user) "")
    && existsb (fun u => User.ID u =? User.ID user) (users db)
    && existsb
         (fun u =>
            String.eqb (User.Email u) (User.Email user)
            && negb (User.ID u =? User.ID user))
         (users db)
  then
    (Some (errorString
             "duplicate key value violates unique constraint: users_email_key"),
     db)
  else
    (None,
     with_users db
       (List.map
          (fun row =>
             if User.ID row =? User.ID user then updateRow user row else row)
          (users db))
       (users_id_seq db)).

End UserDB.

(** ** [services.UserService] *)
Module UserService.

Import database.

Definition GetUser (db : DB) (id : Z) : result error User.t :=
  match UserDB.GetUser db id with
  | Err err => Err (wrapError "failed to get user" err)
  | Ok user => Ok user
  end.

Definition ListUsers (db : DB) : result error (list User.t) :=
  match UserDB.ListUsers db with
  | Err err => Err (wrapError "failed to list users" err)
  | Ok users => Ok users
  end.

Definition setName (user : User.t) (name : string) : User.t :=
  {| User.ID := User.ID user; User.Email := User.Email user;
     User.Password := User.Password user; User.Name := name;
     User.IsAdmin := User.IsAdmin user;
     User.CreatedAt := User.CreatedAt user;
     User.UpdatedAt := User.UpdatedAt user |}.

(** [UpdateUser] returns the user it wrote, and the store after the
    call. *)
Definition UpdateUser (db : DB) (id : Z) (name : string)
  : result error User.t * DB :=
  match UserDB.GetUser db id with
  | Err err => (Err (wrapError "failed to get user" err), db)
  | Ok user =>
      let user := setName user name in
      match UserDB.UpdateUser db user with
      | (Some err, _) => (Err (wrapError "failed to update user" err), db)
      | (None, db') => (Ok user, db')
      end
  end.

End UserService.

(** ** [database.CategoryDB]

    The categories live in the same database: the store of the movie and
    auth services ([base]) together with the [categories] table and its
    sequence. *)
Module CategoryDB.

Record Store : Type := {
  base : database.DB;
  categories : list Category.t;
  categories_id_seq : Z
}.

Definition with_base (st : Store) (db : database.DB) : Store :=
  {| base := db; categories := categories st;
     categories_id_seq := categories_id_seq st |}.

Section Queries.
Context `{postgres.Postgres}.

(** [ORDER BY name ASC]. *)
Definition GetCategories (st : Store) : result error (list Category.t) :=
  Ok (@merge_sort _
        (fun a b => postgres.text_le (Category.Name a) (Category.Name b) = true)
        (fun a b =>
           decide (postgres.text_le (Category.Name a) (Category.Name b) = true))
        (categories st)).

End Queries.

Definition GetCategory (st : Store) (id : Z) : result error Category.t :=
  match List.find (fun c => Category.ID c =? id) (categories st) with
  | Some category => Ok category
  | None => Err (errorString "category not found")
  end.

Definition CategoryExists (st : Store) (name : string) : result error bool :=
  Ok (existsb (fun c => String.eqb (Category.Name c) name) (categories st)).

Definition setCategoryID (c : Category.t) (id : Z) : Category.t :=
  {| Category.ID := id; Category.Name := Category.Name c;
     Category.CreatedAt := Category.CreatedAt c;
     Category.UpdatedAt := Category.UpdatedAt c |}.

(** [INSERT INTO categories ... RETURNING id]: a zero [ID] takes the next
    value of the sequence; the primary key and the [unique] constraint on
    [name] reject duplicates. *)
Definition CreateCategory (st : Store) (category : Category.t)
  : result error (Store * Category.t) :=
  let fresh := Category.ID category =? 0 in
  let id := if fresh then categories_id_seq st + 1 else Category.ID category in
  let seq := if fresh then id else categories_id_seq st in
  if existsb (fun c => Category.ID c =? id) (categories st) then
    Err (errorString
           "duplicate key value violates unique constraint: categories_pkey")
  else if
    existsb (fun c => String.eqb (Category.Name c) (Category.Name category))
      (categories st)
  then
    Err (errorString
           "duplicate key value violates unique constraint: categories_name_key")
  else
    let row := setCategoryID category id in
    Ok ({| base := base st; categories := categories st ++ [row];
           categories_id_seq := seq |}, row).

(** [DELETE FROM categories WHERE id = ?]; the rows of [movie_categories]
    that refer to the category go with it ([ON DELETE CASCADE] in the
    migration). *)
Definition DeleteCategory (st : Store) (id : Z) : option error * Store :=
  let db := base st in
  (None,
   {| base :=
        {| database.users := database.users db;
           database.users_id_seq := database.users_id_seq db;
           database.movies := database.movies db;
           database.movies_id_seq := database.movies_id_seq db;
           database.movie_categories :=
             List.filter (fun mc => negb (MovieCategory.CategoryID mc =? id))
               (database.movie_categories db);
           database.user_favorites := database.user_favorites db |};
      categories :=
        List.filter (fun c => negb (Category.ID c =? id)) (categories st);
      categories_id_seq := categories_id_seq st |}).

Definition CategoryInUse (st : Store) (id : Z) : result error bool :=
  Ok (existsb (fun mc => MovieCategory.CategoryID mc =? id)
        (database.movie_categories (base st))).

End CategoryDB.

(** ** [services.CategoryService] *)
Module CategoryService.

Import CategoryDB.

Definition GetCategories `{postgres.Postgres} (st : Store)
  : result error (list Category.t) :=
  CategoryDB.GetCategories st.

Definition GetCategory (st : Store) (id : Z) : result error Category.t :=
  match CategoryDB.GetCategory st id with
  | Err err => Err (wrapError "failed to get category" err)
  | Ok category => Ok category
  end.

(** [CreateCategory] returns its error, and the store and the model (whose
    [ID] the insert fills in) after the call. *)
Definition CreateCategory (st : Store) (category : Category.t)
  : option error * Store * Category.t :=
  match CategoryDB.CategoryExists st (Category.Name category) with
  | Err err =>
      (Some (wrapError "failed to check category existence" err), st, category)
  | Ok exists_ =>
      if exists_ then
        (Some (errorString "category already exists"), st, category)
      else
        match CategoryDB.CreateCategory st category with
        | Err err =>
            (Some (wrapError "failed to create category" err), st, category)
        | Ok (st', category') => (None, st', category')
        end
  end.

Definition DeleteCategory (st : Store) (id : Z) : option error * Store :=
  match CategoryDB.GetCategory st id with
  | Err err => (Some (wrapError "category not found" err), st)
  | Ok _ =>
      match CategoryDB.CategoryInUse st id with
      | Err err =>
          (Some (wrapError "failed to check category usage" err), st)
      | Ok inUse =>
          if inUse then
            (Some (errorString "category is being used by movies"), st)
          else
            match CategoryDB.DeleteCategory st id with
            | (Some err, _) =>
                (Some (wrapError "failed to delete category" err), st)
            | (None, st') => (None, st')
            end
      end
  end.

End CategoryService.

(** ** [services.MovieService], the queries beside the listing *)
Module MovieService.

Import database.

Section Queries.
Context `{postgres.Postgres}.


Definition GetTopRatedMovies (db : DB) (limit : Z)
  : result error (list Movie.t) :=
  postgres.LimitOffset limit 0 (services.Order "rating_desc" (movies db)).

(** [ORDER BY created_at DESC] is the clause of the listing's default
    sort. *)
Definition GetRecentlyAddedMovies (db : DB) (limit : Z)
  : result error (list Movie.t) :=
  postgres.LimitOffset limit 0 (services.Order "" (movies db)).

End Queries.
End MovieService.

(** ** More of [net/http] and [strconv] *)

Definition StatusCreated : Z := 201.
Definition StatusNoContent : Z := 204.
Definition StatusNotFound : Z := 404.
Definition StatusConflict : Z := 409.

(** [strconv.ParseInt s 10 64]: the syntax and the range of
    [strconv.Atoi] where [int] has 64 bits. *)
Definition ParseInt (s : string) : option Z := strconv.Atoi s.

(** ** [handlers.MovieHandler], the handlers beside the listing

    The path parameter that [chi.URLParam r "id"] reads is the argument
    [idParam].  A handler that writes to the store returns its response
    and the store after the request.  A JSON body written by
    [json.NewEncoder(w).Encode] is the text the encoder gives. *)
Module MovieHandler.

Import database http handlers.

Module CreateMovieRequest.
Record t : Type := {
  Title : string;
  Description : string;
  ReleaseYear : Z;
  Duration : Z;
  PosterURL : string;
  VideoURL : string;
  Categories : list string
}.
End CreateMovieRequest.

(** The fields are pointers: [None] is a field the body leaves out. *)
Module UpdateMovieRequest.
Record t : Type := {
  Title : option string;
  Description : option string;
  ReleaseYear : option Z;
  Duration : option Z;
  PosterURL : option string;
  VideoURL : option string;
  Categories : option (list string)
}.
End UpdateMovieRequest.

(** [encoding/json] on the types of these handlers: a decoder gives
    [None] when it returns an error. *)
Class JSON : Type := {
  decodeCreateMovieRequest : string -> option CreateMovieRequest.t;
  decodeUpdateMovieRequest : string -> option UpdateMovieRequest.t;
  encodeMovie : MovieResponse -> string;
  encodeMovies : list MovieResponse -> string
}.

(** The model a [CreateMovieRequest] is copied into. *)
Definition newMovie (req : CreateMovieRequest.t) : Movie.t :=
  {| Movie.ID := 0;
     Movie.Title := CreateMovieRequest.Title req;
     Movie.Description := CreateMovieRequest.Description req;
     Movie.ReleaseYear := CreateMovieRequest.ReleaseYear req;
     Movie.Duration := CreateMovieRequest.Duration req;
     Movie.PosterURL := CreateMovieRequest.PosterURL req;
     Movie.VideoURL := CreateMovieRequest.VideoURL req;
     Movie.Categories := CreateMovieRequest.Categories req;
     Movie.Rating := 0%float;
     Movie.CreatedAt := 0;
     Movie.UpdatedAt := 0 |}.

(** Lines 256-276: the fields the request gives overwrite those of the
    movie read from the store. *)
Definition applyRequest (req : UpdateMovieRequest.t) (movie : Movie.t)
  : Movie.t :=
  {| Movie.ID := Movie.ID movie;
     Movie.Title := default (Movie.Title movie) (UpdateMovieRequest.Title req);
     Movie.Description :=
       default (Movie.Description movie) (UpdateMovieRequest.Description req);
     Movie.ReleaseYear :=
       default (Movie.ReleaseYear movie) (UpdateMovieRequest.ReleaseYear req);
     Movie.Duration :=
       default (Movie.Duration movie) (UpdateMovieRequest.Duration req);
     Movie.PosterURL :=
       default (Movie.PosterURL movie) (UpdateMovieRequest.PosterURL req);
     Movie.VideoURL :=
       default (Movie.VideoURL movie) (UpdateMovieRequest.VideoURL req);
     Movie.Categories :=
       default (Movie.Categories movie) (UpdateMovieRequest.Categories req);
     Movie.Rating := Movie.Rating movie;
     Movie.CreatedAt := Movie.CreatedAt movie;
     Movie.UpdatedAt := Movie.UpdatedAt movie |}.

(** Lines 337-342 and 379-384: the [limit] parameter, 10 unless it is a
    positive number. *)
Definition limitOf (r : Request) : Z :=
  let limitStr := Get (URLQuery r) "limit" in
  if negb (String.eqb limitStr "") then
    match strconv.Atoi limitStr with
    | Some l => if 0 <? l then l else 10
    | None => 10
    end
  else 10.

Definition jsonOK (text : string) : Response :=
  {| ContentType := ""; Status := StatusOK; Written := otherBody text |}.

(** A status line and no body. *)
Definition noContent : Response :=
  {| ContentType := ""; Status := StatusNoContent; Written := otherBody "" |}.

Section Handlers.
Context `{postgres.Postgres} `{JSON}.

Definition GetMovie (db : DB) (idParam : string) : Response :=
  match ParseInt idParam with
  | None => httpError "Invalid movie ID" StatusBadRequest
  | Some id =>
      match services.GetMovie db id with
      | Err err => httpError (Error err) StatusNotFound
      | Ok movie => jsonOK (encodeMovie (movieResponse movie))
      end
  end.

Definition CreateMovie (db : DB) (r : Request) : Response * DB :=
  match decodeCreateMovieRequest (Body r) with
  | None => (httpError "Invalid request body" StatusBadRequest, db)
  | Some req =>
      match services.CreateMovie db (newMovie req) with
      | (Some err, db', _) =>
          (httpError (Error err) StatusInternalServerError, db')
      | (None, db', movie) =>
          ({| ContentType := ""; Status := StatusCreated;
              Written := otherBody (encodeMovie (movieResponse movie)) |},
           db')
      end
  end.

Definition UpdateMovie (db : DB) (idParam : string) (r : Request)
  : Response * DB :=
  match ParseInt idParam with
  | None => (httpError "Invalid movie ID" StatusBadRequest, db)
  | Some id =>
      match decodeUpdateMovieRequest (Body r) with
      | None => (httpError "Invalid request body" StatusBadRequest, db)
      | Some req =>
          match services.GetMovie db id with
          | Err err => (httpError (Error err) StatusNotFound, db)
          | Ok movie =>
              let movie := applyRequest req movie in
              match services.UpdateMovie db movie with
              | (Some err, db') =>
                  (httpError (Error err) StatusInternalServerError, db')
              | (None, db') =>
                  (jsonOK (encodeMovie (movieResponse movie)), db')
              end
          end
      end
  end.

Definition DeleteMovie (db : DB) (idParam : string) : Response * DB :=
  match ParseInt idParam with
  | None => (httpError "Invalid movie ID" StatusBadRequest, db)
  | Some id =>
      match services.DeleteMovie db id with
      | (Some err, db') =>
          (httpError (Error err) StatusInternalServerError, db')
      | (None, db') => (noContent, db')
      end
  end.

Definition GetTopRatedMovies (db : DB) : Handler :=
  fun r =>
    match MovieService.GetTopRatedMovies db (limitOf r) with
    | Err err => httpError (Error err) StatusInternalServerError
    | Ok movies => jsonOK (encodeMovies (List.map movieResponse movies))
    end.

Definition GetRecentlyAddedMovies (db : DB) : Handler :=
  fun r =>
    match MovieService.GetRecentlyAddedMovies db (limitOf r) with
    | Err err => httpError (Error err) StatusInternalServerError
    | Ok movies => jsonOK (encodeMovies (List.map movieResponse movies))
    end.

End Handlers.
End MovieHandler.

(** ** [handlers.UserHandler] *)
Module UserHandler.

Import database http handlers.

Module UpdateUserRequest.
Record t : Type := {
  Name : string
}.
End UpdateUserRequest.

Record UserResponse : Type := {
  ID : Z;
  Email : string;
  Name : string;
  IsAdmin : bool;
  CreatedAt : string;
  UpdatedAt : string
}.

(** [encoding/json] on the types of these handlers, and
    [time.Time.Format] with the layout the handlers pass. *)
Class JSON : Type := {
  Format : Z -> string;
  decodeUpdateUserRequest : string -> option UpdateUserRequest.t;
  encodeUser : UserResponse -> string;
  encodeUsers : list UserResponse -> string
}.

Definition jsonOK (text : string) : Response :=
  {| ContentType := "application/json"; Status := StatusOK;
     Written := otherBody text |}.

Section Handlers.
Context `{JSON}.

Definition userResponse (user : User.t) : UserResponse :=
  {| ID := User.ID user; Email := User.Email user; Name := User.Name user;
     IsAdmin := User.IsAdmin user;
     CreatedAt := Format (User.CreatedAt user);
     UpdatedAt := Format (User.UpdatedAt user) |}.

(** The user id is read under the plain string ["user_id"], with a type
    assertion to [int64]. *)
Definition GetProfile (db : DB) : Handler :=
  fun r =>
    match context.Value (Ctx r) (context.stringKey "user_id") with
    | Some (context.anyInt64 userID) =>
        match UserService.GetUser db userID with
        | Err err => sendError (Error err) StatusInternalServerError
        | Ok user => jsonOK (encodeUser (userResponse user))
        end
    | _ => sendError "Unauthorized" StatusUnauthorized
    end.

Definition UpdateProfile (db : DB) (r : Request) : Response * DB :=
  match context.Value (Ctx r) (context.stringKey "user_id") with
  | Some (context.anyInt64 userID) =>
      match decodeUpdateUserRequest (Body r) with
      | None => (sendError "Invalid request body" StatusBadRequest, db)
      | Some req =>
          if String.eqb (UpdateUserRequest.Name req) "" then
            (sendError "Name is required" StatusBadRequest, db)
          else
            match
              UserService.UpdateUser db userID (UpdateUserRequest.Name req)
            with
            | (Err err, db') =>
                (sendError (Error err) StatusInternalServerError, db')
            | (Ok user, db') => (jsonOK (encodeUser (userResponse user)), db')
            end
      end
  | _ => (sendError "Unauthorized" StatusUnauthorized, db)
  end.

Definition GetUser (db : DB) (idParam : string) : Response :=
  match ParseInt idParam with
  | None => sendError "Invalid user ID" StatusBadRequest
  | Some id =>
      match UserService.GetUser db id with
      | Err err => sendError (Error err) StatusNotFound
      | Ok user => jsonOK (encodeUser (userResponse user))
      end
  end.

Definition ListUsers (db : DB) : Handler :=
  fun _ =>
    match UserService.ListUsers db with
    | Err err => sendError (Error err) StatusInternalServerError
    | Ok users => jsonOK (encodeUsers (List.map userResponse users))
    end.

End Handlers.
End UserHandler.

(** ** [handlers.AuthHandler.Register] *)
Module AuthHandler.

Import http handlers.

Module RegisterRequest.
Record t : Type := {
  Email : string;
  Password : string;
  Name : string
}.
End RegisterRequest.

(** [json.NewDecoder(r.Body).Decode(&req)] for a [RegisterRequest]. *)
Class JSON : Type := {
  decodeRegisterRequest : string -> option RegisterRequest.t
}.

Section Handlers.
Context `{jwt.JWT} `{bcrypt.Bcrypt} `{JSON}.

(** [Register] returns its response and the service over the store after
    the request; [salt] is the randomness bcrypt draws. *)
Definition Register (s : services.AuthService) (now : Z) (salt : string)
    (r : Request) : Response * services.AuthService :=
  match decodeRegisterRequest (Body r) with
  | None => (sendError "Invalid request body" StatusBadRequest, s)
  | Some req =>
      if String.eqb (RegisterRequest.Email req) ""
         || String.eqb (RegisterRequest.Password req) ""
         || String.eqb (RegisterRequest.Name req) ""
      then
        (sendError "Email, password, and name are required" StatusBadRequest,
         s)
      else
        match services.UserExists s (RegisterRequest.Email req) with
        | Err _ =>
            (sendError "Internal server error" StatusInternalServerError, s)
        | Ok exists_ =>
            if exists_ then
              (sendError "Email already registered" StatusConflict, s)
            else
              match
                services.Register s now salt (RegisterRequest.Email req)
                  (RegisterRequest.Password req) (RegisterRequest.Name req)
              with
              | (Err err, s') =>
                  (sendError (Error err) StatusInternalServerError, s')
              | (Ok authResp, s') =>
                  ({| ContentType := ""; Status := StatusCreated;
                      Written := jsonAuth authResp |}, s')
              end
        end
  end.

End Handlers.
End AuthHandler.

(** ** The route groups ([routes.SetupRoutes])

    What stands between a request and the handler of a route, from the
    first middleware of this repository on: the protected group uses
    [AuthMiddleware]; the admin routes, inside it, use [AdminMiddleware]
    as well. *)
Module routes.

Import handlers.

Section Groups.
Context `{jwt.JWT}.

Definition protected (s : services.AuthService) (now : Z) (h : Handler)
  : Handler :=
  AuthMiddleware s now h.

Definition admin (s : services.AuthService) (now : Z) (h : Handler)
  : Handler :=
  AuthMiddleware s now (AdminMiddleware s h).

End Groups.
End routes.

(** ** Notions of the further statements *)

(** What registration relies on in bcrypt: a hash compares with the
    password it was generated from. *)
Class BcryptLaws `{bcrypt.Bcrypt} : Prop := {
  Compare_Generate : forall password cost salt hash,
    bcrypt.GenerateFromPassword password cost salt = Ok hash ->
    bcrypt.CompareHashAndPassword hash password = true
}.

(** The row [Register] inserts. *)
Definition registered (id : Z) (email hash name : string) : User.t :=
  {| User.ID := id; User.Email := email; User.Password := hash;
     User.Name := name; User.IsAdmin := false; User.CreatedAt := 0;
     User.UpdatedAt := 0 |}.

(** The sequence of the users' keys is ahead of the keys in use. *)
Definition userKeysBelowSeq (db : database.DB) : Prop :=
  forall u, In u (database.users db) -> User.ID u <= database.users_id_seq db.

(** The constraints of the users table: the primary key and the unique
    email. *)
Definition usersConsistent (db : database.DB) : Prop :=
  (forall a b,
     In a (database.users db) -> In b (database.users db) ->
     User.ID a = User.ID b -> a = b)
  /\ (forall a b,
        In a (database.users db) -> In b (database.users db) ->
        User.Email a = User.Email b -> User.ID a = User.ID b).

(** The value of a column after an update request: the value given,
    unless none is given or the one given is the zero value of the type,
    when the column keeps the stored value. *)
Definition kept {A : Type} (isZero : A -> bool) (given : option A)
    (stored : A) : A :=
  match given with
  | Some v => if isZero v then stored else v
  | None => stored
  end.

Definition isEmpty (s : string) : bool := String.eqb s "".
Definition isZero (z : Z) : bool := z =? 0.

(** A list of movies in ascending or in descending order of a key. *)
Definition ascending (key : Movie.t -> Z) (l : list Movie.t) : Prop :=
  StronglySorted (fun a b => key a <= key b) l.

Definition descending (key : Movie.t -> Z) (l : list Movie.t) : Prop :=
  StronglySorted (fun a b => key b <= key a) l.

(** The sort keys the listing knows; any other value of [sort_by] is the
    default order. *)
Definition sortKeys : list string :=
  ["title_asc"; "title_desc"; "year_asc"; "year_desc"; "rating_desc"].

(** The [unique] constraint on the names of the categories. *)
Definition categoryNamesUnique (st : CategoryDB.Store) : Prop :=
  forall a b,
    In a (CategoryDB.categories st) -> In b (CategoryDB.categories st) ->
    Category.Name a = Category.Name b -> Category.ID a = Category.ID b.

(** Every link of a movie to a category names a category of the store. *)
Definition linksResolved (st : CategoryDB.Store) : Prop :=
  forall mc,
    In mc (database.movie_categories (CategoryDB.base st)) ->
    exists c,
      In c (CategoryDB.categories st)
      /\ Category.ID c = MovieCategory.CategoryID mc.

Fixpoint hasSpace (s : string) : bool :=
  match s with
  | EmptyString => false
  | String c rest => Ascii.eqb c " " || hasSpace rest
  end.

(** A request context that holds no [int64] under the plain string
    ["user_id"]. *)
Definition noStringUserID (ctx : context.Context) : Prop :=
  forall n,
    context.Value ctx (context.stringKey "user_id")
    <> Some (context.anyInt64 n).

(** ** Reference instances of the JSON interfaces

    Request bodies and response bodies in the rendering of [Reference]:
    the fields one after the other, a field that may be left out behind a
    mark.  The rendering of a movie leaves its rating out. *)
Module ReferenceJSON.

Import Reference.

Definition encOption {A : Type} (enc : A -> string) (o : option A) : string :=
  match o with
  | None => "N"
  | Some v => String "S" (enc v)
  end.

Definition decOption {A : Type} (dec : string -> option (A * string))
    (s : string) : option (option A * string) :=
  match s with
  | String c rest =>
      if Ascii.eqb c "N" then Some (None, rest)
      else if Ascii.eqb c "S" then
        match dec rest with
        | Some (v, rest') => Some (Some v, rest')
        | None => None
        end
      else None
  | EmptyString => None
  end.

Definition decList (s : string) : option (list string * string) :=
  decStrings (S (String.length s)) s.

Definition encMovie (m : handlers.MovieResponse) : string :=
  encZ (handlers.ID m) ++ encString (handlers.Title m)
  ++ encString (handlers.Description m) ++ encZ (handlers.ReleaseYear m)
  ++ encZ (handlers.Duration m) ++ encString (handlers.PosterURL m)
  ++ encString (handlers.VideoURL m) ++ encStrings (handlers.Categories m).

Definition encUser (u : UserHandler.UserResponse) : string :=
  encZ (UserHandler.ID u) ++ encString (UserHandler.Email u)
  ++ encString (UserHandler.Name u) ++ encBool (UserHandler.IsAdmin u)
  ++ encString (UserHandler.CreatedAt u)
  ++ encString (UserHandler.UpdatedAt u).

Definition encList {A : Type} (enc : A -> string) (l : list A) : string :=
  List.fold_right (fun x acc => String "*" (enc x ++ acc)) "!" l.

Definition encUpdateMovieRequest (req : MovieHandler.UpdateMovieRequest.t)
  : string :=
  encOption encString (MovieHandler.UpdateMovieRequest.Title req)
  ++ encOption encString (MovieHandler.UpdateMovieRequest.Description req)
  ++ encOption encZ (MovieHandler.UpdateMovieRequest.ReleaseYear req)
  ++ encOption encZ (MovieHandler.UpdateMovieRequest.Duration req)
  ++ encOption encString (MovieHandler.UpdateMovieRequest.PosterURL req)
  ++ encOption encString (MovieHandler.UpdateMovieRequest.VideoURL req)
  ++ encOption encStrings (MovieHandler.UpdateMovieRequest.Categories req).

#[export] Instance movieJSON : MovieHandler.JSON := {|
  MovieHandler.decodeCreateMovieRequest := fun body =>
    andThen (decString body) (fun title s =>
    andThen (decString s) (fun description s =>
    andThen (decZ s) (fun year s =>
    andThen (decZ s) (fun duration s =>
    andThen (decString s) (fun poster s =>
    andThen (decString s) (fun video s =>
    andThen (decList s) (fun categories _ =>
      Some {| MovieHandler.CreateMovieRequest.Title := title;
              MovieHandler.CreateMovieRequest.Description := description;
              MovieHandler.CreateMovieRequest.ReleaseYear := year;
              MovieHandler.CreateMovieRequest.Duration := duration;
              MovieHandler.CreateMovieRequest.PosterURL := poster;
              MovieHandler.CreateMovieRequest.VideoURL := video;
              MovieHandler.CreateMovieRequest.Categories := categories
           |})))))));
  MovieHandler.decodeUpdateMovieRequest := fun body =>
    andThen (decOption decString body) (fun title s =>
    andThen (decOption decString s) (fun description s =>
    andThen (decOption decZ s) (fun year s =>
    andThen (decOption decZ s) (fun duration s =>
    andThen (decOption decString s) (fun poster s =>
    andThen (decOption decString s) (fun video s =>
    andThen (decOption decList s) (fun categories _ =>
      Some {| MovieHandler.UpdateMovieRequest.Title := title;
              MovieHandler.UpdateMovieRequest.Description := description;
              MovieHandler.UpdateMovieRequest.ReleaseYear := year;
              MovieHandler.UpdateMovieRequest.Duration := duration;
              MovieHandler.UpdateMovieRequest.PosterURL := poster;
              MovieHandler.UpdateMovieRequest.VideoURL := video;
              MovieHandler.UpdateMovieRequest.Categories := categories
           |})))))));
  MovieHandler.encodeMovie := encMovie;
  MovieHandler.encodeMovies := encList encMovie
|}.

#[export] Instance userJSON : UserHandler.JSON := {|
  UserHandler.Format := encZ;
  UserHandler.decodeUpdateUserRequest := fun body =>
    andThen (decString body) (fun name _ =>
      Some {| UserHandler.UpdateUserRequest.Name := name |});
  UserHandler.encodeUser := encUser;
  UserHandler.encodeUsers := encList encUser
|}.

#[export] Instance authJSON : AuthHandler.JSON := {|
  AuthHandler.decodeRegisterRequest := fun body =>
    andThen (decString body) (fun email s =>
    andThen (decString s) (fun password s =>
    andThen (decString s) (fun name _ =>
      Some {| AuthHandler.RegisterRequest.Email := email;
              AuthHandler.RegisterRequest.Password := password;
              AuthHandler.RegisterRequest.Name := name |})))
|}.

End ReferenceJSON.

(** ** The data of the further examples *)

(** A token signed under a secret that is not the service's. *)
Definition forgedToken : string :=
  signedHS256 (H := Reference.codec) "guess"
    (claimsFor aliceAdmin 1000 (1000 + 24 * time.Hour)).

(** The token Alice was issued at time 1000 while she was an admin. *)
Definition adminEraToken : string :=
  signedHS256 (H := Reference.codec) "secret"
    (claimsFor aliceAdmin 1000 (1000 + 24 * time.Hour)).

Definition bearing (token : string) : http.Request :=
  requestOf {[ "Authorization" := ["Bearer " ++ token] ]} ∅ [].

Definition bodyRequest (body : string) : http.Request :=
  {| http.Header := ∅; http.URLQuery := ∅; http.Body := body;
     http.Ctx := [] |}.

Definition registerBody (email password name : string) : string :=
  Reference.encString email ++ Reference.encString password
  ++ Reference.encString name.

(** Bob registers with the example service at time 1000. *)
Definition bobRegistration
  : result error services.AuthResponse.t * services.AuthService :=
  services.Register (H := Reference.codec) (H0 := Reference.hasher)
    exampleService 1000 "pepper" "bob@example.com" "hunter2" "Bob".

Definition bobResponse : services.AuthResponse.t :=
  match fst bobRegistration with
  | Ok resp => resp
  | Err _ => services.authResponse "" 0 alice
  end.

(** An update that gives an empty title and the release year 1986. *)
Definition retitle : MovieHandler.UpdateMovieRequest.t :=
  {| MovieHandler.UpdateMovieRequest.Title := Some "";
     MovieHandler.UpdateMovieRequest.Description := None;
     MovieHandler.UpdateMovieRequest.ReleaseYear := Some 1986;
     MovieHandler.UpdateMovieRequest.Duration := None;
     MovieHandler.UpdateMovieRequest.PosterURL := None;
     MovieHandler.UpdateMovieRequest.VideoURL := None;
     MovieHandler.UpdateMovieRequest.Categories := None |}.




Definition drama : Category.t :=
  {| Category.ID := 1; Category.Name := "Drama"; Category.CreatedAt := 0;
     Category.UpdatedAt := 0 |}.

(** The example store with one category, to which Casablanca is linked. *)
Definition categoryStore : CategoryDB.Store :=
  {| CategoryDB.base :=
       {| database.users := [alice]; database.users_id_seq := 1;
          database.movies := catalog; database.movies_id_seq := 5;
          database.movie_categories :=
            [{| MovieCategory.MovieID := 3; MovieCategory.CategoryID := 1;
                MovieCategory.CreatedAt := 0 |}];
          database.user_favorites := [] |};
     CategoryDB.categories := [drama];
     CategoryDB.categories_id_seq := 1 |}.

(** * Properties *)

(** ** The reference codec *)

Section ReferenceCodec.
Import Reference.

#[local] Arguments String.append !_ _ / : simpl nomatch.

Lemma append_assoc (a b c : string) : (a ++ b) ++ c = a ++ b ++ c.
Proof. induction a as [|x a IH]; simpl; [reflexivity | now rewrite IH]. Qed.

Lemma length_append (a b : string) :
  String.length (a ++ b) = (String.length a + String.length b)%nat.
Proof. induction a as [|x a IH]; simpl; [reflexivity | now rewrite IH]. Qed.

Lemma decPos_encPos (p : positive) (rest : string) :
  decPos (encPos p ++ rest) = Some (p, rest).
Proof.
  induction p as [q IH | q IH |]; simpl; try rewrite IH; reflexivity.
Qed.

Lemma decZ_encZ (z : Z) (rest : string) :
  decZ (encZ z ++ rest) = Some (z, rest).
Proof.
  destruct z; simpl; try rewrite decPos_encPos; reflexivity.
Qed.

Lemma decString_encString (v rest : string) :
  decString (encString v ++ rest) = Some (v, rest).
Proof.
  induction v as [|c v IH]; simpl; [reflexivity | now rewrite IH].
Qed.

Lemma decStrings_encStrings (l : list string) (rest : string) (fuel : nat) :
  (length l < fuel)%nat ->
  decStrings fuel (encStrings l ++ rest) = Some (l, rest).
Proof.
  revert fuel; induction l as [|x l IH]; intros [|fuel] Hlt; simpl in *;
    try lia; [reflexivity |].
  rewrite append_assoc, decString_encString, IH by lia. reflexivity.
Qed.

Lemma length_encStrings (l : list string) :
  (length l < String.length (encStrings l))%nat.
Proof.
  induction l as [|x l IH]; simpl; [lia |].
  rewrite length_append. lia.
Qed.

Lemma decBool_encBool (b : bool) (rest : string) :
  decBool (encBool b ++ rest) = Some (b, rest).
Proof. destruct b; reflexivity. Qed.

Lemma decDate_encDate (d : option Z) (rest : string) :
  decDate (encDate d ++ rest) = Some (d, rest).
Proof.
  destruct d as [t|]; simpl; [now rewrite decZ_encZ | reflexivity].
Qed.

Lemma decMethod_encMethod (m : jwt.SigningMethod) (rest : string) :
  decMethod (encMethod m ++ rest) = Some (m, rest).
Proof.
  destruct m; simpl; try rewrite decString_encString; reflexivity.
Qed.

Lemma parseUnverified_signed (m : jwt.SigningMethod) (c : jwt.Claims)
    (sig : string) :
  parseUnverified (signingString m c ++ "." ++ sig)
  = Some ({| jwt.Method := m; jwt.TokenClaims := c;
             jwt.Signature := sig; jwt.Valid := false |},
          signingString m c).
Proof.
  destruct c as [uid email adm [iss sub aud exp nbf iat jti]].
  unfold parseUnverified, signingString, encClaims, andThen.
  cbn [jwt.UserID jwt.Email jwt.IsAdmin jwt.Registered jwt.Issuer
       jwt.Subject jwt.Audience jwt.ExpiresAt jwt.NotBefore jwt.IssuedAt
       jwt.ID].
  repeat rewrite append_assoc.
  rewrite decMethod_encMethod, decZ_encZ, decString_encString,
    decBool_encBool, !decString_encString.
  rewrite decStrings_encStrings.
  - rewrite !decDate_encDate, decString_encString. reflexivity.
  - rewrite length_append. pose proof (length_encStrings aud). lia.
Qed.

(** The reference codec meets the laws. *)
#[export] Instance codec_laws : jwt.JWTLaws (H := codec).
Proof.
  split.
  - intros m c key _.
    apply (parseUnverified_signed m c (hmac m (signingString m c) key)).
  - reflexivity.
Qed.

End ReferenceCodec.

(** ** The store *)

Section Store.
Import database.

Lemma GetUser_found (db : DB) (id : Z) (user : User.t) :
  GetUser db id = Ok user -> In user (users db) /\ User.ID user = id.
Proof.
  unfold GetUser. destruct (List.find _ _) as [u|] eqn:Hfind; [|discriminate].
  intros [= <-]. apply find_some in Hfind as [Hin Heq].
  split; [exact Hin | now apply Z.eqb_eq].
Qed.

Lemma GetUser_missing (db : DB) (id : Z) :
  (forall u, In u (users db) -> User.ID u <> id) ->
  GetUser db id = Err (errorString "user not found").
Proof.
  intros Hnone. unfold GetUser.
  destruct (List.find _ _) as [u|] eqn:Hfind; [|reflexivity].
  apply find_some in Hfind as [Hin Heq]. apply Z.eqb_eq in Heq.
  now destruct (Hnone u Hin).
Qed.

Lemma GetUser_present (db : DB) (id : Z) :
  (exists u, In u (users db) /\ User.ID u = id) ->
  exists user, GetUser db id = Ok user.
Proof.
  intros [u [Hin Hid]]. unfold GetUser.
  destruct (List.find _ _) as [user|] eqn:Hfind; [now exists user|].
  pose proof (find_none _ _ Hfind u Hin) as Hne. simpl in Hne.
  apply Z.eqb_neq in Hne. contradiction.
Qed.

Lemma GetUserByEmail_found (db : DB) (email : string) (user : User.t) :
  GetUserByEmail db email = Ok user ->
  In user (users db) /\ User.Email user = email.
Proof.
  unfold GetUserByEmail.
  destruct (List.find _ _) as [u|] eqn:Hfind; [|discriminate].
  intros [= <-]. apply find_some in Hfind as [Hin Heq].
  split; [exact Hin | now apply String.eqb_eq].
Qed.

Lemma GetUserByEmail_missing (db : DB) (email : string) :
  (forall u, In u (users db) -> User.Email u <> email) ->
  GetUserByEmail db email = Err (errorString "user not found").
Proof.
  intros Hnone. unfold GetUserByEmail.
  destruct (List.find _ _) as [u|] eqn:Hfind; [|reflexivity].
  apply find_some in Hfind as [Hin Heq]. apply String.eqb_eq in Heq.
  now destruct (Hnone u Hin).
Qed.

Lemma CreateUser_inserted (db db' : DB) (user row : User.t) :
  CreateUser db user = Ok (db', row) ->
  In row (users db')
  /\ User.Email row = User.Email user
  /\ User.IsAdmin row = User.IsAdmin user.
Proof.
  unfold CreateUser.
  destruct (existsb _ _); [discriminate|].
  destruct (existsb _ _); [discriminate|].
  intros [= <- <-]. simpl. split; [|split; reflexivity].
  apply in_or_app. right. now left.
Qed.

End Store.

(** ** Tokens *)

Section Tokens.
Context `{jwt.JWT} `{!jwt.JWTLaws}.
Import services.

Lemma day_seconds : 24 * time.Hour = 86400.
Proof. reflexivity. Qed.

Lemma generateToken_issues (s : AuthService) (now : Z) (user : User.t) :
  generateToken s now user
  = Ok (signedHS256 (jwtSecret s)
          (claimsFor user now (now + 24 * time.Hour)),
        24 * time.Hour).
Proof.
  unfold generateToken, jwt.SignedString, signedHS256, claimsFor,
    jwt.NewWithClaims, jwt.NewNumericDate, time.Add, time.Until,
    time.Seconds; cbn [jwt.Method jwt.TokenClaims jwt.isSigningMethodHMAC].
  do 2 f_equal. unfold time.Second. rewrite Z.div_1_r. lia.
Qed.

(** What [parseToken] makes of a token that decodes. *)
Lemma parseToken_decoded (s : AuthService) (now : Z) (tokenString : string)
    (token : jwt.Token) (signingString : string) :
  jwt.ParseUnverified tokenString = Some (token, signingString) ->
  jwt.isSigningMethodHMAC (jwt.Method token) = true ->
  jwt.Signature token
  = jwt.HMAC (jwt.Method token) signingString (jwtSecret s) ->
  parseToken s now tokenString
  = match jwt.Validate now (jwt.TokenClaims token) with
    | Some err => Err err
    | None => Ok (jwt.TokenClaims token)
    end.
Proof.
  intros Hparse Hhmac Hsig.
  unfold parseToken, jwt.ParseWithClaims, jwt.Verify.
  rewrite Hparse, Hhmac, Hsig, String.eqb_refl.
  destruct (jwt.Validate now (jwt.TokenClaims token)); reflexivity.
Qed.

Lemma parseToken_signed (s : AuthService) (now : Z) (secret : string)
    (c : jwt.Claims) :
  jwtSecret s = secret ->
  parseToken s now (signedHS256 secret c)
  = match jwt.Validate now c with
    | Some err => Err err
    | None => Ok c
    end.
Proof using Type*.
  intros <-. unfold signedHS256.
  erewrite parseToken_decoded;
    [ | apply jwt.ParseUnverified_signed; reflexivity
      | reflexivity | reflexivity ].
  reflexivity.
Qed.

Lemma Validate_claimsFor (user : User.t) (iat exp now : Z) :
  jwt.Validate now (claimsFor user iat exp)
  = if now <? exp then None else Some ErrTokenExpired.
Proof. reflexivity. Qed.

Lemma expiryOf_signed (secret : string) (c : jwt.Claims) :
  expiryOf (signedHS256 secret c) = jwt.ExpiresAt (jwt.Registered c).
Proof using Type*.
  unfold expiryOf, signedHS256.
  now rewrite jwt.ParseUnverified_signed.
Qed.

Lemma issued_validatesAs (secret : string) (user : User.t) (now : Z) :
  validatesAs secret
    (signedHS256 secret (claimsFor user now (now + 24 * time.Hour)))
    (User.ID user).
Proof using Type*.
  exists (now + 24 * time.Hour). split; [apply expiryOf_signed|].
  intros s' now' Hsecret. unfold ValidateToken.
  rewrite (parseToken_signed s' now' secret _ Hsecret), Validate_claimsFor.
  split; intros Hcmp.
  - apply Z.ltb_lt in Hcmp. now rewrite Hcmp.
  - apply Z.ltb_ge in Hcmp. now rewrite Hcmp.
Qed.

Lemma ValidateToken_empty (s : AuthService) (now : Z) :
  ValidateToken s now "" = Err ErrInvalidToken.
Proof using Type*.
  unfold ValidateToken, parseToken, jwt.ParseWithClaims.
  now rewrite jwt.ParseUnverified_empty.
Qed.

Lemma parseToken_wellSigned (s : AuthService) (now : Z)
    (tokenString : string) (claims : jwt.Claims) :
  wellSigned (jwtSecret s) now tokenString claims ->
  parseToken s now tokenString = Ok claims.
Proof.
  intros (token & ss & Hparse & <- & Hhmac & Hsig & Hexp & Hnbf).
  rewrite (parseToken_decoded s now tokenString token ss Hparse Hhmac Hsig).
  unfold jwt.Validate.
  assert (match jwt.NotBefore (jwt.Registered (jwt.TokenClaims token)) with
          | Some nbf => if nbf <=? now then None else Some ErrTokenNotValidYet
          | None => None
          end = None) as ->.
  { destruct (jwt.NotBefore _) as [nbf|]; [|reflexivity].
    specialize (Hnbf nbf eq_refl). apply Z.leb_le in Hnbf.
    now rewrite Hnbf. }
  destruct (jwt.ExpiresAt _) as [exp|]; [|reflexivity].
  specialize (Hexp exp eq_refl). apply Z.ltb_lt in Hexp. now rewrite Hexp.
Qed.

End Tokens.

(** ** The auth service *)

Section AuthProperties.
Context `{jwt.JWT} `{!jwt.JWTLaws} `{bcrypt.Bcrypt}
  `{handlers.JSONDecoder}.
Import database services.

Lemma Login_result (s : AuthService) (now : Z) (email password : string) :
  Login s now email password
  = match GetUserByEmail (db s) email with
    | Err _ => Err ErrInvalidCredentials
    | Ok user =>
        if bcrypt.CompareHashAndPassword (User.Password user) password then
          Ok (authResponse
                (signedHS256 (jwtSecret s)
                   (claimsFor user now (now + 24 * time.Hour)))
                (24 * time.Hour) user)
        else Err ErrInvalidCredentials
    end.
Proof.
  unfold Login. destruct (GetUserByEmail (db s) email) as [user|e];
    [|reflexivity].
  now rewrite generateToken_issues.
Qed.

(** C1. [Login] fails with the one error [ErrInvalidCredentials] both when
    no user is registered under the email and when the user found has a
    password hash the password does not match; no failure of [Login]
    carries any other error, and the login handler answers both with the
    same response, so the two causes cannot be told apart. *)
Theorem login_failures_indistinguishable
    (s1 s2 : AuthService) (now1 now2 : Z)
    (email1 password1 email2 password2 : string) (user : User.t) :
  (forall u, In u (users (db s1)) -> User.Email u <> email1) ->
  GetUserByEmail (db s2) email2 = Ok user ->
  bcrypt.CompareHashAndPassword (User.Password user) password2 = false ->
  Login s1 now1 email1 password1 = Err ErrInvalidCredentials
  /\ Login s2 now2 email2 password2 = Err ErrInvalidCredentials
  /\ (forall s now email password err,
        Login s now email password = Err err ->
        err = ErrInvalidCredentials)
  /\ (forall r1 r2,
        handlers.decodeLoginRequest (http.Body r1)
        = Some {| handlers.LoginRequest.Email := email1;
                  handlers.LoginRequest.Password := password1 |} ->
        handlers.decodeLoginRequest (http.Body r2)
        = Some {| handlers.LoginRequest.Email := email2;
                  handlers.LoginRequest.Password := password2 |} ->
        email1 <> "" -> password1 <> "" ->
        email2 <> "" -> password2 <> "" ->
        handlers.Login s1 now1 r1
        = handlers.sendError "Invalid email or password"
            http.StatusUnauthorized
        /\ handlers.Login s2 now2 r2
           = handlers.sendError "Invalid email or password"
               http.StatusUnauthorized).
Proof.
  intros Hunknown Hfound Hwrong.
  assert (Login s1 now1 email1 password1 = Err ErrInvalidCredentials)
    as Hlogin1.
  { rewrite Login_result, GetUserByEmail_missing by assumption.
    reflexivity. }
  assert (Login s2 now2 email2 password2 = Err ErrInvalidCredentials)
    as Hlogin2.
  { rewrite Login_result, Hfound, Hwrong. reflexivity. }
  split; [exact Hlogin1|]. split; [exact Hlogin2|]. split.
  - intros s now email password err. rewrite Login_result.
    destruct (GetUserByEmail (db s) email) as [u|e];
      [|intros Heq; congruence].
    destruct (bcrypt.CompareHashAndPassword (User.Password u) password);
      intros Heq; congruence.
  - intros r1 r2 Hbody1 Hbody2 He1 Hp1 He2 Hp2. unfold handlers.Login.
    rewrite Hbody1, Hbody2;
      cbn [handlers.LoginRequest.Email handlers.LoginRequest.Password].
    apply String.eqb_neq in He1, Hp1, He2, Hp2.
    rewrite He1, Hp1, He2, Hp2, Hlogin1, Hlogin2. split; reflexivity.
Qed.

(** C3. A token that [Login] or [Register] returns for a user carries an
    expiry, 24 hours after its issue; under the same signing secret
    [ValidateToken] returns that user's id at every time before the
    expiry, and fails with [ErrInvalidToken] once the expiry is reached or
    past. *)
Theorem issued_token_validates (s : AuthService) (now : Z) :
  (forall email password resp,
     Login s now email password = Ok resp ->
     (exists user,
        GetUserByEmail (db s) email = Ok user
        /\ AuthResponse.UserID resp = User.ID user)
     /\ expiryOf (AuthResponse.Token resp) = Some (now + 24 * time.Hour)
     /\ validatesAs (jwtSecret s) (AuthResponse.Token resp)
          (AuthResponse.UserID resp))
  /\ (forall salt email password name resp s',
        Register s now salt email password name = (Ok resp, s') ->
        (exists user,
           In user (users (db s'))
           /\ User.Email user = email
           /\ AuthResponse.UserID resp = User.ID user)
        /\ jwtSecret s' = jwtSecret s
        /\ expiryOf (AuthResponse.Token resp) = Some (now + 24 * time.Hour)
        /\ validatesAs (jwtSecret s) (AuthResponse.Token resp)
             (AuthResponse.UserID resp)).
Proof using Type*.
  split.
  - intros email password resp. rewrite Login_result.
    destruct (GetUserByEmail (db s) email) as [user|e]; [|discriminate].
    destruct (bcrypt.CompareHashAndPassword _ _); [|discriminate].
    intros [= <-]. split; [now exists user|].
    split; [apply expiryOf_signed | apply issued_validatesAs].
  - intros salt email password name resp s'. unfold Register.
    destruct (bcrypt.GenerateFromPassword _ _ _) as [hashed|e];
      [|discriminate].
    destruct (CreateUser (db s) _) as [[db' row]|e] eqn:Hcreate;
      [|discriminate].
    rewrite generateToken_issues. intros [= <- <-].
    apply CreateUser_inserted in Hcreate as (Hin & Hemail & _).
    split; [exists row; auto|]. split; [reflexivity|].
    split; [apply expiryOf_signed | apply issued_validatesAs].
Qed.

(** C4. [RefreshToken] fails with [ErrInvalidToken] when the codec rejects
    the token; otherwise with [ErrUserNotFound] when no row of the store
    has the id in the claims; otherwise it answers with the fields of the
    row the store holds now, and with a new token whose claims are that
    row's id, email and admin flag and whose expiry is 24 hours after
    [now].  [IsAdmin] reads the same row. *)
Theorem refresh_token_cases (s : AuthService) (now : Z) (token : string) :
  (forall err,
     parseToken s now token = Err err ->
     RefreshToken s now token = Err ErrInvalidToken)
  /\ (forall claims,
        parseToken s now token = Ok claims ->
        ((forall u, In u (users (db s)) -> User.ID u <> jwt.UserID claims) ->
         RefreshToken s now token = Err ErrUserNotFound)
        /\ ((exists u, In u (users (db s)) /\ User.ID u = jwt.UserID claims) ->
            exists user resp,
              GetUser (db s) (jwt.UserID claims) = Ok user
              /\ In user (users (db s))
              /\ User.ID user = jwt.UserID claims
              /\ RefreshToken s now token = Ok resp
              /\ AuthResponse.UserID resp = User.ID user
              /\ AuthResponse.Name resp = User.Name user
              /\ AuthResponse.Email resp = User.Email user
              /\ AuthResponse.IsAdmin resp = User.IsAdmin user
              /\ parseToken s now (AuthResponse.Token resp)
                 = Ok (claimsFor user now (now + 24 * time.Hour))
              /\ IsAdmin s (User.ID user) = Ok (User.IsAdmin user))).
Proof using Type*.
  split.
  - intros err Hparse. unfold RefreshToken. now rewrite Hparse.
  - intros claims Hparse. split.
    + intros Hnone. unfold RefreshToken.
      rewrite Hparse, GetUser_missing by assumption. reflexivity.
    + intros Hsome. destruct (GetUser_present _ _ Hsome) as [user Hget].
      destruct (GetUser_found _ _ _ Hget) as [Hin Hid].
      exists user, (authResponse
                      (signedHS256 (jwtSecret s)
                         (claimsFor user now (now + 24 * time.Hour)))
                      (24 * time.Hour) user).
      repeat split; try assumption; try reflexivity.
      * unfold RefreshToken.
        rewrite Hparse, Hget, generateToken_issues. reflexivity.
      * cbn [authResponse AuthResponse.Token].
        rewrite (parseToken_signed s now _ _ eq_refl), Validate_claimsFor.
        assert ((now <? now + 24 * time.Hour) = true) as ->; [|reflexivity].
        apply Z.ltb_lt. rewrite day_seconds. lia.
      * unfold IsAdmin. rewrite Hid, Hget. reflexivity.
Qed.

End AuthProperties.

(** ** The access control middleware *)

Section MiddlewareProperties.
Context `{jwt.JWT} `{!jwt.JWTLaws}.
Import database services http handlers.

Lemma ValidateToken_error (s : AuthService) (now : Z) (token : string)
    (err : error) :
  ValidateToken s now token = Err err -> err = ErrInvalidToken.
Proof.
  unfold ValidateToken. destruct (parseToken s now token); congruence.
Qed.

(** The token the stage goes on with, by the shape of the header. *)
Lemma extractToken_cases (r : Request) :
  extractToken r
  = if String.eqb (authorization r) "" then ""
    else if negb (Nat.eqb (length (bearerParts r)) 2)
            || negb (String.eqb (nth 0 (bearerParts r) "") "Bearer")
         then ""
         else nth 1 (bearerParts r) "".
Proof. reflexivity. Qed.



Lemma AuthMiddleware_token (s : AuthService) (now : Z) (next : Handler)
    (r : Request) :
  AuthMiddleware s now next r
  = if String.eqb (extractToken r) "" then
      sendError "Missing authorization header" StatusUnauthorized
    else
      match ValidateToken s now (extractToken r) with
      | Err _ => sendError "Invalid or expired token" StatusUnauthorized
      | Ok userID => next (WithContext r (ContextWithUserID (Ctx r) userID))
      end.
Proof.
  unfold AuthMiddleware. destruct (String.eqb _ _); [reflexivity|].
  destruct (ValidateToken s now (extractToken r)) as [uid|err] eqn:Hval;
    [reflexivity|].
  now rewrite (ValidateToken_error _ _ _ _ Hval).
Qed.


(** C9. [ValidateToken] and the authentication stage give the same
    outcome over any two stores, as long as the secret and the clock
    agree; a request bearing a token that is signed under the secret and
    has not expired is passed on with the token's user id attached, over
    every store, also one with no row for that id. *)
Theorem validate_token_ignores_store (db1 db2 : DB) (secret : string)
    (now : Z) :
  (forall token,
     ValidateToken {| db := db1; jwtSecret := secret |} now token
     = ValidateToken {| db := db2; jwtSecret := secret |} now token)
  /\ (forall next r,
        AuthMiddleware {| db := db1; jwtSecret := secret |} now next r
        = AuthMiddleware {| db := db2; jwtSecret := secret |} now next r)
  /\ (forall token claims next r,
        extractToken r = token ->
        wellSigned secret now token claims ->
        AuthMiddleware {| db := db1; jwtSecret := secret |} now next r
        = next (WithContext r
                  (ContextWithUserID (Ctx r) (jwt.UserID claims)))).
Proof using Type*.
  split; [reflexivity|]. split; [reflexivity|].
  intros token claims next r Htoken Hsigned.
  pose (s := {| db := db1; jwtSecret := secret |}).
  assert (ValidateToken s now token = Ok (jwt.UserID claims)) as Hval.
  { unfold ValidateToken.
    now rewrite (parseToken_wellSigned s now token claims Hsigned). }
  fold s. rewrite AuthMiddleware_token, Htoken, Hval.
  destruct (String.eqb_spec token "") as [Hempty|_]; [|reflexivity].
  rewrite Hempty, ValidateToken_empty in Hval. discriminate.
Qed.

End MiddlewareProperties.

Section AdminProperties.
Import database services http handlers.

Lemma UserIDFromContext_attached (ctx : context.Context) (userID : Z) :
  context.Value ctx userIDKey = Some (context.anyInt64 userID) ->
  UserIDFromContext ctx = userID.
Proof. unfold UserIDFromContext. now intros ->. Qed.

Lemma UserIDFromContext_absent (ctx : context.Context) :
  (forall userID,
     context.Value ctx userIDKey <> Some (context.anyInt64 userID)) ->
  UserIDFromContext ctx = 0.
Proof.
  intros Hnone. unfold UserIDFromContext.
  destruct (context.Value ctx userIDKey) as [[n|str]|]; try reflexivity.
  now destruct (Hnone n).
Qed.

(** C5, as the code has it.  The admin-authorization stage answers
    Unauthorized when no user id is attached to the context, and also when
    the id attached is 0, which [UserIDFromContext] cannot tell from no
    id.  For any other id it answers InternalError when [IsAdmin] fails,
    Forbidden when the stored admin flag is false, and otherwise hands the
    request, unchanged, to the next handler. *)
Theorem admin_middleware_cases (s : AuthService) (next : Handler)
    (r : Request) :
  ((forall userID,
      context.Value (Ctx r) userIDKey <> Some (context.anyInt64 userID))
   \/ context.Value (Ctx r) userIDKey = Some (context.anyInt64 0) ->
   AdminMiddleware s next r = sendError "Unauthorized" StatusUnauthorized)
  /\ (forall userID,
        context.Value (Ctx r) userIDKey = Some (context.anyInt64 userID) ->
        userID <> 0 ->
        (forall err,
           IsAdmin s userID = Err err ->
           AdminMiddleware s next r
           = sendError "Internal server error" StatusInternalServerError)
        /\ (IsAdmin s userID = Ok false ->
            AdminMiddleware s next r
            = sendError "Admin access required" StatusForbidden)
        /\ (IsAdmin s userID = Ok true -> AdminMiddleware s next r = next r)).
Proof.
  unfold AdminMiddleware. split.
  - intros [Habsent|Hzero].
    + now rewrite UserIDFromContext_absent.
    + now rewrite (UserIDFromContext_attached _ _ Hzero).
  - intros userID Hattached Hnz.
    rewrite (UserIDFromContext_attached _ _ Hattached).
    apply Z.eqb_neq in Hnz. rewrite Hnz.
    repeat split; intros; match goal with
                          | Hadm : IsAdmin _ _ = _ |- _ => now rewrite Hadm
                          end.
Qed.

End AdminProperties.

(** ** Integers and parsing *)

Section Integers.


Lemma Atoi_inRange (s : string) (n : Z) :
  strconv.Atoi s = Some n -> GoInt.MinInt <= n <= GoInt.MaxInt.
Proof.
  unfold strconv.Atoi. destruct s as [|c rest]; [discriminate|].
  destruct (if _ : bool then rest else String c rest); [discriminate|].
  destruct (strconv.parseDigits _ _) as [m|]; [|discriminate].
  destruct (GoInt.inRange _) eqn:Hrange; [|discriminate].
  intros [= <-]. unfold GoInt.inRange in Hrange.
  apply andb_true_iff in Hrange as [Hlo Hhi]. lia.
Qed.


End Integers.

(** ** The catalog *)

Section CatalogProperties.
Context `{postgres.Postgres}.
Import database services http handlers.



Lemma effectivePageSize_positive (f : MovieFilter.t) :
  0 < effectivePageSize f.
Proof.
  unfold effectivePageSize.
  destruct (Z.leb_spec (MovieFilter.PageSize f) 0); lia.
Qed.

Lemma filtered_withPaging (db : DB) (f : MovieFilter.t) (page pageSize : Z) :
  filtered db (withPaging f page pageSize) = filtered db f.
Proof. reflexivity. Qed.

(** The query [GetMovies] runs, in Go's arithmetic. *)
Lemma GetMovies_query (db : DB) (f : MovieFilter.t) :
  services.GetMovies db f
  = match
      postgres.LimitOffset (effectivePageSize f)
        (GoInt.mul (GoInt.sub (effectivePage f) 1) (effectivePageSize f))
        (Order (MovieFilter.SortBy f) (filtered db f))
    with
    | Err err => ([], Z.of_nat (length (filtered db f)), Some err)
    | Ok movies => (movies, Z.of_nat (length (filtered db f)), None)
    end.
Proof. reflexivity. Qed.








End CatalogProperties.

Section Pages.



End Pages.

Section CatalogPages.
Context `{postgres.Postgres}.
Import database services.


End CatalogPages.

Section TitleProperties.
Import database services.

Lemma title_taken (db : DB) (movie : Movie.t) :
  existsb (fun m => String.eqb (Movie.Title m) (Movie.Title movie))
    (movies db) = true
  <-> exists m, In m (movies db) /\ Movie.Title m = Movie.Title movie.
Proof.
  rewrite existsb_exists. split; intros [m [Hin Heq]]; exists m;
    (split; [exact Hin | now apply String.eqb_eq]).
Qed.

Lemma title_taken_by_other (db : DB) (movie : Movie.t) :
  existsb
    (fun m =>
       String.eqb (Movie.Title m) (Movie.Title movie)
       && negb (Movie.ID m =? Movie.ID movie))
    (movies db) = true
  <-> exists m,
        In m (movies db)
        /\ Movie.Title m = Movie.Title movie
        /\ Movie.ID m <> Movie.ID movie.
Proof.
  rewrite existsb_exists. split.
  - intros [m [Hin Heq]]. apply andb_true_iff in Heq as [Ht Hid].
    exists m. repeat split; [exact Hin | now apply String.eqb_eq |].
    apply negb_true_iff, Z.eqb_neq in Hid. exact Hid.
  - intros [m (Hin & Ht & Hid)]. exists m. split; [exact Hin|].
    apply andb_true_iff. split; [now apply String.eqb_eq|].
    now apply negb_true_iff, Z.eqb_neq.
Qed.


Lemma updateRow_ID (movie row : Movie.t) :
  Movie.ID (updateRow movie row) = Movie.ID row.
Proof. reflexivity. Qed.

Lemma updateRow_Title (movie row : Movie.t) :
  Movie.Title (updateRow movie row)
  = if String.eqb (Movie.Title movie) "" then Movie.Title row
    else Movie.Title movie.
Proof. reflexivity. Qed.

(** X1. The services keep the invariant: after [CreateMovie],
    [UpdateMovie] or [DeleteMovie] on a store whose titles are unique, the
    titles of the store are unique. *)
Theorem titles_stay_unique (db : DB) (movie : Movie.t) (id : Z) :
  titlesUnique db ->
  titlesUnique (snd (fst (CreateMovie db movie)))
  /\ titlesUnique (snd (UpdateMovie db movie))
  /\ titlesUnique (snd (DeleteMovie db id)).
Proof.
  intros Hunique. repeat split.
  - unfold CreateMovie.
    destruct (existsb
                (fun m => String.eqb (Movie.Title m) (Movie.Title movie))
                (movies db)) eqn:Htaken; [exact Hunique|].
    unfold insertMovie.
    destruct (existsb (fun m => Movie.ID m =? _) (movies db));
      [exact Hunique|].
    cbn [fst snd]. intros a b Ha Hb Htitle. cbn [with_movies movies] in Ha, Hb.
    apply in_app_or in Ha, Hb.
    assert (forall m, In m (movies db) ->
                      Movie.Title m <> Movie.Title movie) as Hfresh.
    { intros m Hm Heq.
      assert (existsb
                (fun m => String.eqb (Movie.Title m) (Movie.Title movie))
                (movies db) = true) as Hyes
        by (apply title_taken; eauto).
      congruence. }
    destruct Ha as [Ha|[<-|[]]], Hb as [Hb|[<-|[]]].
    + now apply Hunique.
    + destruct (Hfresh a Ha). exact Htitle.
    + destruct (Hfresh b Hb). symmetry. exact Htitle.
    + reflexivity.
  - unfold UpdateMovie.
    destruct (existsb
                (fun m =>
                   String.eqb (Movie.Title m) (Movie.Title movie)
                   && negb (Movie.ID m =? Movie.ID movie))
                (movies db)) eqn:Htaken; [exact Hunique|].
    cbn [snd]. intros a' b' Ha Hb Htitle. cbn [with_movies movies] in Ha, Hb.
    apply in_map_iff in Ha as [a [<- Ha]], Hb as [b [<- Hb]].
    assert (forall m, In m (movies db) ->
                      Movie.Title m = Movie.Title movie ->
                      Movie.ID m = Movie.ID movie) as Hown.
    { intros m Hm Heq. destruct (Z.eq_dec (Movie.ID m) (Movie.ID movie));
        [assumption|].
      assert (existsb
                (fun m =>
                   String.eqb (Movie.Title m) (Movie.Title movie)
                   && negb (Movie.ID m =? Movie.ID movie))
                (movies db) = true) as Hyes
        by (apply title_taken_by_other; eauto).
      congruence. }
    destruct (Z.eqb_spec (Movie.ID a) (Movie.ID movie)) as [Hida|Hida],
             (Z.eqb_spec (Movie.ID b) (Movie.ID movie)) as [Hidb|Hidb];
      rewrite ?updateRow_ID, ?updateRow_Title in *.
    + congruence.
    + destruct (String.eqb (Movie.Title movie) "").
      * now apply Hunique.
      * destruct Hidb. apply Hown; congruence.
    + destruct (String.eqb (Movie.Title movie) "").
      * now apply Hunique.
      * destruct Hida. apply Hown; congruence.
    + now apply Hunique.
  - cbn [DeleteMovie snd]. intros a b Ha Hb. cbn [movies] in Ha, Hb.
    apply filter_In in Ha as [Ha _], Hb as [Hb _]. now apply Hunique.
Qed.

End TitleProperties.

(** ** Examples *)

Section Examples.
Import database services http handlers.

Lemma login_failures_witness :
  services.Login (H := Reference.codec) (H0 := Reference.hasher)
    exampleService 1000 "bob@example.com" "hunter2"
  = Err ErrInvalidCredentials
  /\ services.Login (H := Reference.codec) (H0 := Reference.hasher)
       exampleService 1000 "alice@example.com" "hunter2"
     = Err ErrInvalidCredentials
  /\ handlers.Login (H := Reference.codec) (H0 := Reference.hasher)
       (H1 := Reference.decoder) exampleService 1000
       (loginRequest "bob@example.com" "hunter2")
     = handlers.Login (H := Reference.codec) (H0 := Reference.hasher)
         (H1 := Reference.decoder) exampleService 1000
         (loginRequest "alice@example.com" "hunter2").
Proof.
  destruct
    (@login_failures_indistinguishable Reference.codec Reference.hasher
       Reference.decoder exampleService exampleService 1000 1000
       "bob@example.com" "hunter2" "alice@example.com" "hunter2" alice)
    as (Hunknown & Hwrong & _ & Hresponse).
  - intros u [<-|[]]. discriminate.
  - reflexivity.
  - reflexivity.
  - split; [assumption|]. split; [assumption|].
    destruct
      (Hresponse (loginRequest "bob@example.com" "hunter2")
         (loginRequest "alice@example.com" "hunter2") eq_refl eq_refl)
      as [Hbob Halice]; try discriminate.
    now rewrite Hbob, Halice.
Defined.

Lemma issued_token_witness :
  ValidateToken (H := Reference.codec) exampleService 2000 aliceToken = Ok 1
  /\ ValidateToken (H := Reference.codec) exampleService 90000 aliceToken
     = Err ErrInvalidToken.
Proof.
  destruct
    (@issued_token_validates Reference.codec codec_laws Reference.hasher
       exampleService 1000) as [Hlogin _].
  destruct
    (Hlogin "alice@example.com" "correct horse"
       (authResponse aliceToken 86400 alice) eq_refl)
    as (_ & _ & exp & Hexp & Hvalid).
  vm_compute in Hexp. injection Hexp as <-.
  destruct (Hvalid exampleService 2000 eq_refl) as [Hbefore _].
  destruct (Hvalid exampleService 90000 eq_refl) as [_ Hafter].
  split; [apply Hbefore | apply Hafter]; lia.
Defined.

Lemma refresh_token_witness :
  exists resp,
    RefreshToken (H := Reference.codec) promotedService 2000 aliceToken
    = Ok resp
    /\ AuthResponse.IsAdmin resp = true
    /\ parseToken (H := Reference.codec) promotedService 2000
         (AuthResponse.Token resp)
       = Ok (claimsFor aliceAdmin 2000 (2000 + 24 * time.Hour))
    /\ IsAdmin promotedService 1 = Ok true.
Proof.
  destruct
    (@refresh_token_cases Reference.codec codec_laws promotedService 2000 aliceToken)
    as [_ Hparsed].
  destruct
    (Hparsed (claimsFor alice 1000 (1000 + 24 * time.Hour)) eq_refl)
    as [_ Hfound].
  destruct Hfound
    as (user & resp & Hget & _ & _ & Hrefresh & _ & _ & _ & Hadmin
        & Htoken & HisAdmin).
  - exists aliceAdmin. split; [now left | reflexivity].
  - vm_compute in Hget. injection Hget as <-.
    exists resp. repeat split; assumption.
Defined.


Lemma validate_token_witness :
  ValidateToken (H := Reference.codec) emptiedService 2000 aliceToken
  = ValidateToken (H := Reference.codec) exampleService 2000 aliceToken
  /\ AuthMiddleware (H := Reference.codec) emptiedService 2000 whoami
       bearerRequest
     = whoami (WithContext bearerRequest (ContextWithUserID [] 1))
  /\ GetUser (db emptiedService) 1 = Err (errorString "user not found").
Proof.
  destruct
    (@validate_token_ignores_store Reference.codec codec_laws
       (storeOf []) (storeOf [alice]) "secret" 2000)
    as (Hvalidate & _ & Haccept).
  split; [apply Hvalidate|]. split; [|reflexivity].
  apply (Haccept aliceToken (claimsFor alice 1000 (1000 + 24 * time.Hour))).
  - reflexivity.
  - eexists _, _. split; [reflexivity|].
    repeat split; try reflexivity.
    + intros exp [= <-]. reflexivity.
    + intros nbf. discriminate.
Defined.

Lemma admin_middleware_witness :
  AdminMiddleware exampleService whoami
    (requestOf ∅ ∅ (ContextWithUserID [] 1))
  = sendError "Admin access required" StatusForbidden
  /\ AdminMiddleware promotedService whoami
       (requestOf ∅ ∅ (ContextWithUserID [] 1))
     = whoami (requestOf ∅ ∅ (ContextWithUserID [] 1))
  /\ AdminMiddleware exampleService whoami (requestOf ∅ ∅ [])
     = sendError "Unauthorized" StatusUnauthorized.
Proof.
  split; [|split].
  - destruct
      (admin_middleware_cases exampleService whoami
         (requestOf ∅ ∅ (ContextWithUserID [] 1))) as [_ Hattached].
    destruct (Hattached 1 eq_refl ltac:(lia)) as (_ & Hforbidden & _).
    apply Hforbidden. reflexivity.
  - destruct
      (admin_middleware_cases promotedService whoami
         (requestOf ∅ ∅ (ContextWithUserID [] 1))) as [_ Hattached].
    destruct (Hattached 1 eq_refl ltac:(lia)) as (_ & _ & Hpass).
    apply Hpass. reflexivity.
  - destruct
      (admin_middleware_cases exampleService whoami (requestOf ∅ ∅ []))
      as [Habsent _].
    apply Habsent. left. intros userID. discriminate.
Defined.

(** C5 as stated fails on a context that carries the user id 0: an id is
    attached and the [IsAdmin] lookup fails, so the statement calls for
    InternalError, yet the stage answers Unauthorized. *)
Lemma admin_middleware_zero_id :
  context.Value (Ctx (requestOf ∅ ∅ (ContextWithUserID [] 0))) userIDKey
  = Some (context.anyInt64 0)
  /\ IsAdmin exampleService 0 = Err (errorString "user not found")
  /\ AdminMiddleware exampleService whoami
       (requestOf ∅ ∅ (ContextWithUserID [] 0))
     = sendError "Unauthorized" StatusUnauthorized
  /\ AdminMiddleware exampleService whoami
       (requestOf ∅ ∅ (ContextWithUserID [] 0))
     <> sendError "Internal server error" StatusInternalServerError.
Proof. repeat split. discriminate. Qed.

End Examples.

Section CatalogExamples.
Import database services http handlers.





Lemma catalog_titlesUnique : titlesUnique (storeOf []).
Proof.
  intros a b Ha Hb. simpl in Ha, Hb.
  repeat (destruct Ha as [<-|Ha]; [|]); try contradiction;
    repeat (destruct Hb as [<-|Hb]; [|]); try contradiction;
    solve [reflexivity | discriminate].
Qed.


Lemma titles_stay_unique_witness :
  titlesUnique (snd (fst (CreateMovie (storeOf []) (film 0 "Fargo" 1996))))
  /\ titlesUnique (snd (UpdateMovie (storeOf []) (film 4 "Dune" 2021)))
  /\ titlesUnique (snd (DeleteMovie (storeOf []) 4)).
Proof.
  destruct
    (titles_stay_unique (storeOf []) (film 0 "Fargo" 1996) 4
       catalog_titlesUnique) as (Hcreate & _ & Hdelete).
  destruct
    (titles_stay_unique (storeOf []) (film 4 "Dune" 2021) 4
       catalog_titlesUnique) as (_ & Hupdate & _).
  repeat split; assumption.
Defined.

(** The offset of a listing is a product of Go [int]s: for the page
    4611686018427387905 and the page size 4 it wraps around to 0, and the
    listing returns the first four movies. *)
Lemma listing_offset_wraps :
  strconv.Atoi "4611686018427387905" = Some 4611686018427387905
  /\ GoInt.mul (GoInt.sub 4611686018427387905 1) 4 = 0
  /\ services.GetMovies (H := Reference.engine) (storeOf [])
       (movieFilter
          (listingRequest
             {[ "page" := ["4611686018427387905"]; "page_size" := ["4"] ]}))
     = ([film 5 "Eraserhead" 1977; film 4 "Dune" 1984;
         film 3 "Casablanca" 1942; film 2 "Brazil" 1985], 5, None).
Proof. repeat split. Qed.

End CatalogExamples.


(** * Properties of the further parts *)

(** ** Which tokens are accepted *)

Section TokenAcceptance.
Context `{jwt.JWT}.
Import database services.

Lemma Validate_passes (now : Z) (c : jwt.Claims) :
  jwt.Validate now c = None ->
  (forall exp, jwt.ExpiresAt (jwt.Registered c) = Some exp -> now < exp)
  /\ (forall nbf, jwt.NotBefore (jwt.Registered c) = Some nbf -> nbf <= now).
Proof.
  unfold jwt.Validate. intros Hvalid. split.
  - intros exp Hexp. rewrite Hexp in Hvalid.
    destruct (Z.ltb_spec now exp); [assumption|discriminate].
  - intros nbf Hnbf. rewrite Hnbf in Hvalid.
    destruct (jwt.ExpiresAt _) as [exp|].
    + destruct (now <? exp); [|discriminate].
      destruct (Z.leb_spec nbf now); [assumption|discriminate].
    + destruct (Z.leb_spec nbf now); [assumption|discriminate].
Qed.

Lemma parseToken_accepts (s : AuthService) (now : Z) (tokenString : string)
    (claims : jwt.Claims) :
  parseToken s now tokenString = Ok claims ->
  wellSigned (jwtSecret s) now tokenString claims.
Proof.
  unfold parseToken, jwt.ParseWithClaims, jwt.Verify.
  destruct (jwt.ParseUnverified tokenString) as [[token ss]|] eqn:Hparse;
    [|discriminate].
  destruct (jwt.isSigningMethodHMAC (jwt.Method token)) eqn:Hhmac;
    [|discriminate].
  destruct (String.eqb_spec (jwt.Signature token)
              (jwt.HMAC (jwt.Method token) ss (jwtSecret s))) as [Hsig|_];
    [|discriminate].
  destruct (jwt.Validate now (jwt.TokenClaims token)) eqn:Hvalid;
    [discriminate|].
  cbn. intros [= <-]. destruct (Validate_passes _ _ Hvalid) as [Hexp Hnbf].
  exists token, ss. repeat split; assumption.
Qed.

(** X3. [ValidateToken] yields a user id for exactly the tokens that
    decode, are signed with an HMAC method under the service's secret, have
    not expired and whose not-before date has come, and the id is the one
    in their claims; every rejection is [ErrInvalidToken]. *)
Theorem validate_token_accepts_exactly (s : AuthService) (now : Z)
    (token : string) (userID : Z) :
  (ValidateToken s now token = Ok userID
   <-> exists claims,
         wellSigned (jwtSecret s) now token claims
         /\ jwt.UserID claims = userID)
  /\ (forall err, ValidateToken s now token = Err err -> err = ErrInvalidToken).
Proof.
  split; [split|].
  - unfold ValidateToken.
    destruct (parseToken s now token) as [claims|] eqn:Hparse; [|discriminate].
    intros [= <-]. exists claims. split; [|reflexivity].
    now apply parseToken_accepts.
  - intros (claims & Hsigned & <-). unfold ValidateToken.
    now rewrite (parseToken_wellSigned s now token claims Hsigned).
  - apply ValidateToken_error.
Qed.

(** X4. A token that is not signed with an HMAC method under the
    service's secret gets nowhere: validation and refresh fail with
    [ErrInvalidToken], and the auth middleware answers 401, the same
    whatever handler stands behind it. *)
Theorem forged_token_rejected (s : AuthService) (now : Z) (r : http.Request)
    (token : jwt.Token) (signingString : string) :
  jwt.ParseUnverified (handlers.extractToken r) = Some (token, signingString) ->
  jwt.isSigningMethodHMAC (jwt.Method token) = false
  \/ jwt.Signature token
     <> jwt.HMAC (jwt.Method token) signingString (jwtSecret s) ->
  ValidateToken s now (handlers.extractToken r) = Err ErrInvalidToken
  /\ RefreshToken s now (handlers.extractToken r) = Err ErrInvalidToken
  /\ exists message,
       forall next,
         handlers.AuthMiddleware s now next r
         = handlers.sendError message http.StatusUnauthorized.
Proof.
  intros Hparse Hforged.
  assert (exists err, parseToken s now (handlers.extractToken r) = Err err)
    as [err Herr].
  { destruct (parseToken s now (handlers.extractToken r)) as [claims|err]
      eqn:Hp; [|eauto].
    apply parseToken_accepts in Hp
      as (token' & ss' & Hparse' & _ & Hhmac & Hsig & _).
    rewrite Hparse in Hparse'. injection Hparse' as <- <-.
    destruct Hforged; congruence. }
  assert (ValidateToken s now (handlers.extractToken r) = Err ErrInvalidToken)
    as Hvalidate by (unfold ValidateToken; now rewrite Herr).
  repeat split.
  - exact Hvalidate.
  - unfold RefreshToken. now rewrite Herr.
  - destruct (String.eqb (handlers.extractToken r) "") eqn:Hempty;
      eexists; intros next; rewrite AuthMiddleware_token, Hvalidate, Hempty;
      reflexivity.
Qed.

End TokenAcceptance.

(** ** Registration *)

Section Registration.
Context `{jwt.JWT} `{bcrypt.Bcrypt}.
Import database services.

Lemma existsb_false {A : Type} (f : A -> bool) (l : list A) :
  existsb f l = false <-> forall x, In x l -> f x = false.
Proof.
  split.
  - intros Hnone x Hx. destruct (f x) eqn:Hfx; [|reflexivity].
    assert (existsb f l = true) by (apply existsb_exists; eauto). congruence.
  - intros Hall. destruct (existsb f l) eqn:Hsome; [|reflexivity].
    apply existsb_exists in Hsome as (x & Hx & Hfx).
    rewrite (Hall x Hx) in Hfx. discriminate.
Qed.

Lemma find_app_fresh {A : Type} (f : A -> bool) (l : list A) (x : A) :
  (forall y, In y l -> f y = false) -> f x = true ->
  List.find f (l ++ [x]) = Some x.
Proof.
  intros Hnone Hx. induction l as [|y l IH]; cbn.
  - now rewrite Hx.
  - rewrite (Hnone y (or_introl eq_refl)). apply IH.
    intros z Hz. apply Hnone. now right.
Qed.


Lemma Register_result (s : AuthService) (now : Z)
    (salt email password name : string) :
  Register s now salt email password name
  = match bcrypt.GenerateFromPassword password bcrypt.DefaultCost salt with
    | Err err => (Err (wrapError "failed to hash password" err), s)
    | Ok hash =>
        match CreateUser (db s) (registered 0 email hash name) with
        | Err err => (Err (wrapError "failed to create user" err), s)
        | Ok (db', user) =>
            (Ok (authResponse
                   (signedHS256 (jwtSecret s)
                      (claimsFor user now (now + 24 * time.Hour)))
                   (24 * time.Hour) user),
             {| db := db'; jwtSecret := jwtSecret s |})
        end
    end.
Proof.
  unfold Register.
  destruct (bcrypt.GenerateFromPassword _ _ _) as [hash|err]; [|reflexivity].
  fold (registered 0 email hash name).
  destruct (CreateUser _ _) as [[db' user]|err]; [|reflexivity].
  now rewrite generateToken_issues.
Qed.

Lemma CreateUser_registered (db0 db' : DB) (email hash name : string)
    (row : User.t) :
  CreateUser db0 (registered 0 email hash name) = Ok (db', row) ->
  (forall u, In u (users db0) -> User.Email u <> email)
  /\ row = registered (users_id_seq db0 + 1) email hash name
  /\ db' = with_users db0 (users db0 ++ [row]) (users_id_seq db0 + 1).
Proof.
  unfold CreateUser. cbn [registered User.ID User.Email Z.eqb].
  destruct (existsb (fun u => User.ID u =? _) (users db0)); [discriminate|].
  destruct (existsb (fun u => String.eqb (User.Email u) email) (users db0))
    eqn:Htaken; [discriminate|].
  intros [= <- <-]. repeat split.
  intros u Hu Heq.
  apply (proj1 (existsb_false _ _)) with (x := u) in Htaken; [|assumption].
  apply String.eqb_neq in Htaken. contradiction.
Qed.


End Registration.

Section RegisterAndLogin.
Context `{jwt.JWT} `{bcrypt.Bcrypt} `{!BcryptLaws} `{AuthHandler.JSON}.
Import database services http handlers.

(** X6. Registration and login fit together: after a successful
    [Register], [Login] with the same email and password succeeds at any
    time, for the user registered, who is no admin. *)
Theorem register_then_login (s s' : AuthService) (now now' : Z)
    (salt email password name : string) (resp : AuthResponse.t) :
  Register s now salt email password name = (Ok resp, s') ->
  exists resp',
    services.Login s' now' email password = Ok resp'
    /\ AuthResponse.UserID resp' = AuthResponse.UserID resp
    /\ AuthResponse.Email resp' = email
    /\ AuthResponse.Name resp' = name
    /\ AuthResponse.IsAdmin resp' = false.
Proof using Type*.
  rewrite Register_result.
  destruct (bcrypt.GenerateFromPassword _ _ _) as [hash|e] eqn:Hhash;
    [|discriminate].
  destruct (CreateUser _ _) as [[db' user]|e] eqn:Hcreate; [|discriminate].
  apply CreateUser_registered in Hcreate as (Hfresh & -> & ->).
  intros [= <- <-]. rewrite Login_result. unfold GetUserByEmail.
  cbn [db with_users users].
  rewrite find_app_fresh.
  - cbn [registered User.Password].
    rewrite (Compare_Generate _ _ _ _ Hhash). eexists. repeat split.
  - intros u Hu. apply String.eqb_neq. now apply Hfresh.
  - apply String.eqb_refl.
Qed.

(** X7. The registration endpoint.  Whatever it answers other than 201
    Created leaves the store as it was; an empty email, password or name
    is answered with 400 and an email some user has with 409.  A 201
    response carries the result of a successful [Register], and the store
    after it is that registration's. *)
Theorem register_handler_cases (s : AuthService) (now : Z) (salt : string)
    (r : Request) :
  (forall resp s',
     AuthHandler.Register s now salt r = (resp, s') ->
     Status resp <> StatusCreated -> s' = s)
  /\ (forall req,
        AuthHandler.decodeRegisterRequest (Body r) = Some req ->
        (AuthHandler.RegisterRequest.Email req = ""
         \/ AuthHandler.RegisterRequest.Password req = ""
         \/ AuthHandler.RegisterRequest.Name req = "" ->
         AuthHandler.Register s now salt r
         = (sendError "Email, password, and name are required"
              StatusBadRequest, s))
        /\ (AuthHandler.RegisterRequest.Email req <> "" ->
            AuthHandler.RegisterRequest.Password req <> "" ->
            AuthHandler.RegisterRequest.Name req <> "" ->
            (exists u,
               In u (users (db s))
               /\ User.Email u = AuthHandler.RegisterRequest.Email req) ->
            AuthHandler.Register s now salt r
            = (sendError "Email already registered" StatusConflict, s)))
  /\ (forall resp s',
        AuthHandler.Register s now salt r = (resp, s') ->
        Status resp = StatusCreated ->
        exists req authResp,
          AuthHandler.decodeRegisterRequest (Body r) = Some req
          /\ services.Register s now salt
               (AuthHandler.RegisterRequest.Email req)
               (AuthHandler.RegisterRequest.Password req)
               (AuthHandler.RegisterRequest.Name req)
             = (Ok authResp, s')
          /\ Written resp = jsonAuth authResp).
Proof.
  unfold AuthHandler.Register, services.UserExists, database.UserExists.
  split; [|split].
  - intros resp s'.
    destruct (AuthHandler.decodeRegisterRequest _) as [req|];
      [|now intros [= <- <-]].
    destruct (_ || _); [now intros [= <- <-]|].
    destruct (existsb _ _); [now intros [= <- <-]|].
    destruct (services.Register _ _ _ _ _ _) as [[authResp|err] s1] eqn:Hreg;
      intros [= <- <-]; cbn [Status sendError]; [congruence|].
    intros _. rewrite Register_result in Hreg.
    destruct (bcrypt.GenerateFromPassword _ _ _); [|congruence].
    destruct (CreateUser _ _) as [[db' user]|e]; congruence.
  - intros req ->. split.
    + intros Hempty.
      assert ((String.eqb (AuthHandler.RegisterRequest.Email req) ""
               || String.eqb (AuthHandler.RegisterRequest.Password req) ""
               || String.eqb (AuthHandler.RegisterRequest.Name req) "") = true)
        as ->; [|reflexivity].
      destruct Hempty as [Hempty|[Hempty|Hempty]]; rewrite Hempty; cbn;
        rewrite ?orb_true_r; reflexivity.
    + intros Hemail Hpassword Hname (u & Hu & Htaken).
      apply String.eqb_neq in Hemail, Hpassword, Hname.
      rewrite Hemail, Hpassword, Hname. cbn [orb].
      assert (existsb
                (fun u =>
                   String.eqb (User.Email u)
                     (AuthHandler.RegisterRequest.Email req))
                (users (db s)) = true) as ->; [|reflexivity].
      apply existsb_exists. exists u. split; [assumption|].
      now apply String.eqb_eq.
  - intros resp s'.
    destruct (AuthHandler.decodeRegisterRequest _) as [req|];
      [|intros [= <- <-]; discriminate].
    destruct (_ || _); [intros [= <- <-]; discriminate|].
    destruct (existsb _ _); [intros [= <- <-]; discriminate|].
    destruct (services.Register _ _ _ _ _ _) as [[authResp|err] s1] eqn:Hreg;
      intros [= <- <-]; [|discriminate].
    intros _. exists req, authResp. repeat split. exact Hreg.
Qed.

End RegisterAndLogin.

(** ** The refresh endpoint and the bearer header *)

Section RefreshHandler.
Context `{jwt.JWT}.
Import database services http handlers.


End RefreshHandler.

Section BearerHeader.
Import http handlers.

#[local] Arguments String.append !_ _ / : simpl nomatch.

Lemma Split_cons (s : string) (sep : ascii) :
  exists p ps, strings.Split s sep = p :: ps.
Proof.
  induction s as [|c rest (p & ps & IH)]; cbn; [eauto|].
  destruct (Ascii.eqb c sep); [eauto|]. rewrite IH. eauto.
Qed.

Lemma Split_spaceless (s : string) :
  hasSpace s = false -> strings.Split s " " = [s].
Proof.
  induction s as [|c rest IH]; cbn; [reflexivity|].
  destruct (Ascii.eqb c " "); [discriminate|]. cbn. intros Hrest.
  now rewrite (IH Hrest).
Qed.

Lemma Split_space (a b : string) :
  hasSpace a = false ->
  strings.Split (a ++ String " " b) " " = a :: strings.Split b " ".
Proof.
  induction a as [|c rest IH]; cbn; [reflexivity|].
  destruct (Ascii.eqb c " "); [discriminate|]. cbn. intros Hrest.
  now rewrite (IH Hrest).
Qed.

Lemma Split_one (s p : string) :
  strings.Split s " " = [p] -> s = p /\ hasSpace p = false.
Proof.
  revert p. induction s as [|c rest IH]; cbn; intros p.
  - now intros [= <-].
  - destruct (Ascii.eqb c " ") eqn:Hc.
    + destruct (Split_cons rest " ") as (q & qs & ->). discriminate.
    + destruct (strings.Split rest " ") as [|q qs] eqn:Hrest.
      * destruct (Split_cons rest " ") as (q & qs & Hq). congruence.
      * intros [= <- ->]. destruct (IH q eq_refl) as [-> Hq].
        cbn. now rewrite Hc.
Qed.

Lemma Split_two (s p0 p1 : string) :
  strings.Split s " " = [p0; p1] ->
  s = p0 ++ " " ++ p1 /\ hasSpace p0 = false /\ hasSpace p1 = false.
Proof.
  revert p0. induction s as [|c rest IH]; cbn; intros p0; [discriminate|].
  destruct (Ascii.eqb_spec c " ") as [->|Hc].
  - intros [= <- Hrest]. apply Split_one in Hrest as [-> Hp1]. now cbn.
  - destruct (strings.Split rest " ") as [|q qs] eqn:Hrest; [discriminate|].
    intros [= <- ->]. destruct (IH q eq_refl) as (-> & Hq & Hp1).
    cbn. apply Ascii.eqb_neq in Hc. now rewrite Hc.
Qed.

(** X9. The token of a request is read from a header of exactly the form
    [Bearer <token>]: such a header with a token free of spaces yields the
    token, and whenever a non-empty token is extracted the header is
    [Bearer ], then that token, which has no space in it. *)
Theorem extract_token_exact (r : Request) (token : string) :
  (hasSpace token = false ->
   authorization r = "Bearer " ++ token ->
   extractToken r = token)
  /\ (extractToken r = token -> token <> "" ->
      authorization r = "Bearer " ++ token /\ hasSpace token = false).
Proof.
  rewrite extractToken_cases. unfold bearerParts. split.
  - intros Hspace ->.
    change ("Bearer " ++ token) with ("Bearer" ++ String " " token).
    rewrite Split_space by reflexivity. now rewrite Split_spaceless.
  - destruct (String.eqb (authorization r) ""); [congruence|].
    destruct (strings.Split (authorization r) " ") as [|p0 [|p1 [|p2 ps]]]
      eqn:Hsplit; cbn; try congruence.
    destruct (String.eqb_spec p0 "Bearer") as [->|_]; cbn; [|congruence].
    intros -> _. apply Split_two in Hsplit as (-> & _ & Hspace). now split.
Qed.

End BearerHeader.

(** ** The route groups *)

Section RouteGroups.
Context `{jwt.JWT} `{!jwt.JWTLaws} `{UserHandler.JSON}.
Import database services http handlers.

Lemma UserIDFromContext_ContextWithUserID (ctx : context.Context)
    (userID : Z) :
  UserIDFromContext (ContextWithUserID ctx userID) = userID.
Proof. reflexivity. Qed.

Lemma admin_route_token (s : AuthService) (now : Z) (h : Handler)
    (r : Request) (userID : Z) :
  extractToken r <> "" ->
  ValidateToken s now (extractToken r) = Ok userID ->
  routes.admin s now h r
  = if userID =? 0 then sendError "Unauthorized" StatusUnauthorized
    else
      match GetUser (db s) userID with
      | Err _ => sendError "Internal server error" StatusInternalServerError
      | Ok user =>
          if User.IsAdmin user then
            h (WithContext r (ContextWithUserID (Ctx r) userID))
          else sendError "Admin access required" StatusForbidden
      end.
Proof.
  intros Htoken Hvalid. unfold routes.admin.
  rewrite AuthMiddleware_token, Hvalid.
  apply String.eqb_neq in Htoken. rewrite Htoken.
  unfold AdminMiddleware, IsAdmin. cbn [Ctx WithContext].
  rewrite UserIDFromContext_ContextWithUserID.
  destruct (userID =? 0); [reflexivity|].
  destruct (GetUser (db s) userID) as [user|]; [|reflexivity].
  now destruct (User.IsAdmin user).
Qed.

(** X10. The gate of the admin routes.  The handler of an admin route
    runs only for a request whose bearer token the service accepts for a
    user id other than 0 whose row in the store, read at the time of the
    request, has the admin flag; it then sees the request with that id in
    its context.  Every other request is answered with 401, 403 or 500,
    the same whatever the handler is. *)
Theorem admin_route_gate (s : AuthService) (now : Z) (r : Request) :
  (exists userID user,
     extractToken r <> ""
     /\ ValidateToken s now (extractToken r) = Ok userID
     /\ userID <> 0
     /\ GetUser (db s) userID = Ok user
     /\ User.IsAdmin user = true
     /\ forall h,
          routes.admin s now h r
          = h (WithContext r (ContextWithUserID (Ctx r) userID)))
  \/ (exists resp,
        (forall h, routes.admin s now h r = resp)
        /\ (Status resp = StatusUnauthorized
            \/ Status resp = StatusForbidden
            \/ Status resp = StatusInternalServerError)).
Proof.
  destruct (String.eqb_spec (extractToken r) "") as [Hnone|Htoken].
  { right.
    exists (sendError "Missing authorization header" StatusUnauthorized).
    split; [|now left].
    intros h. unfold routes.admin. now rewrite AuthMiddleware_token, Hnone. }
  destruct (ValidateToken s now (extractToken r)) as [userID|err] eqn:Hvalid.
  2:{ right.
      exists (sendError "Invalid or expired token" StatusUnauthorized).
      split; [|now left].
      intros h. unfold routes.admin. rewrite AuthMiddleware_token, Hvalid.
      apply String.eqb_neq in Htoken. now rewrite Htoken. }
  destruct (Z.eqb_spec userID 0) as [Hzero|Hid].
  { right. exists (sendError "Unauthorized" StatusUnauthorized).
    split; [|now left].
    intros h. rewrite (admin_route_token s now h r userID Htoken Hvalid).
    apply Z.eqb_eq in Hzero. now rewrite Hzero. }
  apply Z.eqb_neq in Hid.
  destruct (GetUser (db s) userID) as [user|err] eqn:Huser.
  2:{ right.
      exists (sendError "Internal server error" StatusInternalServerError).
      split; [|now right; right].
      intros h. rewrite (admin_route_token s now h r userID Htoken Hvalid).
      now rewrite Hid, Huser. }
  destruct (User.IsAdmin user) eqn:Hadmin.
  - left. exists userID, user. apply Z.eqb_neq in Hid as Hid'.
    repeat split; try assumption.
    intros h. rewrite (admin_route_token s now h r userID Htoken Hvalid).
    now rewrite Hid, Huser, Hadmin.
  - right. exists (sendError "Admin access required" StatusForbidden).
    split; [|now right; left].
    intros h. rewrite (admin_route_token s now h r userID Htoken Hvalid).
    now rewrite Hid, Huser, Hadmin.
Qed.

(** X11. The admin flag is read from the store, never from the token:
    for a request whose token the service accepts, with whatever
    [is_admin] claim, for a user id other than 0 that has a row, the
    handler of an admin route runs when that row has the flag, and the
    answer is 403 when it has not. *)
Theorem admin_flag_read_from_store (s : AuthService) (now : Z) (h : Handler)
    (r : Request) (claims : jwt.Claims) (user : User.t) :
  wellSigned (jwtSecret s) now (extractToken r) claims ->
  jwt.UserID claims <> 0 ->
  GetUser (db s) (jwt.UserID claims) = Ok user ->
  routes.admin s now h r
  = if User.IsAdmin user then
      h (WithContext r (ContextWithUserID (Ctx r) (jwt.UserID claims)))
    else sendError "Admin access required" StatusForbidden.
Proof using Type*.
  intros Hsigned Hid Huser.
  assert (extractToken r <> "") as Htoken.
  { destruct Hsigned as (token & ss & Hparse & _). intros Hempty.
    rewrite Hempty, jwt.ParseUnverified_empty in Hparse. discriminate. }
  assert (ValidateToken s now (extractToken r) = Ok (jwt.UserID claims))
    as Hvalid.
  { unfold ValidateToken. now rewrite (parseToken_wellSigned _ _ _ _ Hsigned). }
  rewrite (admin_route_token s now h r _ Htoken Hvalid).
  apply Z.eqb_neq in Hid. now rewrite Hid, Huser.
Qed.

Lemma Value_string_ContextWithUserID (ctx : context.Context) (userID : Z)
    (name : string) :
  context.Value (ContextWithUserID ctx userID) (context.stringKey name)
  = context.Value ctx (context.stringKey name).
Proof. reflexivity. Qed.

(** X12. The profile routes answer 401 to every request.  The auth
    middleware stores the user id under a key of type
    [services.contextKey]; the profile handlers look it up under the plain
    string ["user_id"], which no such key equals.  So behind the
    middleware, for a request whose context holds nothing under the plain
    string, [GetProfile] answers 401 whether the token is good or not, and
    [UpdateProfile], given the context the middleware builds, answers 401
    and leaves the store as it was. *)
Theorem profile_routes_unauthorized (s : AuthService) (now : Z) (db0 : DB)
    (r : Request) :
  noStringUserID (Ctx r) ->
  (exists message,
     routes.protected s now (UserHandler.GetProfile db0) r
     = sendError message StatusUnauthorized)
  /\ (forall userID,
        UserHandler.GetProfile db0
          (WithContext r (ContextWithUserID (Ctx r) userID))
        = sendError "Unauthorized" StatusUnauthorized)
  /\ (forall userID,
        UserHandler.UpdateProfile db0
          (WithContext r (ContextWithUserID (Ctx r) userID))
        = (sendError "Unauthorized" StatusUnauthorized, db0)).
Proof.
  intros Hnone.
  assert (forall userID,
            UserHandler.GetProfile db0
              (WithContext r (ContextWithUserID (Ctx r) userID))
            = sendError "Unauthorized" StatusUnauthorized) as Hget.
  { intros userID. unfold UserHandler.GetProfile. cbn [Ctx WithContext].
    rewrite Value_string_ContextWithUserID.
    destruct (context.Value (Ctx r) (context.stringKey "user_id"))
      as [[n|text]|] eqn:Hvalue; try reflexivity.
    destruct (Hnone n Hvalue). }
  repeat split.
  - unfold routes.protected. rewrite AuthMiddleware_token.
    destruct (String.eqb (extractToken r) ""); [eauto|].
    destruct (ValidateToken s now (extractToken r)) as [userID|err]; [|eauto].
    rewrite Hget. eauto.
  - exact Hget.
  - intros userID. unfold UserHandler.UpdateProfile. cbn [Ctx WithContext].
    rewrite Value_string_ContextWithUserID.
    destruct (context.Value (Ctx r) (context.stringKey "user_id"))
      as [[n|text]|] eqn:Hvalue; try reflexivity.
    destruct (Hnone n Hvalue).
Qed.

End RouteGroups.

(** ** The users *)

Section Users.
Context `{jwt.JWT} `{bcrypt.Bcrypt}.
Import database.

Lemma UserDB_GetUser_found (db : DB) (id : Z) (user : User.t) :
  UserDB.GetUser db id = Ok user -> In user (users db) /\ User.ID user = id.
Proof.
  unfold UserDB.GetUser.
  destruct (List.find _ _) as [u|] eqn:Hfind; [|discriminate].
  intros [= <-]. apply find_some in Hfind as [Hin Hid].
  split; [assumption|now apply Z.eqb_eq].
Qed.

Lemma updateRow_setName (user : User.t) (name : string) :
  name <> "" ->
  UserDB.updateRow (UserService.setName user name) user
  = UserService.setName user name.
Proof.
  intros Hname. apply String.eqb_neq in Hname.
  destruct user as [id email password name0 isAdmin created updated].
  unfold UserDB.updateRow, UserService.setName. cbn. rewrite Hname.
  f_equal.
  - now destruct (String.eqb email "").
  - now destruct (String.eqb password "").
  - now destruct isAdmin.
  - now destruct (created =? 0).
  - now destruct (updated =? 0).
Qed.

Lemma UpdateUser_result (db : DB) (id : Z) (name : string) (user : User.t) :
  name <> "" -> usersConsistent db ->
  UserDB.GetUser db id = Ok user ->
  UserService.UpdateUser db id name
  = (Ok (UserService.setName user name),
     with_users db
       (List.map
          (fun row =>
             if User.ID row =? id then UserService.setName row name else row)
          (users db))
       (users_id_seq db)).
Proof.
  intros Hname [Hkeys Hemails] Huser. unfold UserService.UpdateUser.
  rewrite Huser. apply UserDB_GetUser_found in Huser as [Hin Hid].
  unfold UserDB.UpdateUser.
  assert (UserDB.emptySet (UserService.setName user name) = false) as ->.
  { unfold UserDB.emptySet. cbn. apply String.eqb_neq in Hname.
    rewrite Hname. now rewrite !andb_false_r. }
  assert (existsb
            (fun u =>
               String.eqb (User.Email u)
                 (User.Email (UserService.setName user name))
               && negb (User.ID u =? User.ID (UserService.setName user name)))
            (users db) = false) as ->.
  { apply existsb_false. intros u Hu. cbn.
    destruct (String.eqb_spec (User.Email u) (User.Email user)) as [Heq|];
      [|reflexivity].
    rewrite (Hemails u user Hu Hin Heq), Z.eqb_refl. reflexivity. }
  rewrite andb_false_r. f_equal. f_equal. apply map_ext_in.
  intros row Hrow. cbn [UserService.setName User.ID]. rewrite Hid.
  destruct (Z.eqb_spec (User.ID row) id) as [Hrowid|]; [|reflexivity].
  assert (row = user) as -> by (apply Hkeys; congruence).
  now apply updateRow_setName.
Qed.

(** X13. A profile update changes a name and nothing else.  On a users
    table that meets its constraints, [UserService.UpdateUser] with a
    non-empty name fails for an id that has no row and leaves the store
    as it was; for an id that has one it returns that user under the new
    name, and in the store after it every row keeps its key, email,
    password, admin flag and dates, the rows of other users keep their
    name as well, and the tables other than the users are untouched. *)
Theorem update_user_changes_only_name (db : DB) (id : Z) (name : string) :
  name <> "" -> usersConsistent db ->
  (forall err,
     UserDB.GetUser db id = Err err ->
     UserService.UpdateUser db id name
     = (Err (wrapError "failed to get user" err), db))
  /\ (forall user,
        UserDB.GetUser db id = Ok user ->
        exists db',
          UserService.UpdateUser db id name
          = (Ok (UserService.setName user name), db')
          /\ users db'
             = List.map
                 (fun row =>
                    if User.ID row =? id then UserService.setName row name
                    else row)
                 (users db)
          /\ UserDB.GetUser db' id = Ok (UserService.setName user name)
          /\ movies db' = movies db
          /\ movie_categories db' = movie_categories db
          /\ user_favorites db' = user_favorites db).
Proof.
  intros Hname Hconsistent. split.
  - intros err Herr. unfold UserService.UpdateUser. now rewrite Herr.
  - intros user Huser. eexists. split; [now apply UpdateUser_result|].
    repeat split. unfold UserDB.GetUser in *. cbn [with_users users].
    induction (users db) as [|row rows IH]; cbn in *; [discriminate|].
    destruct (Z.eqb_spec (User.ID row) id) as [Hid|Hid].
    + injection Huser as <-. cbn. apply Z.eqb_eq in Hid. now rewrite Hid.
    + apply Z.eqb_neq in Hid. rewrite Hid. now apply IH.
Qed.

(** X14. The constraints of the users table outlive the writes: a store
    whose users have distinct keys and distinct emails, and whose
    sequence is ahead of the keys, is such a store again after [Register]
    and after [UserService.UpdateUser] with a non-empty name. *)
Theorem users_stay_consistent (s : services.AuthService) (now : Z)
    (salt email password name : string) (id : Z) (newName : string) :
  usersConsistent (services.db s) -> userKeysBelowSeq (services.db s) ->
  newName <> "" ->
  (usersConsistent
     (services.db (snd (services.Register s now salt email password name)))
   /\ userKeysBelowSeq
        (services.db (snd (services.Register s now salt email password name))))
  /\ (usersConsistent (snd (UserService.UpdateUser (services.db s) id newName))
      /\ userKeysBelowSeq
           (snd (UserService.UpdateUser (services.db s) id newName))).
Proof.
  intros Hconsistent Hbelow HnewName. split.
  - rewrite Register_result.
    destruct (bcrypt.GenerateFromPassword _ _ _) as [hash|e];
      [|now split].
    destruct (CreateUser _ _) as [[db' user]|e] eqn:Hcreate; [|now split].
    apply CreateUser_registered in Hcreate as (Hfresh & -> & ->).
    cbn [snd services.db]. destruct Hconsistent as [Hkeys Hemails].
    split; [split|].
    + intros a b Ha Hb Hab. cbn [with_users users] in Ha, Hb.
      apply in_app_or in Ha, Hb.
      destruct Ha as [Ha|[<-|[]]], Hb as [Hb|[<-|[]]].
      * now apply Hkeys.
      * specialize (Hbelow a Ha). cbn in Hab. lia.
      * specialize (Hbelow b Hb). cbn in Hab. lia.
      * reflexivity.
    + intros a b Ha Hb Hab. cbn [with_users users] in Ha, Hb.
      apply in_app_or in Ha, Hb.
      destruct Ha as [Ha|[<-|[]]], Hb as [Hb|[<-|[]]].
      * now apply Hemails.
      * destruct (Hfresh a Ha). exact Hab.
      * destruct (Hfresh b Hb). symmetry. exact Hab.
      * reflexivity.
    + intros u Hu. cbn [with_users users users_id_seq] in *.
      apply in_app_or in Hu as [Hu|[<-|[]]].
      * specialize (Hbelow u Hu). lia.
      * cbn. lia.
  - destruct (UserDB.GetUser (services.db s) id) as [user|err] eqn:Huser.
    2:{ unfold UserService.UpdateUser. rewrite Huser. now split. }
    rewrite (UpdateUser_result _ _ _ _ HnewName Hconsistent Huser).
    cbn [snd]. destruct Hconsistent as [Hkeys Hemails]. split; [split|].
    + intros a' b' Ha Hb Hab. cbn [with_users users] in Ha, Hb.
      apply in_map_iff in Ha as (a & <- & Ha), Hb as (b & <- & Hb).
      assert (User.ID a = User.ID b) as Hid.
      { destruct (User.ID a =? id), (User.ID b =? id); exact Hab. }
      now rewrite (Hkeys a b Ha Hb Hid).
    + intros a' b' Ha Hb Hab. cbn [with_users users] in Ha, Hb.
      apply in_map_iff in Ha as (a & <- & Ha), Hb as (b & <- & Hb).
      assert (User.Email a = User.Email b) as Hemail.
      { destruct (User.ID a =? id), (User.ID b =? id); exact Hab. }
      specialize (Hemails a b Ha Hb Hemail).
      destruct (User.ID a =? id), (User.ID b =? id); exact Hemails.
    + intros u' Hu. cbn [with_users users users_id_seq] in *.
      apply in_map_iff in Hu as (u & <- & Hu). specialize (Hbelow u Hu).
      now destruct (User.ID u =? id).
Qed.

End Users.

(** ** Writing movies *)

Section MovieWrites.
Context `{MovieHandler.JSON}.
Import database services http handlers.

Lemma GetMovie_found (db : DB) (id : Z) (movie : Movie.t) :
  GetMovie db id = Ok movie -> In movie (movies db) /\ Movie.ID movie = id.
Proof.
  unfold GetMovie.
  destruct (List.find _ _) as [m|] eqn:Hfind; [|discriminate].
  intros [= <-]. apply find_some in Hfind as [Hin Hid].
  split; [assumption|now apply Z.eqb_eq].
Qed.

Lemma GetMovie_missing (db : DB) (id : Z) :
  (forall m, In m (movies db) -> Movie.ID m <> id) ->
  GetMovie db id = Err (errorString "sql: no rows in result set").
Proof.
  intros Hnone. unfold GetMovie.
  destruct (List.find _ _) as [m|] eqn:Hfind; [|reflexivity].
  apply find_some in Hfind as [Hin Hid]. apply Z.eqb_eq in Hid.
  destruct (Hnone m Hin Hid).
Qed.

Lemma filter_all {A : Type} (f : A -> bool) (l : list A) :
  (forall x, In x l -> f x = true) -> List.filter f l = l.
Proof.
  intros Hall. induction l as [|x l IH]; cbn; [reflexivity|].
  rewrite (Hall x (or_introl eq_refl)). f_equal. apply IH.
  intros y Hy. apply Hall. now right.
Qed.

Lemma find_filter_other (id id' : Z) (l : list Movie.t) :
  id' <> id ->
  List.find (fun m => Movie.ID m =? id')
    (List.filter (fun m => negb (Movie.ID m =? id)) l)
  = List.find (fun m => Movie.ID m =? id') l.
Proof.
  intros Hother. induction l as [|m l IH]; cbn; [reflexivity|].
  destruct (Z.eqb_spec (Movie.ID m) id) as [Hid|Hid]; cbn.
  - assert ((Movie.ID m =? id') = false) as ->
      by (apply Z.eqb_neq; congruence).
    exact IH.
  - now rewrite IH.
Qed.

(** X15. Deleting a movie takes its row and every row that refers to
    it, and nothing else.  After [DeleteMovie db id], which never reports
    an error, no movie has the key [id]; the category links and the
    favorites of the store are those of before whose movie is not [id];
    every other movie is found as before, and the users are untouched.
    The handler answers 204 for every numeric id, whether a movie has it
    or not, and 400 without touching the store for any other. *)
Theorem delete_movie_cascades (db : DB) (id : Z) :
  fst (DeleteMovie db id) = None
  /\ GetMovie (snd (DeleteMovie db id)) id
     = Err (errorString "sql: no rows in result set")
  /\ (forall id', id' <> id ->
        GetMovie (snd (DeleteMovie db id)) id' = GetMovie db id')
  /\ (forall mc,
        In mc (movie_categories (snd (DeleteMovie db id)))
        <-> In mc (movie_categories db) /\ MovieCategory.MovieID mc <> id)
  /\ (forall uf,
        In uf (user_favorites (snd (DeleteMovie db id)))
        <-> In uf (user_favorites db) /\ UserFavorite.MovieID uf <> id)
  /\ users (snd (DeleteMovie db id)) = users db
  /\ (forall idParam,
        ParseInt idParam = Some id ->
        MovieHandler.DeleteMovie db idParam
        = (MovieHandler.noContent, snd (DeleteMovie db id)))
  /\ (forall idParam,
        ParseInt idParam = None ->
        MovieHandler.DeleteMovie db idParam
        = (httpError "Invalid movie ID" StatusBadRequest, db)).
Proof.
  cbn [DeleteMovie fst snd movies movie_categories user_favorites users].
  repeat match goal with |- _ /\ _ => split end.
  - reflexivity.
  - apply GetMovie_missing. cbn [movies]. intros m Hm.
    apply filter_In in Hm as [_ Hm]. apply negb_true_iff in Hm.
    now apply Z.eqb_neq.
  - intros id' Hother. unfold GetMovie. cbn [movies].
    now rewrite find_filter_other.
  - intros mc. rewrite filter_In, negb_true_iff, Z.eqb_neq. reflexivity.
  - intros uf. rewrite filter_In, negb_true_iff, Z.eqb_neq. reflexivity.
  - reflexivity.
  - intros idParam Hparse. unfold MovieHandler.DeleteMovie.
    now rewrite Hparse.
  - intros idParam Hparse. unfold MovieHandler.DeleteMovie.
    now rewrite Hparse.
Qed.





Lemma find_map_update (movie : Movie.t) (id id' : Z) (l : list Movie.t) :
  List.find (fun m => Movie.ID m =? id')
    (List.map
       (fun row => if Movie.ID row =? id then updateRow movie row else row) l)
  = option_map
      (fun row => if Movie.ID row =? id then updateRow movie row else row)
      (List.find (fun m => Movie.ID m =? id') l).
Proof.
  induction l as [|row l IH]; cbn; [reflexivity|].
  assert (Movie.ID (if Movie.ID row =? id then updateRow movie row else row)
          = Movie.ID row) as -> by now destruct (Movie.ID row =? id).
  destruct (Movie.ID row =? id'); [reflexivity|exact IH].
Qed.

Lemma updateRow_applyRequest (req : MovieHandler.UpdateMovieRequest.t)
    (row : Movie.t) :
  MovieHandler.UpdateMovieRequest.Categories req <> Some [] ->
  updateRow (MovieHandler.applyRequest req row) row
  = {| Movie.ID := Movie.ID row;
       Movie.Title :=
         kept isEmpty (MovieHandler.UpdateMovieRequest.Title req)
           (Movie.Title row);
       Movie.Description :=
         kept isEmpty (MovieHandler.UpdateMovieRequest.Description req)
           (Movie.Description row);
       Movie.ReleaseYear :=
         kept isZero (MovieHandler.UpdateMovieRequest.ReleaseYear req)
           (Movie.ReleaseYear row);
       Movie.Duration :=
         kept isZero (MovieHandler.UpdateMovieRequest.Duration req)
           (Movie.Duration row);
       Movie.PosterURL :=
         kept isEmpty (MovieHandler.UpdateMovieRequest.PosterURL req)
           (Movie.PosterURL row);
       Movie.VideoURL :=
         kept isEmpty (MovieHandler.UpdateMovieRequest.VideoURL req)
           (Movie.VideoURL row);
       Movie.Categories :=
         default (Movie.Categories row)
           (MovieHandler.UpdateMovieRequest.Categories req);
       Movie.Rating := Movie.Rating row;
       Movie.CreatedAt := Movie.CreatedAt row;
       Movie.UpdatedAt := Movie.UpdatedAt row |}.
Proof.
  destruct req as [title description year duration poster video categories].
  unfold updateRow, MovieHandler.applyRequest, kept, isEmpty, isZero.
  cbn. intros Hcategories. f_equal.
  - destruct title as [v|]; cbn; [reflexivity|].
    now destruct (String.eqb (Movie.Title row) "").
  - destruct description as [v|]; cbn; [reflexivity|].
    now destruct (String.eqb (Movie.Description row) "").
  - destruct year as [v|]; cbn; [reflexivity|].
    now destruct (Movie.ReleaseYear row =? 0).
  - destruct duration as [v|]; cbn; [reflexivity|].
    now destruct (Movie.Duration row =? 0).
  - destruct poster as [v|]; cbn; [reflexivity|].
    now destruct (String.eqb (Movie.PosterURL row) "").
  - destruct video as [v|]; cbn; [reflexivity|].
    now destruct (String.eqb (Movie.VideoURL row) "").
  - destruct categories as [[|c cs]|]; cbn; [congruence|reflexivity|].
    now destruct (Movie.Categories row).
  - now destruct (PrimFloat.eqb (Movie.Rating row) 0).
  - now destruct (Movie.CreatedAt row =? 0).
  - now destruct (Movie.UpdatedAt row =? 0).
Qed.

(** X17. What an update request stores, and what it answers.  Take a
    movie that is in the store and a request that does not give an empty
    list of categories.  [UpdateMovie] answers 500 and changes nothing
    when another movie has the title the request asks for.  Otherwise it
    answers 200, and in the store after it the movie has, column by
    column, the value the request gives, or the value it had when the
    request leaves the field out or gives an empty string or a 0; key,
    rating and dates stay.  The body of the response is the movie with
    every field the request gives, empty strings and zeros included, so
    it can differ from the row stored.  Every other movie is found as
    before. *)
Theorem update_movie_partial (db : DB) (idParam : string) (r : Request)
    (id : Z) (req : MovieHandler.UpdateMovieRequest.t) (row : Movie.t) :
  ParseInt idParam = Some id ->
  MovieHandler.decodeUpdateMovieRequest (Body r) = Some req ->
  GetMovie db id = Ok row ->
  MovieHandler.UpdateMovieRequest.Categories req <> Some [] ->
  ((exists m,
      In m (movies db)
      /\ Movie.Title m = Movie.Title (MovieHandler.applyRequest req row)
      /\ Movie.ID m <> id) ->
   MovieHandler.UpdateMovie db idParam r
   = (httpError "movie title already taken" StatusInternalServerError, db))
  /\ ((forall m,
         In m (movies db) ->
         Movie.Title m = Movie.Title (MovieHandler.applyRequest req row) ->
         Movie.ID m = id) ->
      exists db',
        MovieHandler.UpdateMovie db idParam r
        = (MovieHandler.jsonOK
             (MovieHandler.encodeMovie
                (movieResponse (MovieHandler.applyRequest req row))),
           db')
        /\ GetMovie db' id
           = Ok {| Movie.ID := id;
                   Movie.Title :=
                     kept isEmpty (MovieHandler.UpdateMovieRequest.Title req)
                       (Movie.Title row);
                   Movie.Description :=
                     kept isEmpty
                       (MovieHandler.UpdateMovieRequest.Description req)
                       (Movie.Description row);
                   Movie.ReleaseYear :=
                     kept isZero
                       (MovieHandler.UpdateMovieRequest.ReleaseYear req)
                       (Movie.ReleaseYear row);
                   Movie.Duration :=
                     kept isZero (MovieHandler.UpdateMovieRequest.Duration req)
                       (Movie.Duration row);
                   Movie.PosterURL :=
                     kept isEmpty
                       (MovieHandler.UpdateMovieRequest.PosterURL req)
                       (Movie.PosterURL row);
                   Movie.VideoURL :=
                     kept isEmpty
                       (MovieHandler.UpdateMovieRequest.VideoURL req)
                       (Movie.VideoURL row);
                   Movie.Categories :=
                     default (Movie.Categories row)
                       (MovieHandler.UpdateMovieRequest.Categories req);
                   Movie.Rating := Movie.Rating row;
                   Movie.CreatedAt := Movie.CreatedAt row;
                   Movie.UpdatedAt := Movie.UpdatedAt row |}
        /\ (forall id', id' <> id -> GetMovie db' id' = GetMovie db id')
        /\ length (movies db') = length (movies db)).
Proof.
  intros Hparse Hdecode Hrow Hcategories. unfold MovieHandler.UpdateMovie.
  rewrite Hparse, Hdecode, Hrow. cbv zeta.
  pose proof (GetMovie_found _ _ _ Hrow) as [Hin Hid].
  unfold UpdateMovie.
  change (Movie.ID (MovieHandler.applyRequest req row)) with (Movie.ID row).
  rewrite Hid. split.
  - intros (m & Hm & Htitle & Hother).
    assert (existsb
              (fun m0 =>
                 String.eqb (Movie.Title m0)
                   (Movie.Title (MovieHandler.applyRequest req row))
                 && negb (Movie.ID m0 =? id))
              (movies db) = true) as ->; [|reflexivity].
    apply existsb_exists. exists m. split; [assumption|].
    apply andb_true_iff. split; [now apply String.eqb_eq|].
    apply negb_true_iff. now apply Z.eqb_neq.
  - intros Hfree.
    assert (existsb
              (fun m0 =>
                 String.eqb (Movie.Title m0)
                   (Movie.Title (MovieHandler.applyRequest req row))
                 && negb (Movie.ID m0 =? id))
              (movies db) = false) as ->.
    { apply existsb_false. intros m Hm.
      destruct (String.eqb_spec (Movie.Title m)
                  (Movie.Title (MovieHandler.applyRequest req row)))
        as [Htitle|]; [|reflexivity].
      rewrite (Hfree m Hm Htitle), Z.eqb_refl. reflexivity. }
    eexists. split; [reflexivity|].
    unfold GetMovie. cbn [with_movies movies].
    repeat match goal with |- _ /\ _ => split end.
    + rewrite find_map_update. unfold GetMovie in Hrow.
      destruct (List.find _ (movies db)) as [m|]; [|discriminate].
      injection Hrow as ->. cbn [option_map]. rewrite Hid, Z.eqb_refl.
      now rewrite updateRow_applyRequest, Hid.
    + intros id' Hother. rewrite find_map_update.
      destruct (List.find (fun m => Movie.ID m =? id') (movies db))
        as [m|] eqn:Hfind; [|reflexivity].
      apply find_some in Hfind as [_ Hm]. apply Z.eqb_eq in Hm.
      cbn [option_map].
      assert ((Movie.ID m =? id) = false) as ->
          by (apply Z.eqb_neq; congruence).
      reflexivity.
    + apply length_map.
Qed.


End MovieWrites.

(** ** What a listing returns *)

Section ListingResults.
Context `{postgres.Postgres} `{MovieHandler.JSON}.
Import database services http handlers.

Lemma In_take {A : Type} (n : nat) (l : list A) (x : A) :
  In x (take n l) -> In x l.
Proof.
  intros Hx. rewrite <- (take_drop n l). apply in_or_app. now left.
Qed.

Lemma In_drop {A : Type} (n : nat) (l : list A) (x : A) :
  In x (drop n l) -> In x l.
Proof.
  intros Hx. rewrite <- (take_drop n l). apply in_or_app. now right.
Qed.

Lemma In_Order (sortBy : string) (rows : list Movie.t) (m : Movie.t) :
  In m (Order sortBy rows) <-> In m rows.
Proof.
  unfold Order. split; apply Permutation_in;
    [|symmetry]; apply merge_sort_Permutation.
Qed.

Lemma In_fromRows (db : DB) (f : MovieFilter.t) (m : Movie.t) :
  In m (fromRows db f) -> In m (movies db).
Proof.
  unfold fromRows. destruct (MovieFilter.CategoryID f) as [c|]; [|trivial].
  intros Hm. apply in_flat_map in Hm as (movie & Hmovie & Hm).
  apply in_map_iff in Hm as (mc & <- & _). exact Hmovie.
Qed.

Lemma LimitOffset_window {A : Type} (limit offset : Z) (rows page : list A) :
  postgres.LimitOffset limit offset rows = Ok page ->
  0 <= limit /\ 0 <= offset
  /\ page = take (Z.to_nat limit) (drop (Z.to_nat offset) rows).
Proof.
  unfold postgres.LimitOffset.
  destruct (Z.ltb_spec offset 0); [discriminate|].
  destruct (Z.ltb_spec limit 0); [discriminate|].
  intros [= <-]. repeat split; assumption.
Qed.

Lemma GetMovies_movies (db : DB) (f : MovieFilter.t) (page : list Movie.t)
    (total : Z) (err : option error) :
  services.GetMovies db f = (page, total, err) ->
  page = []
  \/ exists offset,
       page
       = take (Z.to_nat (effectivePageSize f))
           (drop offset (Order (MovieFilter.SortBy f) (filtered db f))).
Proof.
  rewrite GetMovies_query.
  destruct (postgres.LimitOffset _ _ _) as [rows|e] eqn:Hwindow.
  - apply LimitOffset_window in Hwindow as (_ & _ & ->).
    intros [= <- _ _]. right. eauto.
  - intros [= <- _ _]. now left.
Qed.

(** X18. A listing returns movies of the store that match the filter,
    and no more of them than the page size: every movie in the result of
    [GetMovies] is a row of the movies table that meets the search, the
    categories and the year asked for, and the result is no longer than
    the page size the query runs with. *)
Theorem listing_returns_matches (db : DB) (f : MovieFilter.t)
    (page : list Movie.t) (total : Z) (err : option error) :
  services.GetMovies db f = (page, total, err) ->
  (forall m, In m page -> In m (movies db) /\ whereClauses f m = true)
  /\ Z.of_nat (length page) <= effectivePageSize f.
Proof.
  intros Hpage. pose proof (effectivePageSize_positive f) as Hsize.
  apply GetMovies_movies in Hpage as [->|[offset ->]].
  - split; [intros m []|cbn; lia].
  - split.
    + intros m Hm. apply In_take, In_drop, In_Order in Hm.
      apply filter_In in Hm as [Hm Hwhere].
      split; [now apply In_fromRows in Hm|exact Hwhere].
    + rewrite length_take. lia.
Qed.

Lemma StronglySorted_weaken {A : Type} (R R' : relation A) (l : list A) :
  (forall a b, R a b -> R' a b) -> StronglySorted R l -> StronglySorted R' l.
Proof.
  intros Himpl. induction 1 as [|x l Hsorted IH Hall]; constructor.
  - exact IH.
  - eapply Forall_impl; [exact Hall|]. intros b. apply Himpl.
Qed.

Lemma StronglySorted_window {A : Type} (R : relation A) (n k : nat)
    (l : list A) :
  StronglySorted R l -> StronglySorted R (take n (drop k l)).
Proof.
  intros Hsorted. rewrite <- (take_drop k l) in Hsorted.
  apply StronglySorted_app_1_r in Hsorted.
  rewrite <- (take_drop n (drop k l)) in Hsorted.
  now apply StronglySorted_app_1_l in Hsorted.
Qed.

Lemma Order_sorted (sortBy : string) (R : relation Movie.t)
    (rows : list Movie.t) :
  Transitive R -> stdpp.base.Total R ->
  (forall a b, orderOf sortBy a b = true <-> R a b) ->
  StronglySorted R (Order sortBy rows).
Proof.
  intros Htrans Htotal Hiff. unfold Order.
  apply StronglySorted_weaken
    with (R := fun a b => orderOf sortBy a b = true).
  - intros a b. apply Hiff.
  - apply StronglySorted_merge_sort.
    + intros a b c Hab Hbc. apply Hiff. apply Hiff in Hab, Hbc.
      now apply (Htrans a b c).
    + intros a b. destruct (Htotal a b) as [Hab|Hba]; [left|right];
        now apply Hiff.
Qed.

Lemma orderOf_default (sortBy : string) (a b : Movie.t) :
  ~ In sortBy sortKeys ->
  orderOf sortBy a b = (Movie.CreatedAt b <=? Movie.CreatedAt a).
Proof.
  intros Hkey. unfold orderOf.
  repeat match goal with
         | |- context [String.eqb sortBy ?k] =>
             destruct (String.eqb_spec sortBy k) as [->|_];
             [destruct Hkey; cbn; tauto|]
         end.
  reflexivity.
Qed.

Lemma Order_ascending (sortBy : string) (key : Movie.t -> Z)
    (rows : list Movie.t) :
  (forall a b, orderOf sortBy a b = (key a <=? key b)) ->
  ascending key (Order sortBy rows).
Proof.
  intros Horder. apply Order_sorted.
  - intros a b c. lia.
  - intros a b. lia.
  - intros a b. rewrite Horder. apply Z.leb_le.
Qed.

Lemma Order_descending (sortBy : string) (key : Movie.t -> Z)
    (rows : list Movie.t) :
  (forall a b, orderOf sortBy a b = (key b <=? key a)) ->
  descending key (Order sortBy rows).
Proof.
  intros Horder. apply Order_sorted.
  - intros a b c. lia.
  - intros a b. lia.
  - intros a b. rewrite Horder. apply Z.leb_le.
Qed.

(** X19. A listing comes in the order asked for: the result of
    [GetMovies] is in ascending order of the release year for the sort
    key [year_asc], in descending order of it for [year_desc], and in
    descending order of the creation date, newest first, for every
    [sort_by] that is none of the five sort keys. *)
Theorem listing_sorted (db : DB) (f : MovieFilter.t) (page : list Movie.t)
    (total : Z) (err : option error) :
  services.GetMovies db f = (page, total, err) ->
  (MovieFilter.SortBy f = "year_asc" -> ascending Movie.ReleaseYear page)
  /\ (MovieFilter.SortBy f = "year_desc" -> descending Movie.ReleaseYear page)
  /\ (~ In (MovieFilter.SortBy f) sortKeys ->
      descending Movie.CreatedAt page).
Proof.
  intros Hpage.
  apply GetMovies_movies in Hpage as [->|[offset ->]].
  { repeat split; intros _; constructor. }
  repeat split.
  - intros ->. apply StronglySorted_window. now apply Order_ascending.
  - intros ->. apply StronglySorted_window. now apply Order_descending.
  - intros Hkey. apply StronglySorted_window. apply Order_descending.
    intros a b. now apply orderOf_default.
Qed.






End ListingResults.

(** ** The categories *)

Section Categories.
Import database CategoryDB.

Lemma GetCategory_found (st : Store) (id : Z) (c : Category.t) :
  GetCategory st id = Ok c -> In c (categories st) /\ Category.ID c = id.
Proof.
  unfold GetCategory.
  destruct (List.find _ _) as [c0|] eqn:Hfind; [|discriminate].
  intros [= <-]. apply find_some in Hfind as [Hin Hid].
  split; [assumption|now apply Z.eqb_eq].
Qed.

Lemma GetCategory_missing (st : Store) (id : Z) :
  (forall c, In c (categories st) -> Category.ID c <> id) ->
  GetCategory st id = Err (errorString "category not found").
Proof.
  intros Hnone. unfold GetCategory.
  destruct (List.find _ _) as [c|] eqn:Hfind; [|reflexivity].
  apply find_some in Hfind as [Hin Hid]. apply Z.eqb_eq in Hid.
  destruct (Hnone c Hin Hid).
Qed.

Lemma GetCategory_present (st : Store) (id : Z) :
  (exists c, In c (categories st) /\ Category.ID c = id) ->
  exists c, GetCategory st id = Ok c.
Proof.
  intros (c & Hc & Hid). unfold GetCategory.
  destruct (List.find _ _) as [c0|] eqn:Hfind; [eauto|].
  apply (find_none _ _ Hfind) in Hc. apply Z.eqb_neq in Hc. contradiction.
Qed.

Lemma CategoryInUse_iff (st : Store) (id : Z) :
  CategoryInUse st id
  = Ok (existsb (fun mc => MovieCategory.CategoryID mc =? id)
          (movie_categories (base st))).
Proof. reflexivity. Qed.

Lemma DeleteCategory_unused (st : Store) (id : Z) :
  (forall mc,
     In mc (movie_categories (base st)) -> MovieCategory.CategoryID mc <> id) ->
  base (snd (CategoryDB.DeleteCategory st id)) = base st.
Proof.
  intros Hunused. cbn. destruct (base st) as [us useq ms mseq mcs ufs] eqn:Hb.
  cbn in *. f_equal. apply filter_all. intros mc Hmc.
  apply negb_true_iff, Z.eqb_neq. now apply Hunused.
Qed.

(** X22. A category is deleted only when it exists and no movie is
    linked to it.  [CategoryService.DeleteCategory] fails and leaves the
    store as it was for an id that no category has, and for a category
    some movie is linked to.  For a category that no movie is linked to
    it succeeds: the category is gone, the other categories stay, and the
    movies, their links and the users are untouched.  In every case the
    links of the store after the call name categories of the store if
    they did before. *)
Theorem delete_category_guarded (st : Store) (id : Z) :
  ((forall c, In c (categories st) -> Category.ID c <> id) ->
   CategoryService.DeleteCategory st id
   = (Some (wrapError "category not found"
              (errorString "category not found")), st))
  /\ ((exists c, In c (categories st) /\ Category.ID c = id) ->
      (exists mc,
         In mc (movie_categories (base st))
         /\ MovieCategory.CategoryID mc = id) ->
      CategoryService.DeleteCategory st id
      = (Some (errorString "category is being used by movies"), st))
  /\ ((exists c, In c (categories st) /\ Category.ID c = id) ->
      (forall mc,
         In mc (movie_categories (base st)) ->
         MovieCategory.CategoryID mc <> id) ->
      exists st',
        CategoryService.DeleteCategory st id = (None, st')
        /\ base st' = base st
        /\ (forall c,
              In c (categories st')
              <-> In c (categories st) /\ Category.ID c <> id)
        /\ GetCategory st' id = Err (errorString "category not found"))
  /\ (linksResolved st ->
      linksResolved (snd (CategoryService.DeleteCategory st id))).
Proof.
  unfold CategoryService.DeleteCategory.
  repeat match goal with |- _ /\ _ => split end.
  - intros Hnone. now rewrite GetCategory_missing.
  - intros Hsome (mc & Hmc & Hid).
    apply GetCategory_present in Hsome as [c ->]. rewrite CategoryInUse_iff.
    assert (existsb (fun mc => MovieCategory.CategoryID mc =? id)
              (movie_categories (base st)) = true) as ->; [|reflexivity].
    apply existsb_exists. exists mc. split; [assumption|now apply Z.eqb_eq].
  - intros Hsome Hunused.
    apply GetCategory_present in Hsome as [c ->]. rewrite CategoryInUse_iff.
    assert (existsb (fun mc => MovieCategory.CategoryID mc =? id)
              (movie_categories (base st)) = false) as ->.
    { apply existsb_false. intros mc Hmc. apply Z.eqb_neq.
      now apply Hunused. }
    eexists. split; [reflexivity|].
    repeat match goal with |- _ /\ _ => split end.
    + now apply DeleteCategory_unused.
    + intros c0. cbn. rewrite filter_In, negb_true_iff, Z.eqb_neq.
      reflexivity.
    + apply GetCategory_missing. intros c0 Hc0. cbn in Hc0.
      apply filter_In in Hc0 as [_ Hc0]. apply negb_true_iff in Hc0.
      now apply Z.eqb_neq.
  - intros Hlinks.
    destruct (GetCategory st id) as [c|]; [|exact Hlinks].
    rewrite CategoryInUse_iff.
    destruct (existsb _ _) eqn:Hused; [exact Hlinks|].
    cbn [CategoryDB.DeleteCategory snd]. intros mc Hmc. cbn in Hmc.
    apply filter_In in Hmc as [Hmc Hother].
    destruct (Hlinks mc Hmc) as (c0 & Hc0 & Hid). exists c0.
    split; [|exact Hid]. cbn. apply filter_In. split; [assumption|].
    now rewrite Hid.
Qed.

Lemma CreateCategory_result (st : Store) (category : Category.t) :
  CategoryService.CreateCategory st category
  = if existsb
         (fun c => String.eqb (Category.Name c) (Category.Name category))
         (categories st)
    then (Some (errorString "category already exists"), st, category)
    else
      match CategoryDB.CreateCategory st category with
      | Err err =>
          (Some (wrapError "failed to create category" err), st, category)
      | Ok (st', category') => (None, st', category')
      end.
Proof. reflexivity. Qed.

Lemma CreateCategory_created (st st' : Store) (category category' : Category.t) :
  CategoryService.CreateCategory st category = (None, st', category') ->
  (forall c, In c (categories st) -> Category.Name c <> Category.Name category)
  /\ (forall c, In c (categories st) -> Category.ID c <> Category.ID category')
  /\ Category.Name category' = Category.Name category
  /\ categories st' = (categories st ++ [category'])%list
  /\ base st' = base st.
Proof.
  rewrite CreateCategory_result.
  destruct (existsb
              (fun c => String.eqb (Category.Name c) (Category.Name category))
              (categories st)) eqn:Hname; [discriminate|].
  unfold CategoryDB.CreateCategory.
  destruct (existsb (fun c => Category.ID c =? _) (categories st)) eqn:Hkey;
    [discriminate|].
  rewrite Hname. intros [= <- <-]. cbn.
  repeat match goal with |- _ /\ _ => split end; try reflexivity.
  - intros c Hc. apply String.eqb_neq.
    now apply (proj1 (existsb_false _ _) Hname).
  - intros c Hc. apply Z.eqb_neq.
    now apply (proj1 (existsb_false _ _) Hkey).
Qed.

(** X23. Creating categories keeps their names apart.
    [CategoryService.CreateCategory] fails with "category already exists"
    for a name some category has; whenever it fails the store is as it
    was.  When it succeeds the store has one more category, at the end,
    under the name given, a name and a key that no category had; the
    movies, their links and the users are untouched.  If the names of
    the categories were distinct before the call, they are after it. *)
Theorem create_category_keeps_names_apart (st : Store)
    (category : Category.t) :
  ((exists c,
      In c (categories st) /\ Category.Name c = Category.Name category) ->
   CategoryService.CreateCategory st category
   = (Some (errorString "category already exists"), st, category))
  /\ (forall err st' category',
        CategoryService.CreateCategory st category
        = (Some err, st', category') ->
        st' = st)
  /\ (forall st' category',
        CategoryService.CreateCategory st category = (None, st', category') ->
        categories st' = (categories st ++ [category'])%list
        /\ Category.Name category' = Category.Name category
        /\ (forall c,
              In c (categories st) ->
              Category.Name c <> Category.Name category
              /\ Category.ID c <> Category.ID category')
        /\ base st' = base st)
  /\ (categoryNamesUnique st ->
      categoryNamesUnique
        (snd (fst (CategoryService.CreateCategory st category)))).
Proof.
  repeat match goal with |- _ /\ _ => split end.
  - intros (c & Hc & Hname). rewrite CreateCategory_result.
    assert (existsb
              (fun c0 => String.eqb (Category.Name c0) (Category.Name category))
              (categories st) = true) as ->; [|reflexivity].
    apply existsb_exists. exists c. split; [assumption|].
    now apply String.eqb_eq.
  - intros err st' category'. rewrite CreateCategory_result.
    destruct (existsb _ _); [now intros [= _ <- _]|].
    destruct (CategoryDB.CreateCategory st category) as [[st1 c1]|e];
      [discriminate|now intros [= _ <- _]].
  - intros st' category' Hcreate.
    apply CreateCategory_created in Hcreate
      as (Hname & Hkey & Hsame & Hrows & Hbase).
    repeat match goal with |- _ /\ _ => split end; auto.
  - intros Hunique.
    destruct (CategoryService.CreateCategory st category)
      as [[[err|] st'] category'] eqn:Hcreate; cbn [fst snd].
    + rewrite CreateCategory_result in Hcreate.
      destruct (existsb _ _); [now injection Hcreate as _ <- _|].
      destruct (CategoryDB.CreateCategory st category) as [[st1 c1]|e];
        [discriminate|now injection Hcreate as _ <- _].
    + apply CreateCategory_created in Hcreate
        as (Hname & Hkey & Hsame & Hrows & Hbase).
      intros a b Ha Hb Hab. rewrite Hrows in Ha, Hb.
      apply in_app_or in Ha, Hb.
      destruct Ha as [Ha|[<-|[]]], Hb as [Hb|[<-|[]]].
      * now apply Hunique.
      * destruct (Hname a Ha). congruence.
      * destruct (Hname b Hb). congruence.
      * reflexivity.
Qed.

(** X24. The movie service and the category service fit together: a
    category that exists, and to which no movie other than [movieID] is
    linked, can be deleted once that movie has been deleted. *)
Theorem deleted_movie_frees_category (st : Store) (id movieID : Z) :
  (exists c, In c (categories st) /\ Category.ID c = id) ->
  (forall mc,
     In mc (movie_categories (base st)) ->
     MovieCategory.CategoryID mc = id -> MovieCategory.MovieID mc = movieID) ->
  exists st',
    CategoryService.DeleteCategory
      (with_base st (snd (services.DeleteMovie (base st) movieID))) id
    = (None, st')
    /\ (forall c,
          In c (categories st')
          <-> In c (categories st) /\ Category.ID c <> id)
    /\ base st' = snd (services.DeleteMovie (base st) movieID).
Proof.
  intros Hsome Honly.
  unfold CategoryService.DeleteCategory.
  apply GetCategory_present in Hsome as [c Hc].
  assert (GetCategory
            (with_base st (snd (services.DeleteMovie (base st) movieID))) id
          = Ok c) as -> by exact Hc.
  rewrite CategoryInUse_iff.
  assert (forall mc,
            In mc (movie_categories
                     (snd (services.DeleteMovie (base st) movieID))) ->
            MovieCategory.CategoryID mc <> id) as Hunused.
  { intros mc Hmc Hid. cbn in Hmc. apply filter_In in Hmc as [Hmc Hother].
    apply negb_true_iff, Z.eqb_neq in Hother. apply Hother.
    now apply Honly. }
  assert (existsb (fun mc => MovieCategory.CategoryID mc =? id)
            (movie_categories
               (base
                  (with_base st
                     (snd (services.DeleteMovie (base st) movieID)))))
          = false) as ->.
  { apply existsb_false. intros mc Hmc. apply Z.eqb_neq.
    now apply Hunused. }
  eexists. split; [reflexivity|]. split.
  - intros c0. cbn. rewrite filter_In, negb_true_iff, Z.eqb_neq. reflexivity.
  - exact (DeleteCategory_unused
             (with_base st (snd (services.DeleteMovie (base st) movieID)))
             id Hunused).
Qed.


End Categories.

(** ** Page numbers beyond the range of the offset *)

Section PageAliases.
Context `{postgres.Postgres}.
Import database services.

Lemma wrap_mod (z : Z) : GoInt.wrap z mod 2 ^ 64 = z mod 2 ^ 64.
Proof.
  unfold GoInt.wrap. rewrite Zminus_mod, Zmod_mod, <- Zminus_mod.
  f_equal. lia.
Qed.

Lemma wrap_congruent (z z' : Z) :
  z mod 2 ^ 64 = z' mod 2 ^ 64 -> GoInt.wrap z = GoInt.wrap z'.
Proof.
  intros Hmod. unfold GoInt.wrap.
  rewrite (Zplus_mod z), (Zplus_mod z'), Hmod. reflexivity.
Qed.

Lemma offset_congruent (page page' pageSize : Z) :
  ((page - 1) * pageSize) mod 2 ^ 64 = ((page' - 1) * pageSize) mod 2 ^ 64 ->
  GoInt.mul (GoInt.sub page 1) pageSize
  = GoInt.mul (GoInt.sub page' 1) pageSize.
Proof.
  intros Hmod. unfold GoInt.mul, GoInt.sub. apply wrap_congruent.
  rewrite (Zmult_mod (GoInt.wrap (page - 1))),
          (Zmult_mod (GoInt.wrap (page' - 1))), !wrap_mod, <- !Zmult_mod.
  exact Hmod.
Qed.

(** X2. Page numbers alias.  The offset of a listing is the product
    [(page - 1) * page_size] in Go's 64-bit [int], so two page numbers
    whose products agree modulo [2 ^ 64] get the same movies, total and
    error: a page far beyond the last one can show the movies of an early
    one instead of none. *)
Theorem listing_pages_alias (db : DB) (f : MovieFilter.t)
    (page page' pageSize : Z) :
  0 < page -> 0 < page' -> 0 < pageSize ->
  ((page - 1) * pageSize) mod 2 ^ 64 = ((page' - 1) * pageSize) mod 2 ^ 64 ->
  services.GetMovies db (withPaging f page pageSize)
  = services.GetMovies db (withPaging f page' pageSize).
Proof.
  intros Hpage Hpage' Hsize Hmod.
  rewrite !GetMovies_query, !filtered_withPaging.
  unfold effectivePage, effectivePageSize.
  cbn [withPaging MovieFilter.Page MovieFilter.PageSize MovieFilter.SortBy].
  destruct (Z.leb_spec page 0); [lia|].
  destruct (Z.leb_spec page' 0); [lia|].
  destruct (Z.leb_spec pageSize 0); [lia|].
  now rewrite (offset_congruent page page' pageSize Hmod).
Qed.

End PageAliases.

(** ** Users, listed and logging in *)

Section UsersListed.
Context `{jwt.JWT} `{bcrypt.Bcrypt} `{UserHandler.JSON}.
Import database services http handlers.

(** X25. The list of users shows every user once, newest first:
    [UserService.ListUsers] never fails, what it returns is a
    rearrangement of the users table, in descending order of the creation
    date, and the handler answers 200 with these users. *)
Theorem users_listed_newest_first (db0 : DB) (r : Request) :
  exists listed,
    UserService.ListUsers db0 = Ok listed
    /\ listed ≡ₚ users db0
    /\ StronglySorted
         (fun a b => User.CreatedAt b <= User.CreatedAt a) listed
    /\ UserHandler.ListUsers db0 r
       = UserHandler.jsonOK
           (UserHandler.encodeUsers
              (List.map UserHandler.userResponse listed)).
Proof.
  eexists. split; [reflexivity|]. split; [apply merge_sort_Permutation|].
  split; [|reflexivity].
  apply StronglySorted_weaken
    with (R := fun a b => UserDB.newestFirst a b = true).
  - intros a b. unfold UserDB.newestFirst. apply Z.leb_le.
  - apply StronglySorted_merge_sort.
    + intros a b c. unfold UserDB.newestFirst. rewrite !Z.leb_le. lia.
    + intros a b. unfold UserDB.newestFirst. rewrite !Z.leb_le. lia.
Qed.

Lemma find_map_setName (id : Z) (name email : string) (l : list User.t) :
  List.find (fun u => String.eqb (User.Email u) email)
    (List.map
       (fun row =>
          if User.ID row =? id then UserService.setName row name else row) l)
  = option_map
      (fun row =>
         if User.ID row =? id then UserService.setName row name else row)
      (List.find (fun u => String.eqb (User.Email u) email) l).
Proof.
  induction l as [|row l IH]; cbn; [reflexivity|].
  assert (User.Email
            (if User.ID row =? id then UserService.setName row name else row)
          = User.Email row) as -> by now destruct (User.ID row =? id).
  destruct (String.eqb (User.Email row) email); [reflexivity|exact IH].
Qed.

(** X26. A profile update does not touch the credentials.  On a users
    table that meets its constraints, whoever can log in before
    [UserService.UpdateUser] with a non-empty name can log in after it
    with the same email and password, as the same user with the same
    admin flag; the name in the answer is the new one for the user
    updated and the old one for everybody else. *)
Theorem update_user_keeps_login (s : AuthService) (now : Z) (id : Z)
    (name email password : string) (resp : AuthResponse.t) :
  name <> "" -> usersConsistent (db s) ->
  services.Login s now email password = Ok resp ->
  exists resp',
    services.Login
      {| db := snd (UserService.UpdateUser (db s) id name);
         jwtSecret := jwtSecret s |} now email password
    = Ok resp'
    /\ AuthResponse.UserID resp' = AuthResponse.UserID resp
    /\ AuthResponse.Email resp' = AuthResponse.Email resp
    /\ AuthResponse.IsAdmin resp' = AuthResponse.IsAdmin resp
    /\ AuthResponse.Name resp'
       = if AuthResponse.UserID resp =? id then name
         else AuthResponse.Name resp.
Proof.
  intros Hname Hconsistent. rewrite !Login_result. cbn [db jwtSecret].
  destruct (UserDB.GetUser (db s) id) as [user|err] eqn:Huser.
  - rewrite (UpdateUser_result _ _ _ _ Hname Hconsistent Huser).
    cbn [snd]. unfold GetUserByEmail. cbn [with_users users].
    rewrite find_map_setName.
    destruct (List.find _ (users (db s))) as [found|]; [|discriminate].
    cbn [option_map].
    assert (User.Password
              (if User.ID found =? id then UserService.setName found name
               else found) = User.Password found) as ->
        by now destruct (User.ID found =? id).
    destruct (bcrypt.CompareHashAndPassword _ _); [|discriminate].
    intros [= <-]. eexists. split; [reflexivity|].
    cbn. destruct (User.ID found =? id); repeat split.
  - assert (snd (UserService.UpdateUser (db s) id name) = db s) as ->
        by (unfold UserService.UpdateUser; now rewrite Huser).
    destruct (GetUserByEmail (db s) email) as [found|] eqn:Hfound;
      [|discriminate].
    destruct (bcrypt.CompareHashAndPassword _ _); [|discriminate].
    intros [= <-]. eexists. split; [reflexivity|]. cbn.
    apply GetUserByEmail_found in Hfound as [Hin _].
    unfold UserDB.GetUser in Huser.
    destruct (List.find _ (users (db s))) as [u|] eqn:Hnone; [discriminate|].
    apply (find_none _ _ Hnone) in Hin. rewrite Hin. repeat split.
Qed.

End UsersListed.

(** ** Examples of the further parts *)

Section FurtherExamples.
Import database services http handlers.
Import Reference ReferenceJSON.

#[local] Arguments String.append !_ _ / : simpl nomatch.

#[export] Instance hasher_laws : BcryptLaws (H := hasher).
Proof.
  constructor. intros password cost salt hash [= <-]. simpl.
  rewrite decString_encString. apply String.eqb_refl.
Qed.

Lemma aliceToken_wellSigned :
  wellSigned (H := codec) "secret" 2000 aliceToken
    (claimsFor alice 1000 (1000 + 24 * time.Hour)).
Proof.
  eexists _, _. split; [reflexivity|].
  repeat split; try reflexivity.
  - intros exp [= <-]. reflexivity.
  - intros nbf. discriminate.
Qed.

Lemma validate_token_accepts_witness :
  ValidateToken (H := codec) exampleService 2000 aliceToken = Ok 1
  /\ (exists claims,
        wellSigned (H := codec) "secret" 2000 aliceToken claims
        /\ jwt.UserID claims = 1)
  /\ (forall err,
        ValidateToken (H := codec) exampleService 2000 forgedToken = Err err ->
        err = ErrInvalidToken).
Proof.
  destruct (@validate_token_accepts_exactly codec exampleService 2000
              aliceToken 1) as [[Hto Hfrom] _].
  destruct (@validate_token_accepts_exactly codec exampleService 2000
              forgedToken 1) as [_ Herr].
  split; [|split].
  - apply Hfrom. eexists. split; [exact aliceToken_wellSigned|reflexivity].
  - apply Hto. reflexivity.
  - exact Herr.
Defined.

Lemma forged_token_witness :
  ValidateToken (H := codec) exampleService 2000
    (extractToken (bearing forgedToken)) = Err ErrInvalidToken
  /\ RefreshToken (H := codec) exampleService 2000
       (extractToken (bearing forgedToken)) = Err ErrInvalidToken
  /\ exists message,
       forall next,
         AuthMiddleware (H := codec) exampleService 2000 next
           (bearing forgedToken)
         = sendError message StatusUnauthorized.
Proof.
  eapply (@forged_token_rejected codec exampleService 2000
            (bearing forgedToken)).
  - reflexivity.
  - right. discriminate.
Defined.


Lemma register_then_login_witness :
  bobRegistration = (Ok bobResponse, snd bobRegistration)
  /\ AuthResponse.UserID bobResponse = 2
  /\ exists resp',
       services.Login (H := codec) (H0 := hasher) (snd bobRegistration)
         5000 "bob@example.com" "hunter2" = Ok resp'
       /\ AuthResponse.UserID resp' = AuthResponse.UserID bobResponse
       /\ AuthResponse.Email resp' = "bob@example.com"
       /\ AuthResponse.Name resp' = "Bob"
       /\ AuthResponse.IsAdmin resp' = false.
Proof.
  split; [reflexivity|]. split; [reflexivity|].
  apply (@register_then_login codec hasher hasher_laws exampleService
           (snd bobRegistration) 1000 5000 "pepper" "bob@example.com"
           "hunter2" "Bob" bobResponse).
  reflexivity.
Defined.

Lemma register_handler_witness :
  AuthHandler.Register (H := codec) (H0 := hasher) exampleService 1000 "pepper"
    (bodyRequest (registerBody "alice@example.com" "hunter2" "Alice"))
  = (sendError "Email already registered" StatusConflict, exampleService)
  /\ AuthHandler.Register (H := codec) (H0 := hasher) exampleService 1000
       "pepper" (bodyRequest (registerBody "bob@example.com" "" "Bob"))
     = (sendError "Email, password, and name are required" StatusBadRequest,
        exampleService)
  /\ exists req authResp,
       AuthHandler.decodeRegisterRequest
         (Body (bodyRequest (registerBody "bob@example.com" "hunter2" "Bob")))
       = Some req
       /\ services.Register (H := codec) (H0 := hasher) exampleService 1000
            "pepper" (AuthHandler.RegisterRequest.Email req)
            (AuthHandler.RegisterRequest.Password req)
            (AuthHandler.RegisterRequest.Name req)
          = (Ok authResp, snd bobRegistration)
       /\ Written
            (fst (AuthHandler.Register (H := codec) (H0 := hasher)
                    exampleService 1000 "pepper"
                    (bodyRequest
                       (registerBody "bob@example.com" "hunter2" "Bob"))))
          = jsonAuth authResp.
Proof.
  split; [|split].
  - destruct (@register_handler_cases codec hasher authJSON exampleService
                1000 "pepper"
                (bodyRequest (registerBody "alice@example.com" "hunter2" "Alice")))
      as (_ & Hcases & _).
    destruct (Hcases _ eq_refl) as [_ Htaken].
    apply Htaken; try discriminate.
    exists alice. split; [now left|reflexivity].
  - destruct (@register_handler_cases codec hasher authJSON exampleService
                1000 "pepper"
                (bodyRequest (registerBody "bob@example.com" "" "Bob")))
      as (_ & Hcases & _).
    destruct (Hcases _ eq_refl) as [Hempty _].
    apply Hempty. right. left. reflexivity.
  - destruct (@register_handler_cases codec hasher authJSON exampleService
                1000 "pepper"
                (bodyRequest (registerBody "bob@example.com" "hunter2" "Bob")))
      as (_ & _ & Hcreated).
    apply Hcreated; reflexivity.
Defined.


Lemma extract_token_witness :
  extractToken bearerRequest = aliceToken
  /\ authorization bearerRequest = "Bearer " ++ aliceToken
  /\ hasSpace aliceToken = false
  /\ extractToken basicRequest = "".
Proof.
  destruct (extract_token_exact bearerRequest aliceToken) as [Hto Hfrom].
  assert (extractToken bearerRequest = aliceToken) as Htoken
    by (apply Hto; reflexivity).
  destruct (Hfrom Htoken ltac:(discriminate)) as [Hheader Hspace].
  split; [exact Htoken|]. split; [exact Hheader|].
  split; [exact Hspace|reflexivity].
Defined.

Lemma admin_route_gate_witness :
  routes.admin (H := codec) promotedService 2000 whoami bearerRequest
  = whoami (WithContext bearerRequest (ContextWithUserID [] 1))
  /\ exists resp,
       (forall h,
          routes.admin (H := codec) exampleService 2000 h bearerRequest = resp)
       /\ Status resp = StatusForbidden.
Proof.
  split.
  - destruct (@admin_route_gate codec promotedService 2000 bearerRequest)
      as [(userID & user & _ & Hvalid & _ & _ & _ & Hruns)
         |(resp & Hsame & Hstatus)].
    + injection Hvalid as <-. apply Hruns.
    + rewrite <- (Hsame whoami) in Hstatus.
      destruct Hstatus as [Hs|[Hs|Hs]]; discriminate Hs.
  - destruct (@admin_route_gate codec exampleService 2000 bearerRequest)
      as [(userID & user & _ & Hvalid & _ & Huser & Hadmin & _)
         |(resp & Hsame & Hstatus)].
    + injection Hvalid as <-. injection Huser as <-. discriminate Hadmin.
    + exists resp. split; [exact Hsame|].
      rewrite <- (Hsame whoami). reflexivity.
Defined.

Lemma admin_flag_witness :
  routes.admin (H := codec) exampleService 2000 whoami (bearing adminEraToken)
  = sendError "Admin access required" StatusForbidden
  /\ routes.admin (H := codec) promotedService 2000 whoami bearerRequest
     = whoami (WithContext bearerRequest (ContextWithUserID [] 1)).
Proof.
  split.
  - apply (@admin_flag_read_from_store codec codec_laws exampleService 2000
             whoami (bearing adminEraToken)
             (claimsFor aliceAdmin 1000 (1000 + 24 * time.Hour)) alice).
    + eexists _, _. split; [reflexivity|].
      repeat split; try reflexivity.
      * intros exp [= <-]. reflexivity.
      * intros nbf. discriminate.
    + discriminate.
    + reflexivity.
  - apply (@admin_flag_read_from_store codec codec_laws promotedService 2000
             whoami bearerRequest
             (claimsFor alice 1000 (1000 + 24 * time.Hour)) aliceAdmin).
    + exact aliceToken_wellSigned.
    + discriminate.
    + reflexivity.
Defined.

Lemma profile_routes_witness :
  ValidateToken (H := codec) exampleService 2000 (extractToken bearerRequest)
  = Ok 1
  /\ (exists message,
        routes.protected (H := codec) exampleService 2000
          (UserHandler.GetProfile (H := userJSON) (storeOf [alice]))
          bearerRequest
        = sendError message StatusUnauthorized)
  /\ UserHandler.UpdateProfile (H := userJSON) (storeOf [alice])
       (WithContext bearerRequest (ContextWithUserID (Ctx bearerRequest) 1))
     = (sendError "Unauthorized" StatusUnauthorized, storeOf [alice]).
Proof.
  destruct (@profile_routes_unauthorized codec userJSON exampleService 2000
              (storeOf [alice]) bearerRequest)
    as (Hget & _ & Hupdate).
  { intros n. discriminate. }
  split; [reflexivity|]. split; [exact Hget|apply Hupdate].
Defined.

Lemma storeOf_consistent : usersConsistent (storeOf [alice]).
Proof.
  split; intros a b [<-|[]] [<-|[]]; reflexivity.
Qed.

Lemma storeOf_keys : userKeysBelowSeq (storeOf [alice]).
Proof. intros u [<-|[]]. cbn. lia. Qed.

Lemma update_user_witness :
  UserService.UpdateUser (storeOf [alice]) 7 "Alicia"
  = (Err (wrapError "failed to get user" (errorString "user not found")),
     storeOf [alice])
  /\ exists db',
       UserService.UpdateUser (storeOf [alice]) 1 "Alicia"
       = (Ok (UserService.setName alice "Alicia"), db')
       /\ users db' = [UserService.setName alice "Alicia"]
       /\ UserDB.GetUser db' 1 = Ok (UserService.setName alice "Alicia")
       /\ movies db' = catalog
       /\ movie_categories db' = []
       /\ user_favorites db' = [].
Proof.
  split.
  - destruct (update_user_changes_only_name (storeOf [alice]) 7 "Alicia")
      as [Hmissing _]; [discriminate|exact storeOf_consistent|].
    apply Hmissing. reflexivity.
  - destruct (update_user_changes_only_name (storeOf [alice]) 1 "Alicia")
      as [_ Hfound]; [discriminate|exact storeOf_consistent|].
    apply (Hfound alice). reflexivity.
Defined.

Lemma users_stay_consistent_witness :
  (usersConsistent (services.db (snd bobRegistration))
   /\ userKeysBelowSeq (services.db (snd bobRegistration)))
  /\ (usersConsistent
        (snd (UserService.UpdateUser (services.db exampleService) 1 "Alicia"))
      /\ userKeysBelowSeq
           (snd (UserService.UpdateUser (services.db exampleService) 1
                   "Alicia"))).
Proof.
  apply (@users_stay_consistent codec hasher exampleService 1000 "pepper"
           "bob@example.com" "hunter2" "Bob" 1 "Alicia").
  - exact storeOf_consistent.
  - exact storeOf_keys.
  - discriminate.
Defined.

Lemma delete_movie_witness :
  GetMovie (snd (DeleteMovie (CategoryDB.base categoryStore) 3)) 3
  = Err (errorString "sql: no rows in result set")
  /\ GetMovie (snd (DeleteMovie (CategoryDB.base categoryStore) 3)) 2
     = Ok (film 2 "Brazil" 1985)
  /\ movie_categories (snd (DeleteMovie (CategoryDB.base categoryStore) 3))
     = []
  /\ MovieHandler.DeleteMovie (CategoryDB.base categoryStore) "3"
     = (MovieHandler.noContent,
        snd (DeleteMovie (CategoryDB.base categoryStore) 3))
  /\ MovieHandler.DeleteMovie (CategoryDB.base categoryStore) "three"
     = (httpError "Invalid movie ID" StatusBadRequest,
        CategoryDB.base categoryStore).
Proof.
  destruct (delete_movie_cascades (CategoryDB.base categoryStore) 3)
    as (_ & Hgone & Hothers & Hlinks & _ & _ & Hnumeric & Hother).
  split; [exact Hgone|]. split; [now rewrite Hothers|].
  split.
  - destruct (movie_categories
                (snd (DeleteMovie (CategoryDB.base categoryStore) 3)))
      as [|mc mcs] eqn:Hrows; [reflexivity|].
    discriminate Hrows.
  - split; [now apply Hnumeric|now apply Hother].
Defined.


Lemma update_movie_witness :
  exists db',
    MovieHandler.UpdateMovie (storeOf []) "2"
      (bodyRequest (encUpdateMovieRequest retitle))
    = (MovieHandler.jsonOK
         (MovieHandler.encodeMovie
            (movieResponse
               (MovieHandler.applyRequest retitle (film 2 "Brazil" 1985)))),
       db')
    /\ Movie.Title (MovieHandler.applyRequest retitle (film 2 "Brazil" 1985))
       = ""
    /\ GetMovie db' 2 = Ok (film 2 "Brazil" 1986)
    /\ GetMovie db' 4 = Ok (film 4 "Dune" 1984).
Proof.
  destruct (update_movie_partial (storeOf []) "2"
              (bodyRequest (encUpdateMovieRequest retitle)) 2 retitle
              (film 2 "Brazil" 1985))
    as [_ Hfree]; [reflexivity|reflexivity|reflexivity|discriminate|].
  destruct Hfree as (db' & Hanswer & Hstored & Hothers & _).
  { intros m Hm Htitle.
    repeat (destruct Hm as [<-|Hm]; [discriminate Htitle|]). destruct Hm. }
  exists db'. split; [exact Hanswer|]. split; [reflexivity|].
  split; [exact Hstored|]. now rewrite Hothers.
Defined.

Lemma listing_returns_matches_witness :
  services.GetMovies (storeOf [])
    (movieFilter (listingRequest {[ "year" := ["1984"] ]}))
  = ([film 4 "Dune" 1984], 1, None)
  /\ (forall m,
        In m [film 4 "Dune" 1984] ->
        In m (movies (storeOf []))
        /\ whereClauses
             (movieFilter (listingRequest {[ "year" := ["1984"] ]})) m
           = true)
  /\ Z.of_nat (length [film 4 "Dune" 1984])
     <= effectivePageSize
          (movieFilter (listingRequest {[ "year" := ["1984"] ]})).
Proof.
  split; [reflexivity|].
  apply (listing_returns_matches (storeOf [])
           (movieFilter (listingRequest {[ "year" := ["1984"] ]}))
           [film 4 "Dune" 1984] 1 None).
  reflexivity.
Defined.

Lemma listing_sorted_witness :
  ascending Movie.ReleaseYear
    [film 3 "Casablanca" 1942; film 5 "Eraserhead" 1977]
  /\ descending Movie.CreatedAt
       [film 5 "Eraserhead" 1977; film 4 "Dune" 1984;
        film 3 "Casablanca" 1942; film 2 "Brazil" 1985;
        film 1 "Alien" 1979].
Proof.
  split.
  - destruct (listing_sorted (storeOf [])
                (movieFilter
                   (listingRequest
                      {[ "sort_by" := ["year_asc"]; "page_size" := ["2"] ]}))
                [film 3 "Casablanca" 1942; film 5 "Eraserhead" 1977] 5 None)
      as (Hasc & _); [reflexivity|].
    apply Hasc. reflexivity.
  - destruct (listing_sorted (storeOf []) allMovies
                [film 5 "Eraserhead" 1977; film 4 "Dune" 1984;
                 film 3 "Casablanca" 1942; film 2 "Brazil" 1985;
                 film 1 "Alien" 1979] 5 None) as (_ & _ & Hdefault);
      [reflexivity|].
    apply Hdefault. cbn. intuition discriminate.
Defined.



Lemma delete_category_witness :
  CategoryService.DeleteCategory categoryStore 9
  = (Some (wrapError "category not found"
             (errorString "category not found")), categoryStore)
  /\ CategoryService.DeleteCategory categoryStore 1
     = (Some (errorString "category is being used by movies"), categoryStore)
  /\ exists st',
       CategoryService.DeleteCategory
         (CategoryDB.with_base categoryStore (storeOf [alice])) 1
       = (None, st')
       /\ CategoryDB.base st' = storeOf [alice]
       /\ CategoryDB.GetCategory st' 1
          = Err (errorString "category not found").
Proof.
  split; [|split].
  - destruct (delete_category_guarded categoryStore 9) as (Hmissing & _).
    apply Hmissing. intros c [<-|[]]. discriminate.
  - destruct (delete_category_guarded categoryStore 1) as (_ & Hused & _).
    apply Hused.
    + exists drama. split; [now left|reflexivity].
    + eexists. split; [now left|reflexivity].
  - destruct (delete_category_guarded
                (CategoryDB.with_base categoryStore (storeOf [alice])) 1)
      as (_ & _ & Hfree & _).
    destruct Hfree as (st' & Hdeleted & Hbase & _ & Hgone).
    + exists drama. split; [now left|reflexivity].
    + intros mc [].
    + exists st'. repeat split; assumption.
Defined.

Lemma create_category_witness :
  CategoryService.CreateCategory categoryStore drama
  = (Some (errorString "category already exists"), categoryStore, drama)
  /\ categoryNamesUnique
       (snd (fst (CategoryService.CreateCategory categoryStore
                    {| Category.ID := 0; Category.Name := "Comedy";
                       Category.CreatedAt := 0; Category.UpdatedAt := 0 |})))
  /\ CategoryDB.categories
       (snd (fst (CategoryService.CreateCategory categoryStore
                    {| Category.ID := 0; Category.Name := "Comedy";
                       Category.CreatedAt := 0; Category.UpdatedAt := 0 |})))
     = [drama;
        {| Category.ID := 2; Category.Name := "Comedy";
           Category.CreatedAt := 0; Category.UpdatedAt := 0 |}].
Proof.
  split; [|split].
  - destruct (create_category_keeps_names_apart categoryStore drama)
      as (Htaken & _).
    apply Htaken. exists drama. split; [now left|reflexivity].
  - destruct (create_category_keeps_names_apart categoryStore
                {| Category.ID := 0; Category.Name := "Comedy";
                   Category.CreatedAt := 0; Category.UpdatedAt := 0 |})
      as (_ & _ & _ & Hunique).
    apply Hunique. intros a b [<-|[]] [<-|[]] _. reflexivity.
  - destruct (create_category_keeps_names_apart categoryStore
                {| Category.ID := 0; Category.Name := "Comedy";
                   Category.CreatedAt := 0; Category.UpdatedAt := 0 |})
      as (_ & _ & Hcreated & _).
    destruct (Hcreated
                (snd (fst (CategoryService.CreateCategory categoryStore
                             {| Category.ID := 0; Category.Name := "Comedy";
                                Category.CreatedAt := 0;
                                Category.UpdatedAt := 0 |})))
                (snd (CategoryService.CreateCategory categoryStore
                        {| Category.ID := 0; Category.Name := "Comedy";
                           Category.CreatedAt := 0;
                           Category.UpdatedAt := 0 |})))
      as (Hrows & _); [reflexivity|].
    rewrite Hrows. reflexivity.
Defined.

Lemma deleted_movie_frees_witness :
  CategoryService.DeleteCategory categoryStore 1
  = (Some (errorString "category is being used by movies"), categoryStore)
  /\ exists st',
       CategoryService.DeleteCategory
         (CategoryDB.with_base categoryStore
            (snd (DeleteMovie (CategoryDB.base categoryStore) 3))) 1
       = (None, st')
       /\ (forall c,
             In c (CategoryDB.categories st')
             <-> In c (CategoryDB.categories categoryStore)
                 /\ Category.ID c <> 1)
       /\ CategoryDB.base st'
          = snd (DeleteMovie (CategoryDB.base categoryStore) 3).
Proof.
  split; [reflexivity|].
  apply (deleted_movie_frees_category categoryStore 1 3).
  - exists drama. split; [now left|reflexivity].
  - intros mc [<-|[]] _. reflexivity.
Defined.

Lemma listing_pages_alias_witness :
  services.GetMovies (storeOf []) (withPaging allMovies 4611686018427387905 4)
  = services.GetMovies (storeOf []) (withPaging allMovies 1 4)
  /\ fst (fst (services.GetMovies (storeOf []) (withPaging allMovies 1 4)))
     = [film 5 "Eraserhead" 1977; film 4 "Dune" 1984;
        film 3 "Casablanca" 1942; film 2 "Brazil" 1985].
Proof.
  split; [|reflexivity].
  apply listing_pages_alias; try lia. reflexivity.
Defined.

Lemma users_listed_witness :
  exists listed,
    UserService.ListUsers (services.db (snd bobRegistration)) = Ok listed
    /\ listed ≡ₚ users (services.db (snd bobRegistration))
    /\ StronglySorted
         (fun a b => User.CreatedAt b <= User.CreatedAt a) listed
    /\ UserHandler.ListUsers (services.db (snd bobRegistration))
         (listingRequest ∅)
       = UserHandler.jsonOK
           (UserHandler.encodeUsers
              (List.map UserHandler.userResponse listed)).
Proof.
  exact (users_listed_newest_first (services.db (snd bobRegistration))
           (listingRequest ∅)).
Defined.

Lemma update_user_keeps_login_witness :
  exists resp',
    services.Login
      {| db := snd (UserService.UpdateUser (db exampleService) 1 "Alicia");
         jwtSecret := jwtSecret exampleService |} 2000 "alice@example.com"
      "correct horse"
    = Ok resp'
    /\ AuthResponse.UserID resp' = 1
    /\ AuthResponse.Email resp' = "alice@example.com"
    /\ AuthResponse.IsAdmin resp' = false
    /\ AuthResponse.Name resp' = "Alicia".
Proof.
  apply (@update_user_keeps_login codec hasher exampleService 2000 1 "Alicia"
           "alice@example.com" "correct horse"
           (authResponse
              (signedHS256 "secret"
                 (claimsFor alice 2000 (2000 + 24 * time.Hour)))
              (24 * time.Hour) alice)).
  - discriminate.
  - exact storeOf_consistent.
  - reflexivity.
Defined.

End FurtherExamples.
